(** * live-menu: the menu reconciliation and publish pipeline

    A shallow embedding of [update_menu_automator.py] (the current script)
    and of the lab-result loop of its older variant, followed by the
    properties of the pipeline: pagination, location filtering, metadata
    join, lab-result ordering, bulk rules and the hash-gated publish step.

    Conventions of the embedding.
    - Python [str] is a Rocq [string] holding the UTF-8 bytes of the text.
      Byte-wise lexicographic order on UTF-8 is code-point order, which is
      the order Python compares strings with.  [str.strip] removes the
      white space of [str.isspace], the characters of [SPACES], whatever
      their script.  [str.lower] changes the letters of the ASCII range
      and leaves bytes above 127 alone; it is used only to compare with
      ASCII words.
    - A worksheet read with [dtype=str] has a text or NaN in each cell:
      pandas reads a blank cell, and a text that is one of its markers for
      a missing value, as NaN.
    - A value decoded from JSON is a [json].  Python's [None] and JSON's
      [null] are the same value, [JNull].
    - An exception is a value of [exn]; code that may raise returns a
      [result].  [NotModelled] marks the few places where the script would
      go on with a value this embedding has no rendering for (they are
      listed where they occur); no theorem below concludes anything from a
      run that reaches one.
    - The pagination loop need not terminate (the server chooses the page
      count), so it takes a fuel argument and returns [None] when the fuel
      is used up. *)

From Stdlib Require Import ZArith NArith Ascii String List Bool Lia.
From Stdlib Require Import DecimalString Permutation Sorted OrderedTypeEx.
From stdpp Require Import base option list sorting strings gmap.

Local Open Scope string_scope.
Local Open Scope Z_scope.

(* ===================================================================== *)
(** * Python values and built-ins                                         *)
(* ===================================================================== *)

Module Py.

(** ** Exceptions *)

Inductive exn : Type :=
| KeyError
| AttributeError
| TypeError
| ValueError
| HTTPError (status : Z)
| ConnectionError
| FileError
| InvalidOperation
| NotModelled.

Inductive result (A : Type) : Type :=
| Ok (a : A)
| Raise (e : exn).
Global Arguments Ok {A} a.
Global Arguments Raise {A} e.

Definition bind {A B : Type} (m : result A) (k : A -> result B) : result B :=
  match m with
  | Ok a => k a
  | Raise e => Raise e
  end.

(** A [for] loop whose body may raise, threading the loop's state. *)
Fixpoint for_each {S B : Type} (body : S -> B -> result S) (st : S) (l : list B)
  : result S :=
  match l with
  | [] => Ok st
  | b :: l' =>
      match body st b with
      | Ok st' => for_each body st' l'
      | Raise e => Raise e
      end
  end.

(** ** Strings *)

(** [str.isspace]: the white-space characters of Python, each as its UTF-8
    bytes.  They are U+0009 to U+000D, U+001C to U+0020, U+0085, U+00A0,
    U+1680, U+2000 to U+200A, U+2028, U+2029, U+202F, U+205F and U+3000. *)
Definition bytes (l : list Z) : string :=
  string_of_list_ascii (map (fun n => ascii_of_N (Z.to_N n)) l).

Definition SPACES : list string :=
  map bytes
    [ [9]; [10]; [11]; [12]; [13]; [28]; [29]; [30]; [31]; [32];
      [194; 133]; [194; 160]; [225; 154; 128];
      [226; 128; 128]; [226; 128; 129]; [226; 128; 130]; [226; 128; 131];
      [226; 128; 132]; [226; 128; 133]; [226; 128; 134]; [226; 128; 135];
      [226; 128; 136]; [226; 128; 137]; [226; 128; 138];
      [226; 128; 168]; [226; 128; 169]; [226; 128; 175];
      [226; 129; 159]; [227; 128; 128] ]%Z.

(** What is left of [s] after the prefix [p]. *)
Fixpoint drop_prefix (p s : string) : option string :=
  match p, s with
  | EmptyString, _ => Some s
  | String _ _, EmptyString => None
  | String a p', String b s' => if Ascii.eqb a b then drop_prefix p' s' else None
  end.

(** What follows the white-space character [s] starts with. *)
Definition after_space (s : string) : option string :=
  foldr (fun w found => match drop_prefix w s with Some r => Some r | None => found end)
        None SPACES.

(** [s.lstrip()]: white-space characters are taken off the front, one per
    turn; the length of [s] is turns enough. *)
Fixpoint lstrip_fuel (fuel : nat) (s : string) : string :=
  match fuel with
  | O => s
  | S fuel' =>
      match after_space s with
      | Some r => lstrip_fuel fuel' r
      | None => s
      end
  end.

Definition lstrip (s : string) : string := lstrip_fuel (String.length s) s.

(** [s] is made of white space only. *)
Definition blank (s : string) : bool := String.eqb (lstrip s) "".

(** [s.rstrip()]: the text up to the white space it ends with.  In UTF-8 a
    character begins where its first byte stands, and no white-space
    character begins with a byte that another one continues with, so the
    white space at the end is the longest end of [s] that is [blank]. *)
Fixpoint rstrip (s : string) : string :=
  match s with
  | EmptyString => EmptyString
  | String c s' => if blank s then EmptyString else String c (rstrip s')
  end.

(** [s.strip()] *)
Definition strip (s : string) : string := rstrip (lstrip s).

(** [c] is a byte of [s]; [c] is a byte of some white-space character. *)
Definition has_byte (c : ascii) (s : string) : bool :=
  existsb (Ascii.eqb c) (list_ascii_of_string s).

Definition space_byte (c : ascii) : bool := existsb (has_byte c) SPACES.

(** The text is ASCII. *)
Definition ascii_text (s : string) : bool :=
  forallb (fun c => (N_of_ascii c <? 128)%N) (list_ascii_of_string s).

Definition lower_ascii (c : ascii) : ascii :=
  let n := N_of_ascii c in
  if ((65 <=? n) && (n <=? 90))%N then ascii_of_N (n + 32) else c.

(** [s.lower()] *)
Fixpoint lower (s : string) : string :=
  match s with
  | EmptyString => EmptyString
  | String c s' => String (lower_ascii c) (lower s')
  end.

(** [s.replace(c, "")] for a one-character [c] *)
Fixpoint remove (c : ascii) (s : string) : string :=
  match s with
  | EmptyString => EmptyString
  | String d s' => if Ascii.eqb c d then remove c s' else String d (remove c s')
  end.

Fixpoint startswith (p s : string) : bool :=
  match p, s with
  | EmptyString, _ => true
  | String _ _, EmptyString => false
  | String a p', String b s' => Ascii.eqb a b && startswith p' s'
  end.

(** [sub in s] *)
Fixpoint contains (sub s : string) : bool :=
  startswith sub s ||
  match s with
  | EmptyString => false
  | String _ s' => contains sub s'
  end.

(** [str(n)] for an [int] *)
Definition str_int (n : Z) : string := NilZero.string_of_int (Z.to_int n).

(** ** JSON values *)

(** [JFloat] carries the IEEE-754 binary64 bit pattern of a Python
    [float]; the script only passes floats through and tests them for
    truth. *)
#[warning="-register-all"]
Inductive json : Type :=
| JNull
| JBool (b : bool)
| JInt (n : Z)
| JFloat (bits : Z)
| JStr (s : string)
| JArr (l : list json)
| JObj (o : list (string * json)).

(** Member lookup in a decoded object: [json.loads] keeps the last value
    of a repeated key. *)
Fixpoint obj_get (k : string) (o : list (string * json)) : option json :=
  match o with
  | [] => None
  | (k', v) :: o' =>
      match obj_get k o' with
      | Some v' => Some v'
      | None => if String.eqb k k' then Some v else None
      end
  end.

(** Keys of a decoded object in iteration order (first occurrence). *)
Fixpoint obj_keys (seen : list string) (o : list (string * json)) : list string :=
  match o with
  | [] => []
  | (k, _) :: o' =>
      if existsb (String.eqb k) seen then obj_keys seen o'
      else k :: obj_keys (k :: seen) o'
  end.

(** [d.get(k, dflt)]: only a [dict] has the method. *)
Definition get_default (d : json) (k : string) (dflt : json) : result json :=
  match d with
  | JObj o => Ok (default dflt (obj_get k o))
  | _ => Raise AttributeError
  end.

(** [d.get(k)] *)
Definition get (d : json) (k : string) : result json := get_default d k JNull.

(** [d[k]] on a [dict] *)
Definition getitem (d : json) (k : string) : result json :=
  match d with
  | JObj o => match obj_get k o with Some v => Ok v | None => Raise KeyError end
  | _ => Raise TypeError
  end.

(** Truth value of an object ([if x], [not x], [x or y]). *)
Definition truthy (v : json) : bool :=
  match v with
  | JNull => false
  | JBool b => b
  | JInt n => negb (n =? 0)
  | JFloat bits => negb (Z.land bits (Z.ones 63) =? 0)
  | JStr s => negb (String.eqb s "")
  | JArr l => match l with [] => false | _ => true end
  | JObj o => match o with [] => false | _ => true end
  end.

(** [x or y] *)
Definition or_else (x y : json) : json := if truthy x then x else y.

(** [str(v)].  The renderings of a float, a list and a dict ([repr]) are
    not modelled. *)
Definition str (v : json) : result string :=
  match v with
  | JNull => Ok "None"
  | JBool true => Ok "True"
  | JBool false => Ok "False"
  | JInt n => Ok (str_int n)
  | JStr s => Ok s
  | JFloat _ | JArr _ | JObj _ => Raise NotModelled
  end.

(** [v.lower()]: only a [str] has the method. *)
Definition lower_method (v : json) : result string :=
  match v with
  | JStr s => Ok (lower s)
  | _ => Raise AttributeError
  end.

Definition chars (s : string) : list json :=
  map (fun c => JStr (String c EmptyString)) (list_ascii_of_string s).

(** The elements a [for] loop draws from a value. *)
Definition iter (v : json) : result (list json) :=
  match v with
  | JArr l => Ok l
  | JStr s => Ok (chars s)
  | JObj o => Ok (map JStr (obj_keys [] o))
  | JNull | JBool _ | JInt _ | JFloat _ => Raise TypeError
  end.

(** ** [int(s)] on text *)

Definition is_digit (c : ascii) : bool :=
  let n := N_of_ascii c in ((48 <=? n) && (n <=? 57))%N.

Definition digit_value (c : ascii) : Z := Z.of_N (N_of_ascii c) - 48.

(** The blanks [int] skips around an ASCII literal (C's [isspace]). *)
Definition is_cspace (c : ascii) : bool :=
  let n := N_of_ascii c in
  (((9 <=? n) && (n <=? 13)) || (n =? 32))%N.

Fixpoint drop_while (p : ascii -> bool) (l : list ascii) : list ascii :=
  match l with
  | [] => []
  | c :: l' => if p c then drop_while p l' else l
  end.

Definition trim (p : ascii -> bool) (l : list ascii) : list ascii :=
  rev (drop_while p (rev (drop_while p l))).

(** Decimal digits with single underscores between them; [after_digit]
    says whether the character just read was a digit. *)
Fixpoint int_digits (acc : Z) (after_digit : bool) (l : list ascii) : option Z :=
  match l with
  | [] => if after_digit then Some acc else None
  | c :: l' =>
      if is_digit c then int_digits (10 * acc + digit_value c) true l'
      else if Ascii.eqb c "_" then
        if after_digit then int_digits acc false l' else None
      else None
  end.

(** The integer an ASCII literal stands for, if any. *)
Definition int_literal (s : string) : option Z :=
  match trim is_cspace (list_ascii_of_string s) with
  | "+"%char :: l => int_digits 0 false l
  | "-"%char :: l => Z.opp <$> int_digits 0 false l
  | l => int_digits 0 false l
  end.

(** The number of digits [int] reads whatever the version and the
    configuration of the interpreter. *)
Definition INT_MAX_STR_DIGITS : nat := 4300.

(** [int(s)] in base ten.  On a text with a character outside ASCII Python
    also reads the decimal digits of other scripts and skips every
    white-space character; a longer text may be refused for its length:
    neither is modelled. *)
Definition int_of_str (s : string) : result Z :=
  if ascii_text s && (String.length s <=? INT_MAX_STR_DIGITS)%nat then
    match int_literal s with
    | Some n => Ok n
    | None => Raise ValueError
    end
  else Raise NotModelled.

(** ** [decimal.Decimal(s)] and [float(d)] *)

Inductive decimal : Type :=
| DFin (neg : bool) (coeff : Z) (exp : Z)     (* (-1)^neg * coeff * 10^exp *)
| DInf (neg : bool)
| DNaN (neg : bool) (signaling : bool).

(** A Python [float] obtained from a decimal.  [Fnear neg c e] is the
    binary64 value nearest to [(-1)^neg * c * 10^e]; the rounding itself is
    not modelled, so two terms may stand for the same float. *)
Inductive pyfloat : Type :=
| Fnan
| Finf (neg : bool)
| Fnear (neg : bool) (coeff : Z) (exp : Z).

(** The number a float was read from, as a fraction: [num / den]. *)
Definition read_from (f : pyfloat) (num den : Z) : Prop :=
  match f with
  | Fnear neg c e =>
      0 < den /\
      (if neg then - c else c) * 10 ^ Z.max e 0 * den = num * 10 ^ Z.max (- e) 0
  | Fnan | Finf _ => False
  end.

Fixpoint span_digits (l : list ascii) : list ascii * list ascii :=
  match l with
  | c :: l' =>
      if is_digit c then let (d, r) := span_digits l' in (c :: d, r)
      else ([], l)
  | [] => ([], [])
  end.

Definition digits_value (l : list ascii) : Z :=
  fold_left (fun acc c => 10 * acc + digit_value c) l 0.

Definition all_digits (l : list ascii) : bool := forallb is_digit l.

Definition split_sign (l : list ascii) : bool * list ascii :=
  match l with
  | "-"%char :: r => (true, r)
  | "+"%char :: r => (false, r)
  | _ => (false, l)
  end.

(** The exponent part: empty, or [E], an optional sign and digits. *)
Definition exponent_part (l : list ascii) : option Z :=
  match l with
  | [] => Some 0
  | c :: r =>
      if Ascii.eqb (lower_ascii c) "e" then
        let (neg, ds) := split_sign r in
        match ds with
        | [] => None
        | _ => if all_digits ds
               then Some (if neg then - digits_value ds else digits_value ds)
               else None
        end
      else None
  end.

(** The bounds of the module on a 64-bit build: the largest exponent of
    the leading digit and the smallest exponent of the last one. *)
Definition MAX_EMAX : Z := 999999999999999999.
Definition MIN_ETINY : Z := -1999999999999999997.

(** The exponent of the leading digit of the coefficient written [ds],
    whose last digit has exponent [e]. *)
Definition adjusted (ds : list ascii) (e : Z) : Z :=
  e + Z.max 1 (Z.of_nat (length (drop_while (Ascii.eqb "0") ds))) - 1.

(** A finite numeral: digits with an optional point, at least one digit in
    all, then the exponent part; the value is kept exactly, so it is
    refused when it is out of the bounds. *)
Definition finite_part (neg : bool) (l : list ascii) : option decimal :=
  let (ip, r) := span_digits l in
  let (fp, r') :=
    match r with
    | "."%char :: r1 => span_digits r1
    | _ => ([], r)
    end in
  match (ip ++ fp)%list with
  | [] => None
  | ds =>
      e ← exponent_part r';
      let e' := e - Z.of_nat (length fp) in
      if (MAX_EMAX <? adjusted ds e') || (e' <? MIN_ETINY) then None
      else Some (DFin neg (digits_value ds) e')
  end.

(** The numeric-string grammar of the decimal module on ASCII text, names
    without regard to case. *)
Definition decimal_literal (t : string) : option decimal :=
  let (neg, l) := split_sign (list_ascii_of_string t) in
  let low := string_of_list_ascii (map lower_ascii l) in
  if String.eqb low "inf" || String.eqb low "infinity" then Some (DInf neg)
  else if startswith "nan" low then
    if all_digits (skipn 3 l) then Some (DNaN neg false) else None
  else if startswith "snan" low then
    if all_digits (skipn 4 l) then Some (DNaN neg true) else None
  else finite_part neg l.

(** [Decimal(s)]: the white space around the text and every underscore are
    dropped, then the grammar is read.  When a character outside ASCII is
    left, Python reads the decimal digits of other scripts and takes white
    space for a blank; that is not modelled. *)
Definition Decimal (s : string) : result decimal :=
  let t := remove "_" (strip s) in
  if ascii_text t then
    match decimal_literal t with
    | Some d => Ok d
    | None => Raise InvalidOperation
    end
  else Raise NotModelled.

(** The magnitude [c * 10^e] rounds to no finite binary64 value: it is at
    least [2^1024 - 2^970], half way between the largest one and [2^1024]. *)
Definition overflows (c e : Z) : bool :=
  let limit := 2 ^ 1024 - 2 ^ 970 in
  if c =? 0 then false
  else if 309 <=? e then true                    (* [10^309 > 2^1024] *)
  else if 0 <=? e then limit <=? c * 10 ^ e
  else if Z.log2 c <? - e then false             (* [c < 2^(-e) < 10^(-e)] *)
  else limit * 10 ^ (- e) <=? c.

(** [float(d)]: a signaling NaN raises [ValueError] ([None]); a finite
    decimal too large for a float gives an infinity. *)
Definition float_of_decimal (d : decimal) : option pyfloat :=
  match d with
  | DFin neg c e => if overflows c e then Some (Finf neg) else Some (Fnear neg c e)
  | DInf neg => Some (Finf neg)
  | DNaN _ false => Some Fnan
  | DNaN _ true => None
  end.

(** ** [sorted(l, key=...)] and insertion-ordered [dict] *)

Section Sorting.
Context {A K : Type} (key : A -> K) (ltb : K -> K -> bool).

(** [x] goes in front of the first element whose key is not smaller, so
    equal keys keep the order they came in: the sort is stable, as
    Python's is. *)
Fixpoint insert_by (x : A) (l : list A) : list A :=
  match l with
  | [] => [x]
  | y :: l' => if ltb (key y) (key x) then y :: insert_by x l' else x :: l
  end.

Definition sorted (l : list A) : list A := foldr insert_by [] l.

(** [a] may stand before [b] in the result: the key of [b] is not smaller. *)
Definition key_le (a b : A) : Prop := ltb (key b) (key a) = false.

End Sorting.

(** A [dict] with integer keys: assignment to a key already present
    replaces the value where it stands, a new key goes to the end. *)
Fixpoint dict_set {V : Type} (k : Z) (v : V) (d : list (Z * V)) : list (Z * V) :=
  match d with
  | [] => [(k, v)]
  | (k', v') :: d' =>
      if k =? k' then (k, v) :: d' else (k', v') :: dict_set k v d'
  end.

Fixpoint dict_get {V : Type} (k : Z) (d : list (Z * V)) : option V :=
  match d with
  | [] => None
  | (k', v) :: d' => if k =? k' then Some v else dict_get k d'
  end.

Definition keys {V : Type} (d : list (Z * V)) : list Z := map fst d.
Definition values {V : Type} (d : list (Z * V)) : list V := map snd d.

End Py.

Import Py.

Notation "x <- m ;; k" := (Py.bind m (fun x => k))
  (at level 100, m at next level, right associativity).

(* ===================================================================== *)
(** * The metadata spreadsheet                                            *)
(* ===================================================================== *)

Module Excel.

(** A cell read with [dtype=str]: text, or NaN.  A cell is read as NaN
    when it is blank and when its text is one of the markers pandas takes
    for a missing value, so that the text of a cell is never one of
    those. *)
Inductive cell : Type :=
| CNaN
| CStr (s : string).

(** The markers of a missing value ([STR_NA_VALUES] of pandas 2; earlier
    versions have all but [None]). *)
Definition NA_VALUES : list string :=
  [""; "#N/A"; "#N/A N/A"; "#NA"; "-1.#IND"; "-1.#QNAN"; "-NaN"; "-nan";
   "1.#IND"; "1.#QNAN"; "<NA>"; "N/A"; "NA"; "NULL"; "NaN"; "None"; "n/a";
   "nan"; "null"].

(** A text [parse] can return for a cell. *)
Definition is_text (s : string) : bool := negb (existsb (String.eqb s) NA_VALUES).

Definition as_parsed (c : cell) : bool :=
  match c with
  | CNaN => true
  | CStr s => is_text s
  end.

(** A worksheet as [parse] returns it: the header row and the data rows,
    every row as long as the header.  Headers are taken to be distinct
    once stripped. *)
Record sheet : Type := {
  columns : list string;
  rows : list (list cell)
}.

(** The workbook: its first worksheet and the worksheet named
    [BulkRules] when there is one. *)
Record workbook : Type := {
  first_sheet : sheet;
  BulkRules : option sheet
}.

(** A row under the stripped header ([df.columns = [c.strip() ...]]). *)
Definition series : Type := list (string * cell).

Definition iterrows (sh : sheet) : list series :=
  map (fun r => zip (map strip (columns sh)) r) (rows sh).

(** [row.get(k)]: [None] when there is no such column. *)
Fixpoint row_get (k : string) (row : series) : option cell :=
  match row with
  | [] => None
  | (c, v) :: row' => if String.eqb k c then Some v else row_get k row'
  end.

(** [str(v)] of a cell *)
Definition cell_str (v : cell) : string :=
  match v with
  | CNaN => "nan"
  | CStr s => s
  end.

(** [pd.isna(v)] of what [row.get] returned *)
Definition isna (v : option cell) : bool :=
  match v with
  | None | Some CNaN => true
  | Some (CStr _) => false
  end.

(** Truth value of what [row.get] returned: NaN is a non-zero float. *)
Definition cell_truthy (v : option cell) : bool :=
  match v with
  | None => false
  | Some CNaN => true
  | Some (CStr s) => negb (String.eqb s "")
  end.

(** The text [_to_money] hands to [Decimal]. *)
Definition money_text (s : string) : string :=
  remove "," (remove "$" (strip s)).

(** [_to_money(v)]: every exception is caught and gives [None].  The
    default value of [row.get("Price", "")] is passed as the text it is. *)
Definition _to_money (v : option cell) : result (option pyfloat) :=
  match v with
  | None => Ok None
  | Some c =>
      match Decimal (money_text (cell_str c)) with
      | Ok d => Ok (float_of_decimal d)
      | Raise NotModelled => Raise NotModelled
      | Raise _ => Ok None
      end
  end.

(** A value of [product_map].  The [bulk_pricing] member is left out: it
    is decoded with every failure caught and nothing reads it. *)
Record product : Type := {
  price : option pyfloat;
  type : option string
}.

Record bulk_rule : Type := {
  ProductGroup : string;
  MinQty : Z;
  Price : option pyfloat
}.

(** The row filter of the products table:
    [df["Product"].notna() & (df["Product"].str.strip() != "")]. *)
Definition has_product (row : series) : bool :=
  match row_get "Product" row with
  | Some (CStr s) => negb (String.eqb (strip s) "")
  | _ => false
  end.

Definition product_name (row : series) : string :=
  strip (cell_str (default CNaN (row_get "Product" row))).

Definition product_of_row (row : series) : result product :=
  p <- _to_money (Some (default (CStr "") (row_get "Price" row))) ;;
  Ok {| price := p;
        type := if isna (row_get "Type" row) then None
                else Some (strip (cell_str (default CNaN (row_get "Type" row)))) |}.

Definition product_step (m : gmap string product) (row : series)
  : result (gmap string product) :=
  p <- product_of_row row ;;
  Ok (<[product_name row := p]> m).

Definition product_table (sh : sheet) : result (gmap string product) :=
  if existsb (String.eqb "Product") (map strip (columns sh))
  then for_each product_step ∅ (filter (fun r => has_product r = true) (iterrows sh))
  else Raise KeyError.

(** [int(mq)]: a blank cell is the float NaN, which has no integer. *)
Definition int_of_cell (c : cell) : result Z :=
  match c with
  | CNaN => Raise ValueError
  | CStr s => int_of_str s
  end.

(** One turn of the loop over the [BulkRules] rows. *)
Definition bulk_step (acc : list bulk_rule) (row : series) : result (list bulk_rule) :=
  let pg := row_get "ProductGroup" row in
  let mq := row_get "MinQty" row in
  let pr := row_get "Price" row in
  if cell_truthy pg && cell_truthy mq && cell_truthy pr then
    n <- int_of_cell (default CNaN mq) ;;
    p <- _to_money pr ;;
    Ok (acc ++ [ {| ProductGroup := strip (cell_str (default CNaN pg));
                    MinQty := n;
                    Price := p |} ])%list
  else Ok acc.

Definition bulk_table (sh : option sheet) : result (list bulk_rule) :=
  match sh with
  | None => Ok []
  | Some sh => for_each bulk_step [] (iterrows sh)
  end.

(** A field of a bulk-rule row that is not there: the worksheet has no such
    column.  It is the one value of [row.get] the guard of the loop takes
    for false: a blank cell is NaN, which is true, and the text of a cell
    is never empty. *)
Definition missing (v : option cell) : Prop := v = None.

(** A worksheet as [parse] returns it: every row is as long as the header
    and no cell holds the text of a marker of a missing value. *)
Definition well_read (sh : sheet) : Prop :=
  Forall (fun r => length r = length (columns sh) /\ forallb as_parsed r = true) (rows sh).

(** The stripped header has the column. *)
Definition has_column (k : string) (sh : sheet) : bool :=
  existsb (String.eqb k) (map strip (columns sh)).

(** [build_excel_map(path)]; [None] is a file that is missing or is not a
    workbook. *)
Definition build_excel_map (file : option workbook)
  : result (gmap string product * list bulk_rule) :=
  match file with
  | None => Raise FileError
  | Some xl =>
      product_map <- product_table (first_sheet xl) ;;
      bulk_rules <- bulk_table (BulkRules xl) ;;
      Ok (product_map, bulk_rules)
  end.

End Excel.

Import Excel.

(* ===================================================================== *)
(** * update_menu_automator.py                                            *)
(* ===================================================================== *)

Module Menu.

Definition ROOMS : list string := ["vault - finished goods"; "low inventory"].

(** [x in ROOMS] *)
Definition in_ROOMS (x : string) : bool := existsb (String.eqb x) ROOMS.

Definition ANALYTES : list string :=
  ["thc"; "thca"; "cbd"; "cbda"; "cbg"; "cbc"; "cbn"; "limonene"; "myrcene";
   "pinene"; "linalool"; "caryophyllene"].

(** What [requests.get] comes back with: no response at all (time-out,
    connection failure), or a status and a body that decodes as JSON or
    does not. *)
Inductive reply : Type :=
| NoReply
| Reply (status : Z) (body : option json).

(** [resp.raise_for_status()] *)
Definition raise_for_status (status : Z) : result unit :=
  if (400 <=? status) && (status <? 600) then Raise (HTTPError status) else Ok tt.

(** [resp.json()] *)
Definition json_body (body : option json) : result json :=
  match body with
  | Some v => Ok v
  | None => Raise ValueError
  end.

(** ** Step 1: packages *)

(** A value of [packages_map]. *)
Module Pkg.
Record t : Type := {
  Id : Z;
  Label : json;
  ItemName : string;
  Quantity : json;
  Type_ : option string;
  Price : option pyfloat
}.
End Pkg.

(** [pkg.get("LocationName", "").lower() in ROOMS] *)
Definition selected (pkg : json) : result bool :=
  loc <- get_default pkg "LocationName" (JStr "") ;;
  l <- lower_method loc ;;
  Ok (in_ROOMS l).

(** The value of [item_name] after the two [if]s. *)
Definition item_name (pkg : json) : result json :=
  item <- get pkg "Item" ;;
  nested <- match item with
            | JObj _ => get item "Name"
            | _ => Ok JNull
            end ;;
  if truthy nested then Ok nested else get pkg "ItemName".

(** [pkg["Item"].get("Name")] when [pkg["Item"]] is a dict, on the members
    of [pkg]. *)
Definition nested_name (o : list (string * json)) : json :=
  match obj_get "Item" o with
  | Some (JObj i) => default JNull (obj_get "Name" i)
  | _ => JNull
  end.

(** A value used as a key of [packages_map]: the ids of the inventory
    source are integers; a list or a dict cannot be hashed; keys of another
    hashable type are not modelled. *)
Definition as_key (v : json) : result Z :=
  match v with
  | JInt n => Ok n
  | JArr _ | JObj _ => Raise TypeError
  | JNull | JBool _ | JFloat _ | JStr _ => Raise NotModelled
  end.

(** [pkg["Id"]] as a key *)
Definition package_id (pkg : json) : result Z :=
  v <- getitem pkg "Id" ;;
  as_key v.

(** [excel_map.get(name, {}).get("type")] and likewise for ["price"] *)
Definition excel_type (excel_map : gmap string product) (name : string) : option string :=
  match excel_map !! name with
  | Some p => type p
  | None => None
  end.

Definition excel_price (excel_map : gmap string product) (name : string) : option pyfloat :=
  match excel_map !! name with
  | Some p => price p
  | None => None
  end.

(** The dict assigned to [packages_map[pkg["Id"]]], its members computed
    in the order of the display, the key last. *)
Definition package_entry (excel_map : gmap string product) (pkg : json) : result Pkg.t :=
  name <- item_name pkg ;;
  id <- getitem pkg "Id" ;;
  label <- get pkg "Label" ;;
  text <- str name ;;
  qty <- get pkg "Quantity" ;;
  key <- as_key id ;;
  Ok {| Pkg.Id := key;
        Pkg.Label := label;
        Pkg.ItemName := strip text;
        Pkg.Quantity := qty;
        Pkg.Type_ := excel_type excel_map (strip text);
        Pkg.Price := excel_price excel_map (strip text) |}.

(** The body of [for pkg in data.get("Data", [])]. *)
Definition package_step (excel_map : gmap string product)
    (packages_map : list (Z * Pkg.t)) (pkg : json) : result (list (Z * Pkg.t)) :=
  sel <- selected pkg ;;
  if sel then
    e <- package_entry excel_map pkg ;;
    Ok (dict_set (Pkg.Id e) e packages_map)
  else Ok packages_map.

(** [page >= data.get("TotalPages", 1)]; the comparison with a float is
    not modelled. *)
Definition last_page (page : Z) (data : json) : result bool :=
  total <- get_default data "TotalPages" (JInt 1) ;;
  match total with
  | JInt n => Ok (n <=? page)
  | JBool b => Ok ((if b then 1 else 0) <=? page)
  | JFloat _ => Raise NotModelled
  | JNull | JStr _ | JArr _ | JObj _ => Raise TypeError
  end.

(** The packages of a page, as the loop draws them. *)
Definition page_data (data : json) : result (list json) :=
  d <- get_default data "Data" (JArr []) ;;
  iter d.

(** One turn of [while True]: the request for [page], the loop over its
    packages and the exit test. *)
Definition fetch_page (excel_map : gmap string product) (inventory : Z -> reply)
    (page : Z) (packages_map : list (Z * Pkg.t))
  : result (list (Z * Pkg.t) * bool) :=
  match inventory page with
  | NoReply => Raise ConnectionError
  | Reply status body =>
      _ <- raise_for_status status ;;
      data <- json_body body ;;
      pkgs <- page_data data ;;
      packages_map' <- for_each (package_step excel_map) packages_map pkgs ;;
      stop <- last_page page data ;;
      Ok (packages_map', stop)
  end.

(** The pagination loop.  The result pairs the page numbers requested, in
    order, with the map or the exception that ended the loop. *)
Fixpoint fetch_loop (fuel : nat) (excel_map : gmap string product)
    (inventory : Z -> reply) (page : Z) (packages_map : list (Z * Pkg.t))
    (requested : list Z) : option (list Z * result (list (Z * Pkg.t))) :=
  match fuel with
  | O => None
  | S fuel' =>
      let requested' := (requested ++ [page])%list in
      match fetch_page excel_map inventory page packages_map with
      | Raise e => Some (requested', Raise e)
      | Ok (packages_map', true) => Some (requested', Ok packages_map')
      | Ok (packages_map', false) =>
          fetch_loop fuel' excel_map inventory (page + 1) packages_map' requested'
      end
  end.

Definition fetch_packages (fuel : nat) (excel_map : gmap string product)
    (inventory : Z -> reply) : option (list Z * result (list (Z * Pkg.t))) :=
  fetch_loop fuel excel_map inventory 1 [] [].

(** The packages the loop has drawn once it has been through [pages]. *)
Definition page_packages (r : reply) : list json :=
  match r with
  | Reply _ (Some data) =>
      match page_data data with
      | Ok pkgs => pkgs
      | Raise _ => []
      end
  | _ => []
  end.

Definition packages_seen (inventory : Z -> reply) (pages : list Z) : list json :=
  concat (map (fun n => page_packages (inventory n)) pages).

(** A package the loop keeps, with the entry it stores for it. *)
Definition retained (excel_map : gmap string product) (pkg : json) (e : Pkg.t) : Prop :=
  selected pkg = Ok true /\ package_entry excel_map pkg = Ok e.

(** The keys of a map are distinct and each entry sits under its own id. *)
Definition keyed (packages_map : list (Z * Pkg.t)) : Prop :=
  NoDup (keys packages_map) /\ forall k e, (k, e) ∈ packages_map -> Pkg.Id e = k.

(** A package the loop gets past: it is skipped, or kept with an entry. *)
Definition processable (excel_map : gmap string product) (pkg : json) : Prop :=
  selected pkg = Ok false \/ exists e, retained excel_map pkg e.

(** A response the loop gets through: the status is no HTTP error, the
    body is a JSON object whose packages can be processed, and its
    [TotalPages] member is the integer [total], or is missing when [total]
    is [None]. *)
Definition page_reports (excel_map : gmap string product) (r : reply)
    (total : option Z) : Prop :=
  exists status o pkgs,
    r = Reply status (Some (JObj o)) /\
    raise_for_status status = Ok tt /\
    page_data (JObj o) = Ok pkgs /\
    Forall (processable excel_map) pkgs /\
    obj_get "TotalPages" o = JInt <$> total.

(** ** Step 2: lab results *)

(** An element of a [lab_by_pkg] list.  A record is appended only after
    [.lower()] went through on its [TestTypeName] and an analyte was found
    in it, so the member is always text and is kept as such. *)
Module Lab.
Record t : Type := {
  TestTypeName : string;
  TestResultLevel : json
}.
End Lab.

Definition text_of (v : json) : string :=
  match v with
  | JStr s => s
  | _ => ""
  end.

(** [any(a in name for a in ANALYTES)] *)
Definition is_analyte (name : string) : bool :=
  existsb (fun a => contains a name) ANALYTES.

(** The body of [for rec in lr.json().get("Data", [])]. *)
Definition lab_step (acc : list Lab.t) (rec : json) : result (list Lab.t) :=
  t <- get rec "TestTypeName" ;;
  name <- lower_method (or_else t (JStr "")) ;;
  if is_analyte name then
    level <- get rec "TestResultLevel" ;;
    Ok (acc ++ [ {| Lab.TestTypeName := text_of t; Lab.TestResultLevel := level |} ])%list
  else Ok acc.

(** What one record of a response adds to the list: itself, reduced to
    two members, or nothing. *)
Definition kept_tests (rec : json) : list Lab.t :=
  match lab_step [] rec with
  | Ok l => l
  | Raise _ => []
  end.

(** Ascending order of analyte names. *)
Definition names_ascending (l : list Lab.t) : Prop :=
  StronglySorted (fun a b => String.leb a b = true) (map Lab.TestTypeName l).

(** The request for one package and what it appends to [lab_by_pkg[pid]]:
    any status other than 200 appends nothing. *)
Definition lab_fetch (labs : Z -> reply) (acc : list Lab.t) (pid : Z) : result (list Lab.t) :=
  match labs pid with
  | NoReply => Raise ConnectionError
  | Reply status body =>
      if status =? 200 then
        data <- json_body body ;;
        recs <- page_data data ;;
        for_each lab_step acc recs
      else Ok acc
  end.

(** [for pid in packages_map: ...] over [lab_by_pkg]. *)
Definition lab_loop (labs : Z -> reply) (lab_by_pkg : list (Z * list Lab.t))
    (pids : list Z) : result (list (Z * list Lab.t)) :=
  for_each
    (fun acc pid =>
       l <- lab_fetch labs (default [] (dict_get pid acc)) pid ;;
       Ok (dict_set pid l acc))
    lab_by_pkg pids.

(** [x["TestTypeName"] or ""] *)
Definition lab_key (x : Lab.t) : string :=
  if String.eqb (Lab.TestTypeName x) "" then "" else Lab.TestTypeName x.

(** [sorted(lab_by_pkg[pid], key=...)] *)
Definition sort_labs (l : list Lab.t) : list Lab.t := sorted lab_key String.ltb l.

Definition lab_results (labs : Z -> reply) (packages_map : list (Z * Pkg.t))
  : result (list (Z * list Lab.t)) :=
  lab_by_pkg <- lab_loop labs (map (fun pid => (pid, [])) (keys packages_map))
                         (keys packages_map) ;;
  Ok (map (fun kv => (fst kv, sort_labs (snd kv))) lab_by_pkg).

(** ** The final document *)

(** An element of [final]. *)
Module Item.
Record t : Type := {
  Id : Z;
  Label : json;
  ItemName : string;
  Quantity : json;
  Type_ : option string;
  Price : option pyfloat;
  LabResults : list Lab.t
}.
End Item.

Definition item_of (lab_by_pkg : list (Z * list Lab.t)) (pkg : Pkg.t) : Item.t :=
  {| Item.Id := Pkg.Id pkg;
     Item.Label := Pkg.Label pkg;
     Item.ItemName := Pkg.ItemName pkg;
     Item.Quantity := Pkg.Quantity pkg;
     Item.Type_ := Pkg.Type_ pkg;
     Item.Price := Pkg.Price pkg;
     Item.LabResults := default [] (dict_get (Pkg.Id pkg) lab_by_pkg) |}.

Definition final (packages_map : list (Z * Pkg.t)) (lab_by_pkg : list (Z * list Lab.t))
  : list Item.t :=
  map (item_of lab_by_pkg) (sorted Pkg.Id Z.ltb (values packages_map)).

Record payload : Type := {
  items : list Item.t;
  bulkRules : list bulk_rule
}.

(** What the run reads from outside: the spreadsheet as downloaded, the
    inventory source by page number, the lab-result source by package
    id. *)
Record upstream : Type := {
  excel : option workbook;
  inventory : Z -> reply;
  labs : Z -> reply
}.

(** The script from step 0 down to [payload]: [None] when the pagination
    loop is still going after [fuel] pages.  The download of the
    spreadsheet is run with [check=False]; what counts is the file found
    at [LOCAL_EXCEL] afterwards, which is [excel up]. *)
Definition build_payload (fuel : nat) (up : upstream) : option (result payload) :=
  match build_excel_map (excel up) with
  | Raise e => Some (Raise e)
  | Ok (excel_map, bulk_rules) =>
      match fetch_packages fuel excel_map (inventory up) with
      | None => None
      | Some (_, Raise e) => Some (Raise e)
      | Some (_, Ok packages_map) =>
          Some (lab_by_pkg <- lab_results (labs up) packages_map ;;
                Ok {| items := final packages_map lab_by_pkg;
                      bulkRules := bulk_rules |})
      end
  end.

(** The metadata map of a run and the packages its pagination loop drew,
    in the order it drew them. *)
Definition metadata (up : upstream) : gmap string product :=
  match build_excel_map (excel up) with
  | Ok (excel_map, _) => excel_map
  | Raise _ => ∅
  end.

Definition pages_requested (fuel : nat) (up : upstream) : list Z :=
  match fetch_packages fuel (metadata up) (inventory up) with
  | Some (requested, _) => requested
  | None => []
  end.

Definition seen_by_run (fuel : nat) (up : upstream) : list json :=
  packages_seen (inventory up) (pages_requested fuel up).

(** ** Change detection and publication *)

Inductive action : Type :=
| GitPull
| WriteFile (content : string)
| GitAdd
| GitCommit
| GitPush.

(** The working copy as [git pull --rebase] finds it: the status it
    returns and [menu.json] as the pull leaves it. *)
Record remote : Type := {
  pull_status : Z;
  pulled_file : option string
}.

Record outcome : Type := {
  exit_code : Z;
  actions : list action;
  menu_json : option string;        (* [OUTPUT_PATH] when the run ends *)
  serialized : option string        (* [new_json], when the run got that far *)
}.

Section Publisher.

(** [json.dumps(payload, ensure_ascii=False, separators=(",", ":"))] and
    [hashlib.sha256(bytes).hexdigest()], two functions of the libraries. *)
Variable dumps : payload -> string.
Variable sha256 : string -> string.

(** [file_hash(path)], on the content of the file; [None] when it does
    not exist. *)
Definition file_hash (file : option string) : option string :=
  match file with
  | None => None
  | Some content => Some (sha256 content)
  end.

Definition publish (p : payload) (file : option string) (git : remote) : outcome :=
  let new_json := dumps p in
  let old_hash := file_hash file in
  let new_hash := sha256 new_json in
  if decide (old_hash = Some new_hash) then
    {| exit_code := 0; actions := []; menu_json := file;
       serialized := Some new_json |}
  else if negb (pull_status git =? 0) then
    {| exit_code := 1; actions := [GitPull]; menu_json := pulled_file git;
       serialized := Some new_json |}
  else
    {| exit_code := 0;
       actions := [GitPull; WriteFile new_json; GitAdd; GitCommit; GitPush];
       menu_json := Some new_json;
       serialized := Some new_json |}.

(** One run of the script, once the credentials are loaded.  An exception
    nobody catches ends the process with status 1 before anything is
    written. *)
Definition run (fuel : nat) (up : upstream) (file : option string) (git : remote)
  : option outcome :=
  match build_payload fuel up with
  | None => None
  | Some (Raise e) =>
      Some {| exit_code := 1; actions := []; menu_json := file; serialized := None |}
  | Some (Ok p) => Some (publish p file git)
  end.

End Publisher.

End Menu.

(* ===================================================================== *)
(** * The older variant of the script: its lab-result loop                *)
(* ===================================================================== *)

Module Legacy.

Import Menu.

(** [ANALYTES], after [a.lower()] on every name. *)
Definition ANALYTES : list string :=
  ["cbd"; "cbda"; "cbn"; "thc"; "thca"; "cbdv"; "cbg"; "cbga"; "δ8-thc"; "thcv"; "cbc";
   "alpha-pinene"; "camphene"; "sabinene"; "beta-pinene"; "beta-myrcene"; "3-carene";
   "alpha-terpinene"; "p-cymene"; "d-limonene"; "eucalyptol"; "o-cymene"; "gamma-terpinene";
   "sabinene hydrate"; "terpinolene"; "enochone"; "linalool"; "fenchol"; "isopulegol";
   "camphor"; "isoborneol"; "borneol"; "menthol"; "terpineol"; "nerol"; "pulegone";
   "geraniol"; "geraniol acetate"; "alpha-cedrene"; "beta-caryophyllene"; "alpha-humulene";
   "valencene"; "cis-nerolidol"; "trans-nerolidol"; "caryophyllene oxide"; "guaio1";
   "cedrol"; "alpha-bisabolol"].

(** [any(a in name for a in ANALYTES)] *)
Definition is_analyte (name : string) : bool :=
  existsb (fun a => contains a name) ANALYTES.

(** The body of [for rec in data]. *)
Definition lab_step (acc : list Lab.t) (rec : json) : result (list Lab.t) :=
  t <- get_default rec "TestTypeName" (JStr "") ;;
  name <- lower_method t ;;
  if is_analyte name then
    level <- get rec "TestResultLevel" ;;
    Ok (acc ++ [ {| Lab.TestTypeName := text_of t; Lab.TestResultLevel := level |} ])%list
  else Ok acc.

(** The request for one package: 200 is read, 404 is passed over, any
    other status goes to [raise_for_status]. *)
Definition lab_fetch (labs : Z -> reply) (acc : list Lab.t) (pid : Z) : result (list Lab.t) :=
  match labs pid with
  | NoReply => Raise ConnectionError
  | Reply status body =>
      if status =? 200 then
        data <- json_body body ;;
        recs <- page_data data ;;
        for_each lab_step acc recs
      else if negb (status =? 404) then
        _ <- raise_for_status status ;;
        Ok acc
      else Ok acc
  end.

(** [for pid in list(packages_map): ...]; an exception ends the process
    with status 1 ([except Exception: sys.exit(1)]). *)
Definition lab_loop (labs : Z -> reply) (lab_by_pkg : list (Z * list Lab.t))
    (pids : list Z) : result (list (Z * list Lab.t)) :=
  for_each
    (fun acc pid =>
       l <- lab_fetch labs (default [] (dict_get pid acc)) pid ;;
       Ok (dict_set pid l acc))
    lab_by_pkg pids.

(** ** The rest of the older script *)

(** [build_excel_map(path)]: the products table alone. *)
Definition build_excel_map (file : option workbook) : result (gmap string product) :=
  match file with
  | None => Raise FileError
  | Some xl => product_table (first_sheet xl)
  end.

(** A value of [packages_map]: the four members of the later script and
    three dates. *)
Module Pkg.
Record t : Type := {
  Id : Z;
  Label : json;
  ItemName : string;
  Quantity : json;
  DateReceived : json;
  PackageDate : json;
  CreatedAt : json
}.
End Pkg.

(** [d.get(k1) or d.get(k2)] *)
Definition get_or (d : json) (k1 k2 : string) : result json :=
  a <- get d k1 ;;
  if truthy a then Ok a else get d k2.

(** The dict assigned to [packages_map[pkg["Id"]]], its members computed
    in the order of the display, the key last. *)
Definition package_entry (pkg : json) : result Pkg.t :=
  name <- item_name pkg ;;
  id <- getitem pkg "Id" ;;
  label <- get pkg "Label" ;;
  text <- str name ;;
  qty <- get pkg "Quantity" ;;
  received <- get_or pkg "ReceivedDateTime" "ReceivedDate" ;;
  packaged <- get_or pkg "PackagedDate" "PackageDate" ;;
  created <- get pkg "LastModified" ;;
  key <- as_key id ;;
  Ok {| Pkg.Id := key;
        Pkg.Label := label;
        Pkg.ItemName := strip text;
        Pkg.Quantity := qty;
        Pkg.DateReceived := received;
        Pkg.PackageDate := packaged;
        Pkg.CreatedAt := created |}.

(** The body of [for pkg in data.get("Data", [])]. *)
Definition package_step (packages_map : list (Z * Pkg.t)) (pkg : json)
  : result (list (Z * Pkg.t)) :=
  sel <- selected pkg ;;
  if sel then
    e <- package_entry pkg ;;
    Ok (dict_set (Pkg.Id e) e packages_map)
  else Ok packages_map.

(** One turn of [while True]. *)
Definition fetch_page (inventory : Z -> reply) (page : Z) (packages_map : list (Z * Pkg.t))
  : result (list (Z * Pkg.t) * bool) :=
  match inventory page with
  | NoReply => Raise ConnectionError
  | Reply status body =>
      _ <- raise_for_status status ;;
      data <- json_body body ;;
      pkgs <- page_data data ;;
      packages_map' <- for_each package_step packages_map pkgs ;;
      stop <- last_page page data ;;
      Ok (packages_map', stop)
  end.

(** The pagination loop, with the page numbers requested. *)
Fixpoint fetch_loop (fuel : nat) (inventory : Z -> reply) (page : Z)
    (packages_map : list (Z * Pkg.t)) (requested : list Z)
  : option (list Z * result (list (Z * Pkg.t))) :=
  match fuel with
  | O => None
  | S fuel' =>
      let requested' := (requested ++ [page])%list in
      match fetch_page inventory page packages_map with
      | Raise e => Some (requested', Raise e)
      | Ok (packages_map', true) => Some (requested', Ok packages_map')
      | Ok (packages_map', false) =>
          fetch_loop fuel' inventory (page + 1) packages_map' requested'
      end
  end.

Definition fetch_packages (fuel : nat) (inventory : Z -> reply)
  : option (list Z * result (list (Z * Pkg.t))) :=
  fetch_loop fuel inventory 1 [] [].

(** An element of [final]. *)
Module Item.
Record t : Type := {
  Id : Z;
  Label : json;
  ItemName : string;
  Quantity : json;
  DateReceived : json;
  PackageDate : json;
  CreatedAt : json;
  Type_ : option string;
  Price : option pyfloat;
  LabResults : list Lab.t
}.
End Item.

(** The dict appended to [final].  An entry of [packages_map] has no
    [PackagedDate] member, so that [pkg.get("PackageDate") or
    pkg.get("PackagedDate")] is the [PackageDate] or [None]. *)
Definition item_of (excel_map : gmap string product) (lab_by_pkg : list (Z * list Lab.t))
    (pkg : Pkg.t) : Item.t :=
  {| Item.Id := Pkg.Id pkg;
     Item.Label := Pkg.Label pkg;
     Item.ItemName := Pkg.ItemName pkg;
     Item.Quantity := Pkg.Quantity pkg;
     Item.DateReceived := Pkg.DateReceived pkg;
     Item.PackageDate := or_else (Pkg.PackageDate pkg) JNull;
     Item.CreatedAt := Pkg.CreatedAt pkg;
     Item.Type_ := excel_type excel_map (Pkg.ItemName pkg);
     Item.Price := excel_price excel_map (Pkg.ItemName pkg);
     Item.LabResults := default [] (dict_get (Pkg.Id pkg) lab_by_pkg) |}.

(** [for pkg in packages_map.values()]: the order of first insertion. *)
Definition final (excel_map : gmap string product) (packages_map : list (Z * Pkg.t))
    (lab_by_pkg : list (Z * list Lab.t)) : list Item.t :=
  map (item_of excel_map lab_by_pkg) (values packages_map).

(** What the run reads from outside: whether [rclone] ended without
    error, the file at [LOCAL_EXCEL] after it, and the two sources. *)
Record upstream : Type := {
  pulled : bool;
  excel : option workbook;
  inventory : Z -> reply;
  labs : Z -> reply
}.

(** Step 0 lets the run go on: the download went through, or a file of an
    earlier run is there. *)
Definition have_excel (up : upstream) : bool :=
  pulled up || match excel up with Some _ => true | None => false end.

(** Steps 0 to 3 once step 0 lets the run go on; [None] when the
    pagination loop is still going after [fuel] pages. *)
Definition build_final (fuel : nat) (up : upstream) : option (result (list Item.t)) :=
  match build_excel_map (excel up) with
  | Raise e => Some (Raise e)
  | Ok excel_map =>
      match fetch_packages fuel (inventory up) with
      | None => None
      | Some (_, Raise e) => Some (Raise e)
      | Some (_, Ok packages_map) =>
          Some (lab_by_pkg <- lab_loop (labs up)
                                (map (fun pid => (pid, [])) (keys packages_map))
                                (keys packages_map) ;;
                Ok (final excel_map packages_map lab_by_pkg))
      end
  end.

(** The pages a run requested and the packages it drew from them. *)
Definition pages_requested (fuel : nat) (up : upstream) : list Z :=
  match fetch_packages fuel (inventory up) with
  | Some (requested, _) => requested
  | None => []
  end.

Definition seen_by_run (fuel : nat) (up : upstream) : list json :=
  packages_seen (inventory up) (pages_requested fuel up).

(** The working copy: the status of [git pull --rebase], [menu.json] as
    the pull leaves it, and the status of [git push]. *)
Record remote : Type := {
  pull_status : Z;
  pulled_file : option string;
  push_status : Z
}.

Record outcome : Type := {
  exit_code : Z;
  actions : list action;
  menu_json : option string
}.

Section Publisher.

(** [json.dump(final, f, ensure_ascii=False, separators=(",", ":"))], as
    the text it writes. *)
Variable dumps : list Item.t -> string.

Definition publish (items : list Item.t) (git : remote) : outcome :=
  if negb (pull_status git =? 0) then
    {| exit_code := 1; actions := [GitPull]; menu_json := pulled_file git |}
  else
    {| exit_code := if negb (push_status git =? 0) then 1 else 0;
       actions := [GitPull; WriteFile (dumps items); GitAdd; GitCommit; GitPush];
       menu_json := Some (dumps items) |}.

(** One run, once the credentials are loaded.  Step 0 without any file,
    an exception caught in steps 1 and 2 and an exception nobody catches
    all end the process with status 1. *)
Definition run (fuel : nat) (up : upstream) (file : option string) (git : remote)
  : option outcome :=
  let failed := {| exit_code := 1; actions := []; menu_json := file |} in
  if negb (have_excel up) then Some failed
  else
    match build_final fuel up with
    | None => None
    | Some (Raise _) => Some failed
    | Some (Ok items) => Some (publish items git)
    end.

End Publisher.

End Legacy.

Import Menu.

(* ===================================================================== *)
(** * Credentials                                                         *)
(* ===================================================================== *)

(** The first lines of both scripts: the key file is read into [env], the
    three keys are looked up and the request headers are made. *)
Module Env.

(** Text mode with the default [newline]: a carriage return, alone or in
    front of a line feed, is read as a line feed. *)
Fixpoint universal_newlines (s : string) : string :=
  match s with
  | EmptyString => EmptyString
  | String c s' =>
      if Ascii.eqb c "013" then
        match s' with
        | String d s'' =>
            if Ascii.eqb d "010" then String "010" (universal_newlines s'')
            else String "010" (universal_newlines s')
        | EmptyString => String "010" EmptyString
        end
      else String c (universal_newlines s')
  end.

(** [for line in f]: the lines with their line feed, the last one maybe
    without. *)
Fixpoint file_lines (s : string) : list string :=
  match s with
  | EmptyString => []
  | String c s' =>
      if Ascii.eqb c "010" then String c EmptyString :: file_lines s'
      else match file_lines s' with
           | [] => [String c EmptyString]
           | l :: ls => String c l :: ls
           end
  end.

(** [s.split(c, 1)] when [c] occurs in [s]: the text before its first
    occurrence and the text after it; [None] when it does not occur (the
    list then has one element). *)
Fixpoint split_once (c : ascii) (s : string) : option (string * string) :=
  match s with
  | EmptyString => None
  | String d s' =>
      if Ascii.eqb c d then Some (EmptyString, s')
      else match split_once c s' with
           | Some (a, b) => Some (String d a, b)
           | None => None
           end
  end.

(** The body of the loop over the lines.  Unpacking a list of one element
    into [k, v] raises [ValueError]. *)
Definition env_step (env : gmap string string) (line : string)
  : result (gmap string string) :=
  if contains "=" line && negb (startswith "#" line) then
    match split_once "=" (strip line) with
    | Some (k, v) => Ok (<[k := v]> env)
    | None => Raise ValueError
    end
  else Ok env.

(** The loop over a file that is there. *)
Definition parse_env (text : string) : result (gmap string string) :=
  for_each env_step ∅ (file_lines (universal_newlines text)).

(** [env[k]] *)
Definition getitem (env : gmap string string) (k : string) : result string :=
  match env !! k with
  | Some v => Ok v
  | None => Raise KeyError
  end.

Record credentials : Type := {
  VENDOR_KEY : string;
  USER_KEY : string;
  LICENSE_NUMBER : string
}.

(** The script down to [LICENSE_NUMBER]; [None] is a key file that is not
    there. *)
Definition load (file : option string) : result credentials :=
  match file with
  | None => Raise FileError
  | Some text =>
      env <- parse_env text ;;
      vendor <- getitem env "METRC_VENDOR_KEY" ;;
      user <- getitem env "METRC_USER_KEY" ;;
      license <- getitem env "METRC_LICENSE" ;;
      Ok {| VENDOR_KEY := vendor; USER_KEY := user; LICENSE_NUMBER := license |}
  end.

(** A line that assigns [v] to [k]. *)
Definition assignment (k v : string) : string :=
  k ++ "=" ++ v ++ String "010" EmptyString.

(** A key file written one assignment per line. *)
Fixpoint render (kvs : list (string * string)) : string :=
  match kvs with
  | [] => EmptyString
  | (k, v) :: kvs' => assignment k v ++ render kvs'
  end.

(** [c] does not occur in [s]. *)
Definition free_of (c : ascii) (s : string) : Prop :=
  contains (String c EmptyString) s = false.

(** A key that can be written on a line and read back: no blank in front,
    no equals sign, no number sign in front, no line break. *)
Definition key_ok (k : string) : Prop :=
  lstrip k = k /\ free_of "=" k /\ startswith "#" k = false /\
  free_of "010" k /\ free_of "013" k.

(** A value that can be written on a line and read back: no blank at the
    end, no line break. *)
Definition value_ok (v : string) : Prop :=
  rstrip v = v /\ free_of "010" v /\ free_of "013" v.

End Env.

(* ===================================================================== *)
(** * Hashing a file by chunks                                            *)
(* ===================================================================== *)

(** [file_hash] reads the file 8192 bytes at a time into a hash object.
    The hash object is the library's; the section takes its three
    operations as they are used. *)
Module Hashing.

Fixpoint take_bytes (n : nat) (s : string) : string :=
  match n, s with
  | S n', String c s' => String c (take_bytes n' s')
  | _, _ => EmptyString
  end.

Fixpoint drop_bytes (n : nat) (s : string) : string :=
  match n, s with
  | S n', String _ s' => drop_bytes n' s'
  | _, _ => s
  end.

Section HashObject.

Variable state : Type.
Variable new : state.                          (* [hashlib.sha256()] *)
Variable update : state -> string -> state.    (* [h.update(chunk)] *)
Variable hexdigest : state -> string.          (* [h.hexdigest()] *)

(** [for chunk in iter(lambda: f.read(size), b""): h.update(chunk)] on
    what is left of the file; every turn takes one unit of fuel. *)
Fixpoint read_loop (fuel size : nat) (h : state) (rest : string) : option state :=
  match fuel with
  | O => None
  | S fuel' =>
      let chunk := take_bytes size rest in
      if String.eqb chunk EmptyString then Some h
      else read_loop fuel' size (update h chunk) (drop_bytes size rest)
  end.

(** The size of a read, 8192. *)
Definition CHUNK : nat := (8 * 1024)%nat.

(** [file_hash(path)]: [None] inside is the script's [None], for a file
    that does not exist; the fuel is one turn per byte and one more. *)
Definition file_hash (file : option string) : option (option string) :=
  match file with
  | None => Some None
  | Some content =>
      match read_loop (S (String.length content)) CHUNK new content with
      | Some h => Some (Some (hexdigest h))
      | None => None
      end
  end.

(** [hashlib.sha256(data).hexdigest()] *)
Definition one_shot (data : string) : string := hexdigest (update new data).

End HashObject.

End Hashing.

(* ===================================================================== *)
(** * Words for what the servers do                                       *)
(* ===================================================================== *)

(** Predicates on the answers of the two sources, used to state how the
    current script reacts to them. *)
Module Answers.

(** The exception a response raises before its body is looked at: none
    when the status is no HTTP error and the body decodes. *)
Definition transport_error (r : reply) : option exn :=
  match r with
  | NoReply => Some ConnectionError
  | Reply status body =>
      if (400 <=? status) && (status <? 600) then Some (HTTPError status)
      else match body with
           | None => Some ValueError
           | Some _ => None
           end
  end.

(** The first [k - 1] pages are gone through and each reports more pages
    than its own number ([t n] is the [TotalPages] of page [n], [None]
    when the member is missing, which counts as 1). *)
Definition pages_go_on (excel_map : gmap string product) (inventory : Z -> reply)
    (t : Z -> option Z) (k : Z) : Prop :=
  forall n, 1 <= n < k ->
    page_reports excel_map (inventory n) (t n) /\ n < default 1 (t n).

(** A package the loop keeps. *)
Definition is_kept (pkg : json) : bool :=
  match selected pkg with
  | Ok true => true
  | _ => false
  end.

(** The value of [item_name] for a package with members [o]: the nested
    name when it is truthy, the flat one otherwise. *)
Definition resolved_name (o : list (string * json)) : json :=
  if truthy (nested_name o) then nested_name o
  else default JNull (obj_get "ItemName" o).

(** A row of the [BulkRules] worksheet with its three fields truthy. *)
Definition complete (row : series) : bool :=
  cell_truthy (row_get "ProductGroup" row) && cell_truthy (row_get "MinQty" row) &&
  cell_truthy (row_get "Price" row).

(** The rule the script makes of a row. *)
Definition rule_of (row : series) (rule : bulk_rule) : Prop :=
  ProductGroup rule = strip (cell_str (default CNaN (row_get "ProductGroup" row))) /\
  int_of_cell (default CNaN (row_get "MinQty" row)) = Ok (MinQty rule) /\
  _to_money (row_get "Price" row) = Ok (Excel.Price rule).


(** An answer of the inventory source, by what it holds: the status is no
    HTTP error, the body is a JSON object whose [Data] member is the array
    [units] of packages the loop can process, and its [TotalPages] member
    is the integer [total], or is missing when [total] is [None]. *)
Definition page_holds (excel_map : gmap string product) (r : reply)
    (units : list json) (total : option Z) : Prop :=
  exists status o,
    r = Reply status (Some (JObj o)) /\
    (status < 400 \/ 600 <= status) /\
    obj_get "Data" o = Some (JArr units) /\
    Forall (processable excel_map) units /\
    obj_get "TotalPages" o = JInt <$> total.

(** ** The two scripts side by side *)

(** An entry of the older script as the later script stores it: the dates
    go, [Type] and [Price] are looked up at once. *)
Definition later_entry (excel_map : gmap string product) (e : Legacy.Pkg.t) : Pkg.t :=
  {| Pkg.Id := Legacy.Pkg.Id e;
     Pkg.Label := Legacy.Pkg.Label e;
     Pkg.ItemName := Legacy.Pkg.ItemName e;
     Pkg.Quantity := Legacy.Pkg.Quantity e;
     Pkg.Type_ := excel_type excel_map (Legacy.Pkg.ItemName e);
     Pkg.Price := excel_price excel_map (Legacy.Pkg.ItemName e) |}.

Definition later_map (excel_map : gmap string product) (pm : list (Z * Legacy.Pkg.t))
  : list (Z * Pkg.t) :=
  map (fun kv => (fst kv, later_entry excel_map (snd kv))) pm.

Definition later_result (excel_map : gmap string product)
    (r : result (list (Z * Legacy.Pkg.t))) : result (list (Z * Pkg.t)) :=
  match r with
  | Ok pm => Ok (later_map excel_map pm)
  | Raise e => Raise e
  end.

(** The six members the items of both scripts have. *)
Definition shared (r : Item.t) : Pkg.t :=
  {| Pkg.Id := Item.Id r;
     Pkg.Label := Item.Label r;
     Pkg.ItemName := Item.ItemName r;
     Pkg.Quantity := Item.Quantity r;
     Pkg.Type_ := Item.Type_ r;
     Pkg.Price := Item.Price r |}.

Definition shared_older (r : Legacy.Item.t) : Pkg.t :=
  {| Pkg.Id := Legacy.Item.Id r;
     Pkg.Label := Legacy.Item.Label r;
     Pkg.ItemName := Legacy.Item.ItemName r;
     Pkg.Quantity := Legacy.Item.Quantity r;
     Pkg.Type_ := Legacy.Item.Type_ r;
     Pkg.Price := Legacy.Item.Price r |}.

(** [a or b] on two members of a decoded object, each [None] when it is
    missing. *)
Definition either (o : list (string * json)) (k1 k2 : string) : json :=
  or_else (default JNull (obj_get k1 o)) (default JNull (obj_get k2 o)).

End Answers.

(* ===================================================================== *)
(** * A worked run                                                        *)
(* ===================================================================== *)

(** The scenario of the specification, spread over three inventory pages:
    one product row, one bulk rule, a unit listed twice, a unit in a room
    that is not published, and lab results with an analyte outside the
    vocabulary. *)
Module Scenario.

Definition book : workbook :=
  {| first_sheet :=
       {| columns := ["Product"; " Price"; "Type"];
          rows := [[CStr "Blue Dream 3.5g"; CStr "$45.00"; CStr "Flower"]] |};
     BulkRules :=
       Some {| columns := ["ProductGroup"; "MinQty"; "Price"];
               rows := [[CStr "Flower"; CStr "4"; CStr "$40.00"]] |} |}.

Definition unit (id : Z) (label name room : string) : json :=
  JObj [("Id", JInt id); ("Label", JStr label); ("ItemName", JStr name);
        ("Quantity", JInt 12); ("LocationName", JStr room)].

Definition page (units : list json) (total : Z) : reply :=
  Reply 200 (Some (JObj [("Data", JArr units); ("TotalPages", JInt total)])).

Definition inventory (n : Z) : reply :=
  if n =? 1 then
    page [unit 30 "1A4-030" "Blue Dream 3.5g" "Vault - Finished Goods";
          unit 10 "1A4-010" "Blue Dream 3.5g" "Quarantine"] 3
  else if n =? 2 then
    page [unit 20 "1A4-020" " Sour Diesel 1g " "Low Inventory";
          unit 30 "1A4-030b" "Blue Dream 3.5g" "Vault - Finished Goods"] 3
  else if n =? 3 then
    page [unit 5 "1A4-005" "Blue Dream 3.5g" "LOW INVENTORY"] 3
  else Reply 404 None.

Definition test (name level : string) : json :=
  JObj [("TestTypeName", JStr name); ("TestResultLevel", JStr level)].

Definition labs (pid : Z) : reply :=
  if pid =? 30 then
    Reply 200 (Some (JObj [("Data", JArr [test "THC" "21.4"; test "Moisture" "9";
                                          test "CBD" "0.3"])]))
  else if pid =? 20 then Reply 404 None
  else Reply 200 (Some (JObj [])).

Definition up : upstream :=
  {| excel := Some book; Menu.inventory := inventory; Menu.labs := labs |}.

(** One page with one unit whose flat [ItemName] is the empty text and
    which has no nested [Item]. *)
Definition blank_name : upstream :=
  {| excel := Some book;
     Menu.inventory := fun _ => page [unit 7 "1A4-007" "" "Low Inventory"] 1;
     Menu.labs := fun _ => Reply 404 None |}.

(** One page with one unit that has a nested [Item] with an empty [Name]
    and no flat [ItemName]. *)
Definition nameless_members : list (string * json) :=
  [("Id", JInt 8); ("Label", JStr "1A4-008"); ("Item", JObj [("Name", JStr "")]);
   ("Quantity", JInt 12); ("LocationName", JStr "low inventory")].

Definition nameless : upstream :=
  {| excel := Some book;
     Menu.inventory := fun _ => page [JObj nameless_members] 1;
     Menu.labs := fun _ => Reply 404 None |}.

(** The same inventory and spreadsheet with a lab-result source that
    answers every request with status 500. *)
Definition labs_down : upstream :=
  {| excel := Some book;
     Menu.inventory := inventory;
     Menu.labs := fun _ => Reply 500 None |}.

(** The spreadsheet with other rows in its [BulkRules] worksheet. *)
Definition with_rules (rules : list (list cell)) : upstream :=
  {| excel := Some {| first_sheet := first_sheet book;
                      BulkRules := Some {| columns := ["ProductGroup"; "MinQty"; "Price"];
                                           rows := rules |} |};
     Menu.inventory := inventory;
     Menu.labs := labs |}.

(** A working copy in which the pull succeeds and brings no [menu.json]. *)
Definition git_ok : remote := {| pull_status := 0; pulled_file := None |}.

(** Stand-ins for the two library functions, for running the publish step:
    the serialization lists the item names, the digest is the text
    itself. *)
Definition dumps (p : payload) : string :=
  String.concat "," (map Item.ItemName (items p)).

Definition digest (s : string) : string := s.

(** An inventory source that always reports one page more than the page
    it is asked for. *)
Definition endless (n : Z) : reply := page [] (n + 1).

(** An inventory source whose second page is answered with status 503. *)
Definition second_page_down : upstream :=
  {| excel := Some book;
     Menu.inventory := fun n => if n =? 2 then Reply 503 None else inventory n;
     Menu.labs := labs |}.

(** The spreadsheet with a second product whose [Price] cell is blank. *)
Definition unpriced_book : workbook :=
  {| first_sheet :=
       {| columns := ["Product"; " Price"; "Type"];
          rows := [[CStr "Blue Dream 3.5g"; CStr "$45.00"; CStr "Flower"];
                   [CStr "Sour Diesel 1g"; CNaN; CStr "Preroll"]] |};
     BulkRules := None |}.

Definition unpriced : upstream :=
  {| excel := Some unpriced_book; Menu.inventory := inventory; Menu.labs := labs |}.

(** The spreadsheet with a second row for the first product, whose name
    has a no-break space in front, and a row without price and type. *)
Definition repriced_book : workbook :=
  {| first_sheet :=
       {| columns := ["Product"; " Price"; "Type"];
          rows := [[CStr "Blue Dream 3.5g"; CStr "$45.00"; CStr "Flower"];
                   [CStr (bytes [194; 160] ++ "Blue Dream 3.5g"); CStr "50";
                    CStr "Indica "];
                   [CStr "Gelato"; CNaN; CNaN]] |};
     BulkRules := None |}.

Definition repriced : upstream :=
  {| excel := Some repriced_book; Menu.inventory := inventory; Menu.labs := labs |}.

(** A [BulkRules] worksheet with a price that is no decimal and a blank
    price. *)
Definition three_rules : sheet :=
  {| columns := ["ProductGroup"; "MinQty"; "Price"];
     rows := [[CStr "Flower"; CStr "4"; CStr "$40.00"];
              [CStr (" Vape" ++ bytes [194; 160]); CStr "2"; CStr "forty"];
              [CStr "Edible"; CStr "10"; CNaN]] |}.

(** The units of the three inventory pages, and the map the pagination
    loop makes of them. *)
Definition units (n : Z) : list json :=
  if n =? 1 then
    [unit 30 "1A4-030" "Blue Dream 3.5g" "Vault - Finished Goods";
     unit 10 "1A4-010" "Blue Dream 3.5g" "Quarantine"]
  else if n =? 2 then
    [unit 20 "1A4-020" " Sour Diesel 1g " "Low Inventory";
     unit 30 "1A4-030b" "Blue Dream 3.5g" "Vault - Finished Goods"]
  else if n =? 3 then
    [unit 5 "1A4-005" "Blue Dream 3.5g" "LOW INVENTORY"]
  else [].

Definition entry (id : Z) (label name : string) (type : option string)
    (price : option pyfloat) : Z * Pkg.t :=
  (id, {| Pkg.Id := id; Pkg.Label := JStr label; Pkg.ItemName := name;
          Pkg.Quantity := JInt 12; Pkg.Type_ := type; Pkg.Price := price |}).

Definition drawn : list (Z * Pkg.t) :=
  [entry 30 "1A4-030b" "Blue Dream 3.5g" (Some "Flower") (Some (Fnear false 4500 (-2)));
   entry 20 "1A4-020" "Sour Diesel 1g" None None;
   entry 5 "1A4-005" "Blue Dream 3.5g" (Some "Flower") (Some (Fnear false 4500 (-2)))].

(** A lab source that has two [THC] records for unit 30, with the levels
    [first] and [second] in this order. *)
Definition retests (first second : string) : list json :=
  [test "THC" first; test "CBD" "0.3"; test "THC" second].

Definition retested (first second : string) : upstream :=
  {| excel := Some book;
     Menu.inventory := inventory;
     Menu.labs := fun pid =>
       if pid =? 30 then Reply 200 (Some (JObj [("Data", JArr (retests first second))]))
       else Reply 404 None |}.

(** A stand-in for the serialization that shows the lab results: the
    levels, in the order of the payload. *)
Definition levels (p : payload) : string :=
  String.concat ","
    (flat_map (fun r => map (fun x => text_of (Lab.TestResultLevel x)) (Item.LabResults r))
              (items p)).

(** A [BulkRules] worksheet without a [Price] column. *)
Definition unpriced_rules : sheet :=
  {| columns := ["ProductGroup"; "MinQty"];
     rows := [[CStr "Flower"; CStr "4"]; [CStr "Edible"; CStr "2"]] |}.

(** The spreadsheet with another [BulkRules] worksheet. *)
Definition ruled (sh : sheet) : upstream :=
  {| excel := Some {| first_sheet := first_sheet book; BulkRules := Some sh |};
     Menu.inventory := inventory;
     Menu.labs := labs |}.

(** One page with one unit whose name ends in a no-break space, and the
    spreadsheet with the [Gelato] row. *)
Definition padded_members : list (string * json) :=
  [("Id", JInt 7); ("Label", JStr "1A4-007");
   ("ItemName", JStr ("Gelato" ++ bytes [194; 160]));
   ("Quantity", JInt 12); ("LocationName", JStr "Low Inventory")].

Definition padded : upstream :=
  {| excel := Some repriced_book;
     Menu.inventory := fun _ => page [JObj padded_members] 1;
     Menu.labs := fun _ => Reply 404 None |}.

(** The same spreadsheet and sources for the older script. *)
Definition older : Legacy.upstream :=
  {| Legacy.pulled := true; Legacy.excel := Some book;
     Legacy.inventory := inventory; Legacy.labs := labs |}.

Definition older_item (id : Z) (label name : string) (type : option string)
    (price : option pyfloat) (results : list Lab.t) : Legacy.Item.t :=
  {| Legacy.Item.Id := id; Legacy.Item.Label := JStr label; Legacy.Item.ItemName := name;
     Legacy.Item.Quantity := JInt 12; Legacy.Item.DateReceived := JNull;
     Legacy.Item.PackageDate := JNull; Legacy.Item.CreatedAt := JNull;
     Legacy.Item.Type_ := type; Legacy.Item.Price := price;
     Legacy.Item.LabResults := results |}.

(** What the older script makes of it. *)
Definition older_expected : list Legacy.Item.t :=
  [older_item 30 "1A4-030b" "Blue Dream 3.5g" (Some "Flower") (Some (Fnear false 4500 (-2)))
     [ {| Lab.TestTypeName := "THC"; Lab.TestResultLevel := JStr "21.4" |};
       {| Lab.TestTypeName := "CBD"; Lab.TestResultLevel := JStr "0.3" |} ];
   older_item 20 "1A4-020" "Sour Diesel 1g" None None [];
   older_item 5 "1A4-005" "Blue Dream 3.5g" (Some "Flower") (Some (Fnear false 4500 (-2))) []].

(** One page with one unit that has dates: no time of receipt but a day,
    an empty [PackagedDate] and no [PackageDate].  The download fails and
    the workbook of an earlier run is there. *)
Definition dated_members : list (string * json) :=
  [("Id", JInt 9); ("Label", JStr "1A4-009"); ("ItemName", JStr "Blue Dream 3.5g");
   ("Quantity", JInt 3); ("LocationName", JStr "Low Inventory");
   ("ReceivedDateTime", JNull); ("ReceivedDate", JStr "2024-05-01");
   ("PackagedDate", JStr ""); ("LastModified", JStr "2024-06-01T00:00:00Z")].

Definition older_dated : Legacy.upstream :=
  {| Legacy.pulled := false; Legacy.excel := Some book;
     Legacy.inventory := fun _ => page [JObj dated_members] 1;
     Legacy.labs := fun _ => Reply 404 None |}.

Definition older_dated_expected : list Legacy.Item.t :=
  [ {| Legacy.Item.Id := 9; Legacy.Item.Label := JStr "1A4-009";
       Legacy.Item.ItemName := "Blue Dream 3.5g"; Legacy.Item.Quantity := JInt 3;
       Legacy.Item.DateReceived := JStr "2024-05-01";
       Legacy.Item.PackageDate := JNull;
       Legacy.Item.CreatedAt := JStr "2024-06-01T00:00:00Z";
       Legacy.Item.Type_ := Some "Flower";
       Legacy.Item.Price := Some (Fnear false 4500 (-2));
       Legacy.Item.LabResults := [] |} ].

(** A working copy in which the pull succeeds and the push is refused. *)
Definition push_refused : Legacy.remote :=
  {| Legacy.pull_status := 0; Legacy.pulled_file := None; Legacy.push_status := 256 |}.

(** A stand-in for the serialization of the older script: the item names. *)
Definition older_dumps (l : list Legacy.Item.t) : string :=
  String.concat "," (map Legacy.Item.ItemName l).

Definition item (id : Z) (label name : string) (type : option string)
    (price : option pyfloat) (results : list Lab.t) : Item.t :=
  {| Item.Id := id; Item.Label := JStr label; Item.ItemName := name;
     Item.Quantity := JInt 12; Item.Type_ := type; Item.Price := price;
     Item.LabResults := results |}.

(** What the script makes of the workbook with the blank price. *)
Definition unpriced_expected : payload :=
  {| items :=
       [item 5 "1A4-005" "Blue Dream 3.5g" (Some "Flower") (Some (Fnear false 4500 (-2))) [];
        item 20 "1A4-020" "Sour Diesel 1g" (Some "Preroll") (Some Fnan) [];
        item 30 "1A4-030b" "Blue Dream 3.5g" (Some "Flower") (Some (Fnear false 4500 (-2)))
          [ {| Lab.TestTypeName := "CBD"; Lab.TestResultLevel := JStr "0.3" |};
            {| Lab.TestTypeName := "THC"; Lab.TestResultLevel := JStr "21.4" |} ] ];
     bulkRules := [] |}.

Definition repriced_expected : payload :=
  {| items :=
       [item 5 "1A4-005" "Blue Dream 3.5g" (Some "Indica") (Some (Fnear false 50 0)) [];
        item 20 "1A4-020" "Sour Diesel 1g" None None [];
        item 30 "1A4-030b" "Blue Dream 3.5g" (Some "Indica") (Some (Fnear false 50 0))
          [ {| Lab.TestTypeName := "CBD"; Lab.TestResultLevel := JStr "0.3" |};
            {| Lab.TestTypeName := "THC"; Lab.TestResultLevel := JStr "21.4" |} ] ];
     bulkRules := [] |}.

Definition padded_expected : payload :=
  {| items := [item 7 "1A4-007" "Gelato" None (Some Fnan) []]; bulkRules := [] |}.

(** What the script makes of the two [THC] records. *)
Definition retested_expected (first second : string) : payload :=
  {| items :=
       [item 5 "1A4-005" "Blue Dream 3.5g" (Some "Flower") (Some (Fnear false 4500 (-2))) [];
        item 20 "1A4-020" "Sour Diesel 1g" None None [];
        item 30 "1A4-030b" "Blue Dream 3.5g" (Some "Flower") (Some (Fnear false 4500 (-2)))
          [ {| Lab.TestTypeName := "CBD"; Lab.TestResultLevel := JStr "0.3" |};
            {| Lab.TestTypeName := "THC"; Lab.TestResultLevel := JStr first |};
            {| Lab.TestTypeName := "THC"; Lab.TestResultLevel := JStr second |} ] ];
     bulkRules :=
       [ {| ProductGroup := "Flower"; MinQty := 4; Price := Some (Fnear false 4000 (-2)) |} ] |}.

(** What the script makes of it. *)
Definition expected : payload :=
  {| items :=
       [item 5 "1A4-005" "Blue Dream 3.5g" (Some "Flower") (Some (Fnear false 4500 (-2))) [];
        item 20 "1A4-020" "Sour Diesel 1g" None None [];
        item 30 "1A4-030b" "Blue Dream 3.5g" (Some "Flower") (Some (Fnear false 4500 (-2)))
          [ {| Lab.TestTypeName := "CBD"; Lab.TestResultLevel := JStr "0.3" |};
            {| Lab.TestTypeName := "THC"; Lab.TestResultLevel := JStr "21.4" |} ] ];
     bulkRules :=
       [ {| ProductGroup := "Flower"; MinQty := 4; Price := Some (Fnear false 4000 (-2)) |} ] |}.

End Scenario.

(* ===================================================================== *)
(** * Properties                                                          *)
(* ===================================================================== *)

(** ** The error monad and [for_each] *)

Lemma for_each_app {S B : Type} (body : S -> B -> result S) (st : S) (l1 l2 : list B) :
  for_each body st (l1 ++ l2) = (st' <- for_each body st l1 ;; for_each body st' l2).
Proof.
  revert st. induction l1 as [|b l1 IH]; intros st; simpl; [done|].
  destruct (body st b); simpl; auto.
Qed.

Lemma for_each_snoc {S B : Type} (body : S -> B -> result S) (st : S) (l : list B) (b : B) :
  for_each body st (l ++ [b]) = (st' <- for_each body st l ;; body st' b).
Proof.
  rewrite for_each_app. destruct (for_each body st l) as [st'|e]; simpl; [|done].
  by destruct (body st' b).
Qed.

Lemma bind_Ok {A B : Type} (m : result A) (k : A -> result B) (b : B) :
  (x <- m ;; k x) = Ok b -> exists a, m = Ok a /\ k a = Ok b.
Proof. destruct m; simpl; [eauto|discriminate]. Qed.

(** Inversion of a chain of binds that ended in [Ok]. *)
Ltac inv_bind H :=
  repeat match type of H with
         | Py.bind ?m _ = Ok _ =>
             let a := fresh "a" in
             let Ha := fresh "Ha" in
             apply bind_Ok in H; destruct H as (a & Ha & H)
         end.

(** ** Stable sorting *)

Section SortedFacts.
Context {A K : Type} (key : A -> K) (ltb : K -> K -> bool).
Hypothesis ltb_asym : forall x y, ltb x y = true -> ltb y x = false.
Hypothesis ltb_le_trans :
  forall x y z, ltb y x = false -> ltb z y = false -> ltb z x = false.

Lemma insert_by_perm (x : A) (l : list A) : insert_by key ltb x l ≡ₚ x :: l.
Proof.
  induction l as [|y l IH]; simpl; [done|].
  destruct (ltb (key y) (key x)); [|done].
  rewrite IH. apply perm_swap.
Qed.

Lemma sorted_perm (l : list A) : sorted key ltb l ≡ₚ l.
Proof.
  induction l as [|x l IH]; simpl; [done|].
  rewrite insert_by_perm. by rewrite IH.
Qed.

Lemma insert_by_sorted (x : A) (l : list A) :
  StronglySorted (key_le key ltb) l -> StronglySorted (key_le key ltb) (insert_by key ltb x l).
Proof.
  induction 1 as [|y l Hl IH Hy]; simpl.
  - repeat constructor.
  - destruct (ltb (key y) (key x)) eqn:E.
    + constructor; [done|].
      rewrite insert_by_perm. constructor; [|done].
      unfold key_le. by apply ltb_asym.
    + constructor; [by constructor|].
      constructor; [done|].
      eapply Forall_impl; [exact Hy|].
      intros z Hz. unfold key_le in *. by eapply ltb_le_trans.
Qed.

Lemma sorted_sorted (l : list A) : StronglySorted (key_le key ltb) (sorted key ltb l).
Proof.
  induction l as [|x l IH]; simpl; [constructor|].
  by apply insert_by_sorted.
Qed.

End SortedFacts.

Lemma Z_ltb_asym (x y : Z) : (x <? y) = true -> (y <? x) = false.
Proof. lia. Qed.

Lemma Z_ltb_le_trans (x y z : Z) :
  (y <? x) = false -> (z <? y) = false -> (z <? x) = false.
Proof. lia. Qed.

Lemma string_ltb_asym (x y : string) :
  String.ltb x y = true -> String.ltb y x = false.
Proof.
  unfold String.ltb. rewrite (String.compare_antisym x y).
  by destruct (String.compare y x).
Qed.

Lemma string_compare_lt_trans (x y z : string) :
  String.compare x y = Lt -> String.compare y z = Lt -> String.compare x z = Lt.
Proof.
  intros H1 H2.
  apply OrderedTypeEx.String_as_OT.cmp_lt.
  eapply OrderedTypeEx.String_as_OT.lt_trans;
    by apply OrderedTypeEx.String_as_OT.cmp_lt.
Qed.

Lemma string_ltb_le_trans (x y z : string) :
  String.ltb y x = false -> String.ltb z y = false -> String.ltb z x = false.
Proof.
  unfold String.ltb. intros Hyx Hzy.
  destruct (String.compare z x) eqn:Hzx; [done| |done].
  exfalso.
  destruct (String.compare y x) eqn:E; [| done |].
  - apply String.compare_eq_iff in E. subst y. by rewrite Hzx in Hzy.
  - assert (String.compare x y = Lt) as Hxy.
    { rewrite String.compare_antisym, E. done. }
    by rewrite (string_compare_lt_trans z x y Hzx Hxy) in Hzy.
Qed.

Lemma string_ltb_leb (x y : string) : String.ltb y x = false <-> String.leb x y = true.
Proof.
  unfold String.ltb, String.leb. rewrite (String.compare_antisym x y).
  destruct (String.compare y x); simpl; split; congruence.
Qed.

Example int_of_str_ex :
  int_of_str " 1_000 " = Ok 1000 /\ int_of_str "-12" = Ok (-12) /\
  int_of_str "10.0" = Raise ValueError /\ int_of_str "" = Raise ValueError /\
  int_of_str "1__0" = Raise ValueError /\ int_of_str "ten" = Raise ValueError /\
  int_of_str "+ 1" = Raise ValueError /\
  int_of_str ("4" ++ bytes [194; 160]) = Raise NotModelled.
Proof. repeat split; reflexivity. Qed.

Example str_ex :
  str JNull = Ok "None" /\ str (JInt (-12)) = Ok "-12" /\ str (JInt 0) = Ok "0" /\
  str (JBool true) = Ok "True" /\ str (JStr " x ") = Ok " x ".
Proof. repeat split; reflexivity. Qed.

Example strip_ex :
  strip "  a b  " = "a b" /\ strip "   " = "" /\
  strip (bytes [194; 160] ++ "Gelato" ++ bytes [194; 160; 227; 128; 128; 10]) = "Gelato" /\
  strip (bytes [226; 128; 139] ++ "x ") = bytes [226; 128; 139] ++ "x" /\
  lower "Vault - FINISHED Goods" = "vault - finished goods" /\
  contains "thc" "total thc (%)" = true /\ contains "thc" "th c" = false /\
  remove "," "1,234,5" = "12345".
Proof. repeat split; reflexivity. Qed.

Example Decimal_ex :
  Decimal "45.00" = Ok (DFin false 4500 (-2)) /\
  Decimal " -1_0.5e3 " = Ok (DFin true 105 2) /\
  Decimal (bytes [194; 160] ++ "45.00") = Ok (DFin false 4500 (-2)) /\
  Decimal "nan" = Ok (DNaN false false) /\
  Decimal "-Infinity" = Ok (DInf true) /\
  Decimal "sNaN12" = Ok (DNaN false true) /\
  Decimal "." = Raise InvalidOperation /\ Decimal "" = Raise InvalidOperation /\
  Decimal ".5" = Ok (DFin false 5 (-1)) /\ Decimal "1." = Ok (DFin false 1 0) /\
  Decimal "1e" = Raise InvalidOperation /\ Decimal "abc" = Raise InvalidOperation /\
  Decimal "1 2" = Raise InvalidOperation /\ Decimal "1.e+2" = Ok (DFin false 1 2) /\
  Decimal ("45 " ++ bytes [226; 130; 172]) = Raise NotModelled /\
  float_of_decimal (DFin false 1 400) = Some (Finf false) /\
  float_of_decimal (DFin true 17976931348623158 292) = Some (Fnear true 17976931348623158 292) /\
  float_of_decimal (DFin true 17976931348623159 292) = Some (Finf true) /\
  Decimal "1e999999999999999999" = Ok (DFin false 1 999999999999999999) /\
  float_of_decimal (DFin false 1 999999999999999999) = Some (Finf false) /\
  Decimal "10e999999999999999999" = Raise InvalidOperation /\
  Decimal "1e-1999999999999999997" = Ok (DFin false 1 (-1999999999999999997)) /\
  float_of_decimal (DFin false 1 (-1999999999999999997))
    = Some (Fnear false 1 (-1999999999999999997)) /\
  Decimal "0.1e-1999999999999999997" = Raise InvalidOperation.
Proof. repeat split; vm_compute; reflexivity. Qed.

(** The worksheets of the worked runs are worksheets [parse] can return. *)
Example scenario_worksheets_well_read :
  well_read (first_sheet Scenario.book) /\
  (forall sh, BulkRules Scenario.book = Some sh -> well_read sh) /\
  well_read (first_sheet Scenario.unpriced_book) /\
  well_read (first_sheet Scenario.repriced_book) /\
  well_read Scenario.three_rules /\ well_read Scenario.unpriced_rules.
Proof.
  unfold well_read. split_and!; try (intros sh [= <-]); repeat constructor.
Qed.

(** ** The pipeline, taken apart *)

Lemma build_payload_inv (fuel : nat) (up : upstream) (p : payload) :
  build_payload fuel up = Some (Ok p) ->
  exists excel_map bulk_rules requested packages_map lab_by_pkg,
    build_excel_map (excel up) = Ok (excel_map, bulk_rules) /\
    fetch_packages fuel excel_map (inventory up) = Some (requested, Ok packages_map) /\
    lab_results (labs up) packages_map = Ok lab_by_pkg /\
    p = {| items := final packages_map lab_by_pkg; bulkRules := bulk_rules |}.
Proof.
  unfold build_payload. intros H.
  destruct (build_excel_map (excel up)) as [[excel_map bulk_rules]|e] eqn:Hx; [|done].
  destruct (fetch_packages fuel excel_map (inventory up)) as [[requested r]|] eqn:Hf;
    [|done].
  destruct r as [pm|e]; [|done].
  destruct (lab_results (labs up) pm) as [lab_by_pkg|e] eqn:Hlab; simpl in H; [|done].
  exists excel_map, bulk_rules, requested, pm, lab_by_pkg.
  repeat split; try done. by simplify_eq.
Qed.

Lemma final_ids (packages_map : list (Z * Pkg.t)) (lab_by_pkg : list (Z * list Lab.t)) :
  map Item.Id (final packages_map lab_by_pkg) =
  map Pkg.Id (sorted Pkg.Id Z.ltb (values packages_map)).
Proof. unfold final. rewrite map_map. done. Qed.

(** ** Fuel *)

(** The fuel only bounds the number of pages: a loop that ends within the
    fuel it is given ends the same way with more. *)
Lemma fetch_loop_more_fuel (excel_map : gmap string product) (inventory : Z -> reply)
    (fuel extra : nat) (page : Z) (pm : list (Z * Pkg.t)) (log : list Z)
    (r : list Z * result (list (Z * Pkg.t))) :
  fetch_loop fuel excel_map inventory page pm log = Some r ->
  fetch_loop (fuel + extra) excel_map inventory page pm log = Some r.
Proof.
  revert page pm log. induction fuel as [|fuel IH]; intros page pm log; [done|].
  simpl. destruct (fetch_page excel_map inventory page pm) as [[pm1 [|]]|e]; auto.
Qed.

Lemma build_payload_more_fuel (fuel extra : nat) (up : upstream) (r : result payload) :
  build_payload fuel up = Some r -> build_payload (fuel + extra) up = Some r.
Proof.
  unfold build_payload, fetch_packages.
  destruct (build_excel_map (excel up)) as [[em br]|e]; [|done].
  destruct (fetch_loop fuel em (inventory up) 1 [] []) as [res|] eqn:Hloop; [|done].
  by rewrite (fetch_loop_more_fuel _ _ _ extra _ _ _ _ Hloop).
Qed.

(** ** C6: the items are in ascending order of unit id *)

(** Whatever the map of retained units and the lab results, [final] lists
    the units of the map, each once, in ascending order of [Id]. *)
Lemma final_sorted (packages_map : list (Z * Pkg.t)) (lab_by_pkg : list (Z * list Lab.t)) :
  StronglySorted Z.le (map Item.Id (final packages_map lab_by_pkg)) /\
  map Item.Id (final packages_map lab_by_pkg) ≡ₚ map Pkg.Id (values packages_map).
Proof.
  rewrite final_ids. split.
  - apply (StronglySorted_fmap _ (key_le Pkg.Id Z.ltb)).
    + unfold key_le. intros x y. lia.
    + apply sorted_sorted; [apply Z_ltb_asym | apply Z_ltb_le_trans].
  - apply Permutation_map, sorted_perm.
Qed.

(** C6.  Whenever the script gets as far as the payload, its [items] list
    is sorted by [Id] in ascending order. *)
Theorem items_sorted_by_id (fuel : nat) (up : upstream) (p : payload) :
  build_payload fuel up = Some (Ok p) ->
  StronglySorted Z.le (map Item.Id (items p)).
Proof.
  intros H. apply build_payload_inv in H as (em & br & req & pm & lbp & _ & _ & _ & ->).
  apply final_sorted.
Qed.

Lemma scenario_payload : build_payload 5 Scenario.up = Some (Ok Scenario.expected).
Proof. vm_compute. reflexivity. Qed.

Lemma items_sorted_by_id_witness :
  StronglySorted Z.le (map Item.Id (items Scenario.expected)).
Proof.
  apply (items_sorted_by_id 5 Scenario.up Scenario.expected).
  vm_compute. reflexivity.
Defined.

(** ** Insertion-ordered dictionaries *)

Lemma keys_dict_set {V : Type} (k : Z) (v : V) (d : list (Z * V)) :
  keys (dict_set k v d) = if decide (k ∈ keys d) then keys d else (keys d ++ [k])%list.
Proof.
  unfold keys. induction d as [|[k0 v0] d IH]; simpl; [done|].
  destruct (Z.eqb_spec k k0) as [->|Hne]; simpl.
  - rewrite decide_True by left. done.
  - rewrite IH. destruct (decide (k ∈ map fst d)).
    + rewrite decide_True by (by right). done.
    + rewrite decide_False; [done|]. rewrite elem_of_cons. intros [?|?]; done.
Qed.

Lemma keys_dict_set_NoDup {V : Type} (k : Z) (v : V) (d : list (Z * V)) :
  NoDup (keys d) -> NoDup (keys (dict_set k v d)).
Proof.
  intros Hd. rewrite keys_dict_set. case_decide; [done|].
  apply NoDup_app. split_and!; [done| |apply NoDup_singleton].
  intros x Hx ->%list_elem_of_singleton. done.
Qed.

Lemma elem_of_keys_dict_set {V : Type} (k k' : Z) (v : V) (d : list (Z * V)) :
  k' ∈ keys (dict_set k v d) <-> k' = k \/ k' ∈ keys d.
Proof.
  rewrite keys_dict_set. case_decide as Hk.
  - split; [by right|]. intros [->|?]; done.
  - rewrite elem_of_app, list_elem_of_singleton. tauto.
Qed.

Lemma dict_get_Some {V : Type} (k : Z) (v : V) (d : list (Z * V)) :
  dict_get k d = Some v -> (k, v) ∈ d.
Proof.
  induction d as [|[k0 v0] d IH]; simpl; [done|].
  destruct (Z.eqb_spec k k0) as [->|Hne].
  - intros [= ->]. left.
  - intros H. right. auto.
Qed.

Lemma dict_get_set {V : Type} (k k' : Z) (v : V) (d : list (Z * V)) :
  dict_get k' (dict_set k v d) = if decide (k' = k) then Some v else dict_get k' d.
Proof.
  induction d as [|[k0 v0] d IH]; simpl.
  - case_decide as E; [subst; by rewrite Z.eqb_refl|].
    by destruct (Z.eqb_spec k' k).
  - destruct (Z.eqb_spec k k0) as [->|Hne]; simpl.
    + case_decide as E; [subst; by rewrite Z.eqb_refl|].
      by destruct (Z.eqb_spec k' k0).
    + destruct (Z.eqb_spec k' k0) as [->|Hne'].
      * rewrite decide_False by done. done.
      * apply IH.
Qed.

Lemma dict_set_origin {V : Type} (k k' : Z) (v v' : V) (d : list (Z * V)) :
  NoDup (keys d) ->
  (k', v') ∈ dict_set k v d ->
  (k' = k /\ v' = v) \/ ((k', v') ∈ d /\ k' <> k).
Proof.
  unfold keys. induction d as [|[k0 v0] d IH]; simpl; intros Hnd.
  - intros H%list_elem_of_singleton. left. by simplify_eq.
  - apply NoDup_cons in Hnd as [Hk0 Hnd].
    destruct (Z.eqb_spec k k0) as [->|Hne].
    + intros [H|H]%elem_of_cons; [left; by simplify_eq|].
      right. split; [by right|]. intros ->.
      apply Hk0, list_elem_of_fmap. by exists (k0, v').
    + intros [H|H]%elem_of_cons.
      * simplify_eq. right. split; [by left|done].
      * destruct (IH Hnd H) as [?|[??]]; [by left|].
        right. split; [by right|done].
Qed.

(** ** The package loop *)

Lemma package_entry_facts (excel_map : gmap string product) (pkg : json) (e : Pkg.t) :
  package_entry excel_map pkg = Ok e ->
  package_id pkg = Ok (Pkg.Id e) /\
  Pkg.Type_ e = excel_type excel_map (Pkg.ItemName e) /\
  Pkg.Price e = excel_price excel_map (Pkg.ItemName e) /\
  exists name text,
    item_name pkg = Ok name /\ str name = Ok text /\ Pkg.ItemName e = strip text.
Proof.
  unfold package_entry, package_id. intros H. inv_bind H.
  injection H as <-. simpl. rewrite Ha0. simpl. eauto 10.
Qed.

Lemma package_step_inv (excel_map : gmap string product) (pm pm' : list (Z * Pkg.t))
    (pkg : json) :
  package_step excel_map pm pkg = Ok pm' ->
  (selected pkg = Ok false /\ pm' = pm) \/
  (exists e, retained excel_map pkg e /\ pm' = dict_set (Pkg.Id e) e pm).
Proof.
  unfold package_step, retained. intros H. inv_bind H.
  destruct a; [right|left; by simplify_eq].
  inv_bind H. simplify_eq. eauto.
Qed.

Lemma package_loop_keyed (excel_map : gmap string product) (l : list json)
    (pm pm' : list (Z * Pkg.t)) :
  keyed pm -> for_each (package_step excel_map) pm l = Ok pm' -> keyed pm'.
Proof.
  revert pm. induction l as [|pkg l IH]; simpl; intros pm Hpm H.
  - by simplify_eq.
  - destruct (package_step excel_map pm pkg) as [pm1|] eqn:Hstep; [|done].
    apply (IH pm1); [|done].
    apply package_step_inv in Hstep as [[_ ->]|(e & _ & ->)]; [done|].
    destruct Hpm as [Hnd Hid]. split; [by apply keys_dict_set_NoDup|].
    intros k e' [[-> ->]|[Hin _]]%dict_set_origin; auto.
Qed.

Lemma package_loop_origin (excel_map : gmap string product) (l : list json)
    (pm pm' : list (Z * Pkg.t)) (k : Z) (e : Pkg.t) :
  keyed pm ->
  for_each (package_step excel_map) pm l = Ok pm' ->
  (k, e) ∈ pm' ->
  ((k, e) ∈ pm /\
   forall pkg, pkg ∈ l -> selected pkg = Ok true -> package_id pkg <> Ok k) \/
  (exists l1 pkg l2,
     l = (l1 ++ pkg :: l2)%list /\ retained excel_map pkg e /\
     forall pkg', pkg' ∈ l2 -> selected pkg' = Ok true -> package_id pkg' <> Ok k).
Proof.
  revert pm. induction l as [|pkg l IH]; simpl; intros pm Hpm H Hin.
  - simplify_eq. left. split; [done|]. intros pkg Hpkg. by apply elem_of_nil in Hpkg.
  - destruct (package_step excel_map pm pkg) as [pm1|] eqn:Hstep; [|done].
    assert (keyed pm1) as Hpm1.
    { apply (package_loop_keyed excel_map [pkg] pm); [done|]. simpl. by rewrite Hstep. }
    destruct (IH pm1 Hpm1 H Hin) as [[Hin1 Hnone]|(l1 & pkg' & l2 & -> & Hret & Hnone)].
    + apply package_step_inv in Hstep as [[Hsel ->]|(e0 & [Hsel He0] & ->)].
      * left. split; [done|].
        intros p [->|Hp]%elem_of_cons; [congruence|by apply Hnone].
      * destruct Hpm as [Hnd Hid].
        destruct (dict_set_origin _ _ _ _ _ Hnd Hin1) as [[-> ->]|[Hin0 Hne]].
        -- right. exists [], pkg, l. split_and!; [done|done|done].
        -- left. split; [done|].
           intros p [->|Hp]%elem_of_cons; [|by apply Hnone].
           intros _ Hid'. apply package_entry_facts in He0 as [Hk _]. congruence.
    + right. exists (pkg :: l1), pkg', l2. done.
Qed.

Lemma package_loop_keys (excel_map : gmap string product) (l : list json)
    (pm pm' : list (Z * Pkg.t)) :
  for_each (package_step excel_map) pm l = Ok pm' ->
  (forall k, k ∈ keys pm -> k ∈ keys pm') /\
  (forall pkg, pkg ∈ l -> selected pkg = Ok true ->
     exists k, package_id pkg = Ok k /\ k ∈ keys pm').
Proof.
  revert pm. induction l as [|pkg l IH]; simpl; intros pm H.
  - simplify_eq. split; [done|]. intros pkg Hpkg. by apply elem_of_nil in Hpkg.
  - destruct (package_step excel_map pm pkg) as [pm1|] eqn:Hstep; [|done].
    destruct (IH pm1 H) as [Hsub Hall].
    apply package_step_inv in Hstep as [[Hsel ->]|(e0 & [Hsel He0] & ->)].
    + split; [done|]. intros p [->|Hp]%elem_of_cons; [congruence|by apply Hall].
    + split.
      * intros k Hk. apply Hsub, elem_of_keys_dict_set. by right.
      * intros p [->|Hp]%elem_of_cons; [|by apply Hall].
        intros _. exists (Pkg.Id e0). split.
        -- by apply package_entry_facts in He0 as [? _].
        -- apply Hsub, elem_of_keys_dict_set. by left.
Qed.

(** ** The pagination loop *)

Lemma fetch_page_inv (excel_map : gmap string product) (inventory : Z -> reply)
    (page : Z) (pm pm' : list (Z * Pkg.t)) (stop : bool) :
  fetch_page excel_map inventory page pm = Ok (pm', stop) ->
  exists status data,
    inventory page = Reply status (Some data) /\
    raise_for_status status = Ok tt /\
    for_each (package_step excel_map) pm (page_packages (inventory page)) = Ok pm' /\
    page_data data = Ok (page_packages (inventory page)) /\
    last_page page data = Ok stop.
Proof.
  unfold fetch_page. intros H.
  destruct (inventory page) as [|status body] eqn:Hr; [done|].
  inv_bind H. destruct a. destruct body as [data|]; [|done].
  simpl in Ha0. simplify_eq. simpl. rewrite Ha1.
  exists status, a0. done.
Qed.

Lemma packages_seen_cons (inventory : Z -> reply) (n : Z) (pages : list Z) :
  packages_seen inventory (n :: pages) =
  (page_packages (inventory n) ++ packages_seen inventory pages)%list.
Proof. done. Qed.

(** The loop asks for consecutive pages, and the map it ends with is the
    one the package loop builds from all their packages in order. *)
Lemma fetch_loop_spec (excel_map : gmap string product) (inventory : Z -> reply)
    (fuel : nat) (page : Z) (pm : list (Z * Pkg.t)) (log requested : list Z)
    (r : result (list (Z * Pkg.t))) :
  fetch_loop fuel excel_map inventory page pm log = Some (requested, r) ->
  exists n : nat,
    (0 < n <= fuel)%nat /\
    requested = (log ++ seqZ page (Z.of_nat n))%list /\
    forall pm', r = Ok pm' ->
      for_each (package_step excel_map) pm
        (packages_seen inventory (seqZ page (Z.of_nat n))) = Ok pm'.
Proof.
  revert page pm log. induction fuel as [|fuel IH]; intros page pm log H; [done|].
  simpl in H.
  destruct (fetch_page excel_map inventory page pm) as [[pm1 stop]|e] eqn:Hpage.
  - apply fetch_page_inv in Hpage as (status & data & _ & _ & Hloop & _ & _).
    destruct stop.
    + simplify_eq. exists 1%nat. split; [lia|]. split; [done|].
      intros pm' [= <-]. change (seqZ page (Z.of_nat 1)) with [page].
      rewrite packages_seen_cons. unfold packages_seen at 1. simpl.
      by rewrite app_nil_r.
    + apply IH in H as (n & Hn & -> & Hr).
      exists (S n). split; [lia|]. split.
      * rewrite <- app_assoc. f_equal.
        rewrite (seqZ_cons page (Z.of_nat (S n))) by lia.
        simpl. do 2 f_equal; lia.
      * intros pm' ->.
        rewrite (seqZ_cons page (Z.of_nat (S n))) by lia.
        rewrite packages_seen_cons, for_each_app, Hloop. simpl.
        replace (Z.pred (Z.of_nat (S n))) with (Z.of_nat n) by lia.
        by apply Hr.
  - simplify_eq. exists 1%nat. split; [lia|]. split; [done|]. done.
Qed.

Lemma keyed_nil : keyed [].
Proof. split; [constructor|]. intros k e H. by apply elem_of_nil in H. Qed.

Lemma keyed_keys (pm : list (Z * Pkg.t)) :
  keyed pm -> map Pkg.Id (values pm) = keys pm.
Proof.
  intros [_ Hid]. unfold values, keys.
  induction pm as [|[k e] pm IH]; simpl; [done|].
  f_equal.
  - apply Hid. left.
  - apply IH. intros k' e' H. apply Hid. by right.
Qed.

Lemma package_loop_get (excel_map : gmap string product) (l : list json)
    (pm pm' : list (Z * Pkg.t)) (k : Z) :
  for_each (package_step excel_map) pm l = Ok pm' ->
  (forall pkg, pkg ∈ l -> selected pkg = Ok true -> package_id pkg <> Ok k) ->
  dict_get k pm' = dict_get k pm.
Proof.
  revert pm. induction l as [|pkg l IH]; simpl; intros pm H Hnone.
  - by simplify_eq.
  - destruct (package_step excel_map pm pkg) as [pm1|] eqn:Hstep; [|done].
    rewrite (IH pm1 H) by (intros p Hp; apply Hnone; by right).
    apply package_step_inv in Hstep as [[_ ->]|(e & [Hsel He] & ->)]; [done|].
    rewrite dict_get_set. case_decide as Hk; [|done]. subst k.
    exfalso. apply (Hnone pkg); [by left|done|].
    by apply package_entry_facts in He as [? _].
Qed.

(** The entry of the last kept package with a given id is the one the map
    ends with. *)
Lemma package_loop_last (excel_map : gmap string product) (l1 l2 : list json)
    (pkg : json) (pm pm' : list (Z * Pkg.t)) (e : Pkg.t) :
  for_each (package_step excel_map) pm (l1 ++ pkg :: l2) = Ok pm' ->
  retained excel_map pkg e ->
  (forall pkg', pkg' ∈ l2 -> selected pkg' = Ok true -> package_id pkg' <> Ok (Pkg.Id e)) ->
  dict_get (Pkg.Id e) pm' = Some e.
Proof.
  intros H [Hsel He] Hnone.
  rewrite for_each_app in H. apply bind_Ok in H as (pm1 & _ & H). simpl in H.
  destruct (package_step excel_map pm1 pkg) as [pm2|] eqn:Hstep; [|done].
  rewrite (package_loop_get _ _ _ _ _ H Hnone).
  apply package_step_inv in Hstep as [[Hsel' _]|(e' & [_ He'] & ->)]; [congruence|].
  assert (e' = e) as -> by congruence.
  rewrite dict_get_set. by rewrite decide_True.
Qed.

Lemma elem_of_values {V : Type} (d : list (Z * V)) (v : V) :
  v ∈ values d <-> exists k, (k, v) ∈ d.
Proof.
  unfold values. rewrite list_elem_of_fmap. split.
  - intros ([k v'] & -> & H). by exists k.
  - intros (k & H). by exists (k, v).
Qed.

Lemma elem_of_final (pm : list (Z * Pkg.t)) (lbp : list (Z * list Lab.t)) (r : Item.t) :
  r ∈ final pm lbp <-> exists k e, (k, e) ∈ pm /\ r = item_of lbp e.
Proof.
  unfold final. rewrite list_elem_of_fmap. split.
  - intros (e & -> & He). rewrite sorted_perm in He.
    apply elem_of_values in He as [k Hk]. eauto.
  - intros (k & e & Hin & ->). exists e. split; [done|].
    rewrite sorted_perm. apply elem_of_values. eauto.
Qed.

(** The run, down to the map of packages. *)
Lemma build_payload_packages (fuel : nat) (up : upstream) (p : payload) :
  build_payload fuel up = Some (Ok p) ->
  exists pm lbp,
    for_each (package_step (metadata up)) [] (seen_by_run fuel up) = Ok pm /\
    keyed pm /\
    lab_results (labs up) pm = Ok lbp /\
    items p = final pm lbp.
Proof.
  intros H. apply build_payload_inv in H as (em & br & req & pm & lbp & Hx & Hf & Hl & ->).
  unfold seen_by_run, pages_requested, metadata. rewrite Hx, Hf.
  exists pm, lbp. unfold fetch_packages in Hf.
  apply fetch_loop_spec in Hf as (n & _ & -> & Hr). simpl.
  specialize (Hr pm eq_refl). split_and!; [done| |done|done].
  eapply package_loop_keyed; [apply keyed_nil|done].
Qed.

Lemma in_ROOMS_spec (x : string) : in_ROOMS x = true <-> x ∈ ROOMS.
Proof.
  unfold in_ROOMS. rewrite existsb_exists. split.
  - intros (y & Hy & ->%String.eqb_eq). by apply list_elem_of_In.
  - intros H. exists x. split; [by apply list_elem_of_In|apply String.eqb_refl].
Qed.

Lemma selected_true (pkg : json) :
  selected pkg = Ok true <->
  exists o loc,
    pkg = JObj o /\ default (JStr "") (obj_get "LocationName" o) = JStr loc /\
    lower loc ∈ ROOMS.
Proof.
  unfold selected, get_default, lower_method. split.
  - intros H. destruct pkg as [| | | | |l|o]; try done. cbn -[in_ROOMS] in H.
    destruct (default (JStr "") (obj_get "LocationName" o)) as [| | | |loc| |] eqn:Hloc;
      try done.
    cbn -[in_ROOMS] in H. exists o, loc. split_and!; try done.
    apply in_ROOMS_spec. congruence.
  - intros (o & loc & -> & Hloc & Hin). cbn -[in_ROOMS]. rewrite Hloc. cbn -[in_ROOMS].
    f_equal. by apply in_ROOMS_spec.
Qed.

(** ** C2: unique ids, allowed locations only *)



(** ** C7: a metadata miss *)

Lemma package_entry_any_map (em1 em2 : gmap string product) (pkg : json) (e1 : Pkg.t) :
  package_entry em1 pkg = Ok e1 ->
  package_entry em2 pkg =
    Ok {| Pkg.Id := Pkg.Id e1; Pkg.Label := Pkg.Label e1;
          Pkg.ItemName := Pkg.ItemName e1; Pkg.Quantity := Pkg.Quantity e1;
          Pkg.Type_ := excel_type em2 (Pkg.ItemName e1);
          Pkg.Price := excel_price em2 (Pkg.ItemName e1) |}.
Proof.
  unfold package_entry. intros H. inv_bind H. injection H as <-.
  rewrite Ha; simpl. rewrite Ha0; simpl. rewrite Ha1; simpl.
  rewrite Ha2; simpl. rewrite Ha3; simpl. by rewrite Ha4.
Qed.

(** C7.  In every payload the script builds, an item whose [ItemName] (the
    trimmed item name) is not a key of the metadata map has [Type] and
    [Price] null.  The miss raises nothing: the entry of a package is built
    under one metadata map exactly when it is built under any other, only
    [Type] and [Price] differ. *)
Theorem metadata_miss_gives_null (fuel : nat) (up : upstream) (p : payload) :
  build_payload fuel up = Some (Ok p) ->
  (forall r, r ∈ items p ->
     metadata up !! Item.ItemName r = None ->
     Item.Type_ r = None /\ Item.Price r = None) /\
  (forall pkg e excel_map,
     package_entry (metadata up) pkg = Ok e ->
     excel_map !! Pkg.ItemName e = None ->
     package_entry excel_map pkg =
       Ok {| Pkg.Id := Pkg.Id e; Pkg.Label := Pkg.Label e;
             Pkg.ItemName := Pkg.ItemName e; Pkg.Quantity := Pkg.Quantity e;
             Pkg.Type_ := None; Pkg.Price := None |}).
Proof.
  intros H. split.
  - apply build_payload_packages in H as (pm & lbp & Hloop & Hkeyed & _ & Hitems).
    rewrite Hitems. intros r (k & e & Hin & ->)%elem_of_final. simpl. intros Hmiss.
    destruct (package_loop_origin _ _ _ _ _ _ keyed_nil Hloop Hin)
      as [[Hnil _]|(l1 & pkg & l2 & _ & [_ He] & _)].
    { by apply elem_of_nil in Hnil. }
    apply package_entry_facts in He as (_ & -> & -> & _).
    unfold excel_type, excel_price. by rewrite Hmiss.
  - intros pkg e em He Hmiss.
    rewrite (package_entry_any_map _ em _ _ He).
    unfold excel_type, excel_price. by rewrite Hmiss.
Qed.

Lemma metadata_miss_gives_null_witness :
  Item.Type_ (Scenario.item 20 "1A4-020" "Sour Diesel 1g" None None []) = None /\
  Item.Price (Scenario.item 20 "1A4-020" "Sour Diesel 1g" None None []) = None.
Proof.
  refine (proj1 (metadata_miss_gives_null 5 Scenario.up Scenario.expected _) _ _ _).
  - vm_compute. reflexivity.
  - unfold Scenario.expected. simpl. right. left.
  - vm_compute. reflexivity.
Defined.

(** ** C10: a package without an item name *)

Lemma item_name_obj (o : list (string * json)) :
  item_name (JObj o) =
  Ok (if truthy (nested_name o) then nested_name o
      else default JNull (obj_get "ItemName" o)).
Proof.
  unfold item_name, nested_name, get, get_default. simpl.
  destruct (obj_get "Item" o) as [[| | | | | |i]|]; simpl; try done.
  by destruct (truthy (default JNull (obj_get "Name" i))).
Qed.

Lemma package_loop_retains (excel_map : gmap string product) (l1 l2 : list json)
    (pkg : json) (pm pm' : list (Z * Pkg.t)) :
  for_each (package_step excel_map) pm (l1 ++ pkg :: l2) = Ok pm' ->
  selected pkg = Ok true ->
  exists e, retained excel_map pkg e.
Proof.
  intros H Hsel. rewrite for_each_app in H. apply bind_Ok in H as (pm1 & _ & H).
  simpl in H. destruct (package_step excel_map pm1 pkg) as [pm2|] eqn:Hstep; [|done].
  apply package_step_inv in Hstep as [[Hsel' _]|(e & He & _)]; [congruence|eauto].
Qed.

(** C10, as amended.  Take a package the loop kept, with no truthy nested
    [Item] name and with its flat [ItemName] missing or null, and let no
    package kept after it have the same id.  Then the payload has an item
    with that id whose [ItemName] is the text [None], and whose [Type] and
    [Price] are those the metadata map holds under the key [None]: null
    when there is no such key. *)
Theorem nameless_package_published_as_None (fuel : nat) (up : upstream) (p : payload)
    (before after : list json) (o : list (string * json)) :
  build_payload fuel up = Some (Ok p) ->
  seen_by_run fuel up = (before ++ JObj o :: after)%list ->
  selected (JObj o) = Ok true ->
  truthy (nested_name o) = false ->
  obj_get "ItemName" o = None \/ obj_get "ItemName" o = Some JNull ->
  (forall pkg', pkg' ∈ after -> selected pkg' = Ok true ->
                package_id pkg' <> package_id (JObj o)) ->
  exists r,
    r ∈ items p /\
    package_id (JObj o) = Ok (Item.Id r) /\
    Item.ItemName r = "None" /\
    Item.Type_ r = excel_type (metadata up) "None" /\
    Item.Price r = excel_price (metadata up) "None" /\
    (metadata up !! "None" = None -> Item.Type_ r = None /\ Item.Price r = None).
Proof.
  intros H Hseen Hsel Hnested Hflat Hlast.
  apply build_payload_packages in H as (pm & lbp & Hloop & Hkeyed & _ & Hitems).
  rewrite Hseen in Hloop.
  destruct (package_loop_retains _ _ _ _ _ _ Hloop Hsel) as [e He].
  assert (Hfacts := proj2 He). apply package_entry_facts in Hfacts
    as (Hid & Htype & Hprice & name & text & Hname & Htext & Hstrip).
  assert (Pkg.ItemName e = "None") as HNone.
  { rewrite item_name_obj, Hnested in Hname.
    assert (name = JNull) as -> by (destruct Hflat as [Hf|Hf]; rewrite Hf in Hname;
                                    simpl in Hname; congruence).
    simpl in Htext. injection Htext as <-. by rewrite Hstrip. }
  rewrite Hid in Hlast.
  assert (Hget := package_loop_last _ _ _ _ _ _ _ Hloop He Hlast).
  apply dict_get_Some in Hget.
  exists (item_of lbp e). rewrite Hitems. split_and!; simpl.
  - apply elem_of_final. eauto.
  - done.
  - done.
  - by rewrite Htype, HNone.
  - by rewrite Hprice, HNone.
  - intros Hmiss. rewrite Htype, Hprice, HNone.
    unfold excel_type, excel_price. by rewrite Hmiss.
Qed.

(** C10 as it was stated fails: a kept package with no nested [Item] and
    the empty text as its flat [ItemName] (a value that is not truthy) is
    published with the empty text as [ItemName], not with the text
    [None]. *)
Lemma blank_flat_name_is_not_None :
  let members := [("Id", JInt 7); ("Label", JStr "1A4-007"); ("ItemName", JStr "");
                  ("Quantity", JInt 12); ("LocationName", JStr "Low Inventory")] in
  let r := Scenario.item 7 "1A4-007" "" None None [] in
  seen_by_run 1 Scenario.blank_name = [JObj members] /\
  selected (JObj members) = Ok true /\
  truthy (nested_name members) = false /\
  truthy (default JNull (obj_get "ItemName" members)) = false /\
  build_payload 1 Scenario.blank_name =
    Some (Ok {| items := [r]; bulkRules := bulkRules Scenario.expected |}) /\
  Item.ItemName r <> "None".
Proof. vm_compute. split_and!; done. Qed.

Lemma nameless_package_published_as_None_witness :
  exists r,
    r ∈ [Scenario.item 8 "1A4-008" "None" None None []] /\
    package_id (JObj Scenario.nameless_members) = Ok (Item.Id r) /\
    Item.ItemName r = "None" /\
    Item.Type_ r = excel_type (metadata Scenario.nameless) "None" /\
    Item.Price r = excel_price (metadata Scenario.nameless) "None" /\
    (metadata Scenario.nameless !! "None" = None ->
     Item.Type_ r = None /\ Item.Price r = None).
Proof.
  refine (nameless_package_published_as_None 1 Scenario.nameless
            {| items := [Scenario.item 8 "1A4-008" "None" None None []];
               bulkRules := bulkRules Scenario.expected |}
            [] [] Scenario.nameless_members _ _ _ _ _ _).
  - vm_compute. reflexivity.
  - vm_compute. reflexivity.
  - vm_compute. reflexivity.
  - vm_compute. reflexivity.
  - left. vm_compute. reflexivity.
  - intros pkg' Hin. by apply elem_of_nil in Hin.
Defined.

(** ** C9: pagination *)

Lemma package_loop_processable (excel_map : gmap string product) (l : list json)
    (pm : list (Z * Pkg.t)) :
  Forall (processable excel_map) l ->
  exists pm', for_each (package_step excel_map) pm l = Ok pm'.
Proof.
  intros Hl. revert pm. induction Hl as [|pkg l Hpkg _ IH]; intros pm; simpl; [eauto|].
  assert (exists pm1, package_step excel_map pm pkg = Ok pm1) as [pm1 ->].
  { unfold package_step.
    destruct Hpkg as [->|(e & -> & ->)]; simpl; eauto. }
  apply IH.
Qed.

Lemma fetch_page_reports (excel_map : gmap string product) (inventory : Z -> reply)
    (page : Z) (pm : list (Z * Pkg.t)) (total : option Z) :
  page_reports excel_map (inventory page) total ->
  exists pm',
    fetch_page excel_map inventory page pm = Ok (pm', default 1 total <=? page).
Proof.
  intros (status & o & pkgs & Hr & Hstatus & Hdata & Hpkgs & Htotal).
  destruct (package_loop_processable _ _ pm Hpkgs) as [pm' Hloop].
  exists pm'. unfold fetch_page. rewrite Hr, Hstatus. simpl.
  rewrite Hdata. simpl. rewrite Hloop. simpl.
  unfold last_page, get_default. rewrite Htotal. by destruct total.
Qed.

Lemma fetch_loop_constant (excel_map : gmap string product) (inventory : Z -> reply)
    (N : Z) (fuel : nat) (page : Z) (pm : list (Z * Pkg.t)) (log : list Z) :
  page <= N -> N - page < Z.of_nat fuel ->
  (forall n, page <= n <= N -> page_reports excel_map (inventory n) (Some N)) ->
  exists pm',
    fetch_loop fuel excel_map inventory page pm log =
    Some ((log ++ seqZ page (N - page + 1))%list, Ok pm').
Proof.
  revert page pm log. induction fuel as [|fuel IH]; intros page pm log Hle Hfuel Hpages.
  { lia. }
  simpl.
  destruct (fetch_page_reports _ _ page pm (Some N) (Hpages page ltac:(lia))) as [pm1 ->].
  simpl. destruct (Z.leb_spec N page) as [HN|HN].
  - exists pm1. replace (N - page + 1) with 1 by lia. done.
  - destruct (IH (page + 1) pm1 (log ++ [page])%list) as [pm' ->]; [lia|lia| |].
    { intros n Hn. apply Hpages. lia. }
    exists pm'. rewrite <- app_assoc. do 3 f_equal.
    rewrite (seqZ_cons page (N - page + 1)) by lia. simpl.
    do 2 f_equal; lia.
Qed.

Lemma page_holds_reports (excel_map : gmap string product) (r : reply)
    (units : list json) (total : option Z) :
  Answers.page_holds excel_map r units total ->
  page_reports excel_map r total /\ page_packages r = units.
Proof.
  intros (status & o & -> & Hstatus & Hdata & Hunits & Htotal).
  assert (page_data (JObj o) = Ok units) as Hpage.
  { unfold page_data, get_default. by rewrite Hdata. }
  split.
  - exists status, o, units. split_and!; try done.
    unfold raise_for_status.
    destruct (Z.leb_spec 400 status), (Z.ltb_spec status 600); simpl; try done. lia.
  - unfold page_packages. by rewrite Hpage.
Qed.

Lemma packages_seen_units (inventory : Z -> reply) (units : Z -> list json)
    (pages : list Z) :
  (forall n, n ∈ pages -> page_packages (inventory n) = units n) ->
  packages_seen inventory pages = concat (map units pages).
Proof.
  unfold packages_seen. induction pages as [|n pages IH]; intros H; simpl; [done|].
  rewrite H by left. f_equal. apply IH. intros m Hm. apply H. by right.
Qed.

Lemma package_id_obj (pkg : json) (k : Z) :
  package_id pkg = Ok k <-> exists o, pkg = JObj o /\ obj_get "Id" o = Some (JInt k).
Proof.
  unfold package_id, getitem. split.
  - destruct pkg as [| | | | |l|o]; try done. intros H. exists o. split; [done|].
    destruct (obj_get "Id" o) as [[| | | | | |]|]; try done. simpl in H. congruence.
  - intros (o & -> & ->). done.
Qed.

(** A unit the loop keeps, by its members: [LocationName] is a text whose
    lower case is an allowed room. *)
Lemma selected_obj (o : list (string * json)) :
  selected (JObj o) = Ok true <->
  exists loc, obj_get "LocationName" o = Some (JStr loc) /\ lower loc ∈ ROOMS.
Proof.
  rewrite selected_true. split.
  - intros (o' & loc & [= <-] & Hloc & Hin). exists loc. split; [|done].
    destruct (obj_get "LocationName" o) as [v|]; simpl in Hloc; [by subst|].
    injection Hloc as <-. exfalso. apply in_ROOMS_spec in Hin. done.
  - intros (loc & Hloc & Hin). exists o, loc. by rewrite Hloc.
Qed.

Lemma elem_of_concat_units (units : Z -> list json) (pages : list Z) (pkg : json) :
  pkg ∈ concat (map units pages) <-> exists n, n ∈ pages /\ pkg ∈ units n.
Proof.
  rewrite list_elem_of_In, in_concat. split.
  - intros (l & (n & <- & Hn)%in_map_iff & Hl). exists n.
    by rewrite !list_elem_of_In.
  - intros (n & Hn & Hpkg). exists (units n). rewrite <- !list_elem_of_In. split; [|done].
    apply list_elem_of_fmap. by exists n.
Qed.

(** C9.  Let every request for a page from 1 to [N] be answered with a
    status that is no HTTP error and a JSON object whose [TotalPages]
    member is [N] and whose [Data] member is an array [units n] of units
    the loop can process.  Then, given fuel for [N] turns, the loop ends
    after requesting exactly the pages 1, 2, ..., [N] in this order; the
    map it returns is the one the package loop builds from the units of
    all these pages, first page first; and its keys are the ids of the
    units, of any of the pages, whose [LocationName] is in lower case an
    allowed room.  When the answer to the first request has no
    [TotalPages] member, the loop ends after that one request, with the
    map of the units of that page. *)
Theorem pagination_requests_each_page_once (excel_map : gmap string product)
    (inventory : Z -> reply) (units : Z -> list json) (N : Z) (fuel : nat) :
  (1 <= N -> N <= Z.of_nat fuel ->
   (forall n, 1 <= n <= N ->
      Answers.page_holds excel_map (inventory n) (units n) (Some N)) ->
   exists packages_map,
     fetch_packages fuel excel_map inventory = Some (seqZ 1 N, Ok packages_map) /\
     for_each (package_step excel_map) [] (concat (map units (seqZ 1 N)))
       = Ok packages_map /\
     forall id, id ∈ keys packages_map <->
       exists n o loc,
         1 <= n <= N /\ JObj o ∈ units n /\
         obj_get "LocationName" o = Some (JStr loc) /\ lower loc ∈ ROOMS /\
         obj_get "Id" o = Some (JInt id)) /\
  (Answers.page_holds excel_map (inventory 1) (units 1) None -> (0 < fuel)%nat ->
   exists packages_map,
     fetch_packages fuel excel_map inventory = Some ([1], Ok packages_map) /\
     for_each (package_step excel_map) [] (units 1) = Ok packages_map).
Proof.
  split.
  - intros HN Hfuel Hpages.
    destruct (fetch_loop_constant excel_map inventory N fuel 1 [] [])
      as [pm Hloop]; [lia|lia| |].
    { intros n Hn. by apply (page_holds_reports _ _ (units n)), Hpages. }
    replace (N - 1 + 1) with N in Hloop by lia. simpl in Hloop.
    exists pm. split; [done|].
    apply fetch_loop_spec in Hloop as (k & _ & Hk & Hr). simpl in Hk.
    assert (Z.of_nat k = N) as HkN.
    { apply (f_equal length) in Hk. rewrite !length_seqZ in Hk. lia. }
    rewrite HkN in Hr. specialize (Hr pm eq_refl).
    rewrite (packages_seen_units _ units) in Hr.
    2:{ intros n Hn%elem_of_seqZ. apply (page_holds_reports excel_map _ _ (Some N)).
        apply Hpages. lia. }
    split; [done|]. intros id. split.
    + intros ([k' e] & -> & Hin)%list_elem_of_fmap. simpl.
      destruct (package_loop_origin _ _ _ _ _ _ keyed_nil Hr Hin)
        as [[Hnil _]|(l1 & pkg & l2 & Hsplit & [Hsel He] & _)].
      { by apply elem_of_nil in Hnil. }
      assert (pkg ∈ concat (map units (seqZ 1 N))) as Hpkg.
      { rewrite Hsplit. apply elem_of_app. right. left. }
      apply elem_of_concat_units in Hpkg as (n & Hn%elem_of_seqZ & Hpkg).
      assert (Pkg.Id e = k') as Hid.
      { apply (package_loop_keyed _ _ [] pm keyed_nil) in Hr as [_ Hid]. by apply Hid. }
      apply package_entry_facts in He as [He _]. rewrite Hid in He.
      apply package_id_obj in He as (o & -> & Ho).
      apply selected_obj in Hsel as (loc & Hloc & Hroom).
      exists n, o, loc. split_and!; try done; lia.
    + intros (n & o & loc & Hn & Hin & Hloc & Hroom & Hid).
      apply package_loop_keys in Hr as [_ Hall].
      destruct (Hall (JObj o)) as (k' & Hk' & Hkey).
      * apply elem_of_concat_units. exists n. split; [|done]. apply elem_of_seqZ. lia.
      * apply selected_obj. eauto.
      * apply package_id_obj in Hk' as (o' & [= <-] & Hk'). congruence.
  - intros Hpage Hfuel. destruct fuel as [|fuel]; [lia|].
    apply page_holds_reports in Hpage as [Hpage Hunits].
    unfold fetch_packages. simpl.
    destruct (fetch_page_reports _ _ 1 [] None Hpage) as [pm Hp].
    rewrite Hp. simpl. exists pm. split; [done|].
    apply fetch_page_inv in Hp as (? & ? & _ & _ & ? & _). by rewrite <- Hunits.
Qed.

Ltac solve_processable :=
  first [ left; vm_compute; reflexivity
        | right; eexists; split; vm_compute; reflexivity ].

Lemma pagination_requests_each_page_once_witness :
  fetch_packages 3 (metadata Scenario.up) Scenario.inventory
    = Some ([1; 2; 3], Ok Scenario.drawn) /\
  forall id, id ∈ [30; 20; 5] <->
    exists n o loc,
      1 <= n <= 3 /\ JObj o ∈ Scenario.units n /\
      obj_get "LocationName" o = Some (JStr loc) /\ lower loc ∈ ROOMS /\
      obj_get "Id" o = Some (JInt id).
Proof.
  destruct (proj1 (pagination_requests_each_page_once
                     (metadata Scenario.up) Scenario.inventory Scenario.units 3 3))
    as (pm & Hloop & Hmap & Hkeys).
  - lia.
  - simpl. lia.
  - intros n Hn.
    assert (n = 1 \/ n = 2 \/ n = 3) as [-> | [-> | ->]] by lia;
      unfold Answers.page_holds; do 2 eexists;
      (split; [vm_compute; reflexivity|]);
      (split; [left; lia|]);
      (split; [vm_compute; reflexivity|]);
      (split; [|vm_compute; reflexivity]);
      repeat (apply List.Forall_cons; [solve_processable|]); apply List.Forall_nil.
  - vm_compute in Hmap. injection Hmap as <-. split; [exact Hloop|exact Hkeys].
Defined.

(** ** Lab results *)

Lemma lab_key_name (x : Lab.t) : lab_key x = Lab.TestTypeName x.
Proof. unfold lab_key. by destruct (String.eqb_spec (Lab.TestTypeName x) ""). Qed.

Lemma sort_labs_perm (l : list Lab.t) : sort_labs l ≡ₚ l.
Proof. apply sorted_perm. Qed.

Lemma sort_labs_ascending (l : list Lab.t) : names_ascending (sort_labs l).
Proof.
  unfold names_ascending, sort_labs.
  apply (StronglySorted_fmap _ (key_le lab_key String.ltb)).
  - unfold key_le. intros x y. rewrite !lab_key_name. apply string_ltb_leb.
  - apply sorted_sorted; [apply string_ltb_asym|apply string_ltb_le_trans].
Qed.

(** Two sorted lists of the same records, however ordered before, show the
    same names in the same places. *)
Lemma sort_labs_names (l l' : list Lab.t) :
  l ≡ₚ l' ->
  map Lab.TestTypeName (sort_labs l) = map Lab.TestTypeName (sort_labs l').
Proof.
  intros Hperm.
  apply (StronglySorted_unique_strong (fun a b => String.leb a b = true)).
  - intros x y _ _. apply String.leb_antisym.
  - apply sort_labs_ascending.
  - apply sort_labs_ascending.
  - apply Permutation_map. by rewrite !sort_labs_perm.
Qed.

Lemma NoDup_fmap_eq {A B : Type} (f : A -> B) (l : list A) (x y : A) :
  NoDup (map f l) -> x ∈ l -> y ∈ l -> f x = f y -> x = y.
Proof.
  induction l as [|a l IH]; simpl; intros Hnd Hx Hy Hf.
  - by apply elem_of_nil in Hx.
  - apply NoDup_cons in Hnd as [Ha Hnd].
    apply elem_of_cons in Hx as [->|Hx]; apply elem_of_cons in Hy as [->|Hy].
    + done.
    + exfalso. apply Ha. rewrite Hf. apply list_elem_of_fmap. by exists y.
    + exfalso. apply Ha. rewrite <- Hf. apply list_elem_of_fmap. by exists x.
    + by apply IH.
Qed.

(** When no two records share a name, the sorted list does not depend on
    the order the records came in. *)
Lemma sort_labs_distinct (l l' : list Lab.t) :
  l ≡ₚ l' -> NoDup (map Lab.TestTypeName l') -> sort_labs l = sort_labs l'.
Proof.
  intros Hperm Hnd.
  apply (StronglySorted_unique_strong (key_le lab_key String.ltb)).
  - unfold key_le. intros x y Hx Hy Hxy Hyx.
    rewrite !lab_key_name in Hxy, Hyx.
    apply string_ltb_leb in Hxy, Hyx.
    apply (NoDup_fmap_eq Lab.TestTypeName l'); [done| | |].
    + by rewrite sort_labs_perm, Hperm in Hx.
    + by rewrite sort_labs_perm in Hy.
    + by apply String.leb_antisym.
  - apply sorted_sorted; [apply string_ltb_asym|apply string_ltb_le_trans].
  - apply sorted_sorted; [apply string_ltb_asym|apply string_ltb_le_trans].
  - by rewrite !sort_labs_perm.
Qed.

Lemma lab_step_kept (acc l : list Lab.t) (rec : json) :
  lab_step acc rec = Ok l -> l = (acc ++ kept_tests rec)%list.
Proof.
  unfold kept_tests, lab_step. intros H. inv_bind H.
  rewrite Ha; cbn [Py.bind]. rewrite Ha0; cbn [Py.bind].
  destruct (is_analyte a0).
  - inv_bind H. rewrite Ha1; cbn [Py.bind]. by simplify_eq.
  - simplify_eq. by rewrite app_nil_r.
Qed.

Lemma lab_loop_kept (recs : list json) (acc l : list Lab.t) :
  for_each lab_step acc recs = Ok l ->
  l = (acc ++ flat_map kept_tests recs)%list.
Proof.
  revert acc. induction recs as [|rec recs IH]; simpl; intros acc H.
  - simplify_eq. by rewrite app_nil_r.
  - destruct (lab_step acc rec) as [acc'|] eqn:Hstep; [|done].
    apply lab_step_kept in Hstep as ->. rewrite (IH _ H). by rewrite <- app_assoc.
Qed.

Lemma lab_fetch_inv (labs : Z -> reply) (pid : Z) (l : list Lab.t) :
  lab_fetch labs [] pid = Ok l ->
  l = flat_map kept_tests (page_packages (labs pid)) \/
  (l = [] /\ forall body, labs pid <> Reply 200 body).
Proof.
  unfold lab_fetch, page_packages. destruct (labs pid) as [|status body]; [done|].
  destruct (Z.eqb_spec status 200) as [->|Hne].
  - intros H. inv_bind H. destruct body as [data|]; [|done].
    simpl in Ha. simplify_eq. rewrite Ha0. left. by apply lab_loop_kept in H.
  - intros [= <-]. right. split; [done|]. congruence.
Qed.

Lemma dict_get_sorted (lbp : list (Z * list Lab.t)) (k : Z) :
  dict_get k (map (fun kv => (fst kv, sort_labs (snd kv))) lbp) =
  sort_labs <$> dict_get k lbp.
Proof.
  induction lbp as [|[k0 l0] lbp IH]; simpl; [done|].
  by destruct (k =? k0).
Qed.

Lemma lab_loop_get (labs : Z -> reply) (pids : list Z)
    (d d' : list (Z * list Lab.t)) :
  NoDup pids ->
  (forall k, k ∈ pids -> dict_get k d = Some []) ->
  lab_loop labs d pids = Ok d' ->
  forall k,
    (k ∈ pids -> exists l, lab_fetch labs [] k = Ok l /\ dict_get k d' = Some l) /\
    (k ∉ pids -> dict_get k d' = dict_get k d).
Proof.
  unfold lab_loop. revert d. induction pids as [|pid pids IH]; simpl; intros d Hnd Hd H.
  - simplify_eq. intros k. split; [|done]. intros Hk. by apply elem_of_nil in Hk.
  - apply NoDup_cons in Hnd as [Hpid Hnd].
    rewrite (Hd pid) in H by left. simpl in H.
    destruct (lab_fetch labs [] pid) as [l|] eqn:Hfetch; [|done]. simpl in H.
    assert (forall k, k ∈ pids -> dict_get k (dict_set pid l d) = Some []) as Hd1.
    { intros k Hk. rewrite dict_get_set, decide_False by (by intros ->).
      apply Hd. by right. }
    intros k. destruct (IH _ Hnd Hd1 H k) as [Hin Hout]. split.
    + intros [->|Hk]%elem_of_cons; [|by apply Hin].
      exists l. split; [done|]. rewrite Hout by done.
      rewrite dict_get_set. by rewrite decide_True.
    + intros Hk. rewrite not_elem_of_cons in Hk. destruct Hk as [Hne Hk].
      rewrite Hout by done. rewrite dict_get_set. by rewrite decide_False.
Qed.

Lemma dict_get_init (pids : list Z) (k : Z) :
  k ∈ pids -> dict_get k (map (fun pid => (pid, @nil Lab.t)) pids) = Some [].
Proof.
  induction pids as [|pid pids IH]; simpl.
  - intros Hk. by apply elem_of_nil in Hk.
  - intros Hk. destruct (Z.eqb_spec k pid) as [->|Hne]; [done|].
    apply IH. apply elem_of_cons in Hk as [?|?]; [done|done].
Qed.

(** What [lab_by_pkg] holds for a package of [packages_map] once the lists
    are sorted. *)
Lemma lab_results_get (labs : Z -> reply) (pm : list (Z * Pkg.t))
    (lbp : list (Z * list Lab.t)) (k : Z) :
  NoDup (keys pm) ->
  lab_results labs pm = Ok lbp ->
  k ∈ keys pm ->
  exists l, lab_fetch labs [] k = Ok l /\ dict_get k lbp = Some (sort_labs l).
Proof.
  unfold lab_results. intros Hnd H Hk. inv_bind H. injection H as <-.
  destruct (lab_loop_get _ _ _ _ Hnd (dict_get_init _) Ha k) as [Hin _].
  destruct (Hin Hk) as (l & Hl & Hget). exists l. split; [done|].
  rewrite dict_get_sorted, Hget. done.
Qed.

Lemma lab_step_ok_any (acc acc' l : list Lab.t) (rec : json) :
  lab_step acc rec = Ok l -> exists l', lab_step acc' rec = Ok l'.
Proof.
  unfold lab_step. intros H. inv_bind H.
  rewrite Ha; cbn [Py.bind]. rewrite Ha0; cbn [Py.bind].
  destruct (is_analyte a0); [|eauto].
  inv_bind H. rewrite Ha1; cbn [Py.bind]. eauto.
Qed.

Lemma lab_loop_ok (recs : list json) (acc : list Lab.t) :
  (exists l, for_each lab_step acc recs = Ok l) <->
  Forall (fun rec => exists l, lab_step [] rec = Ok l) recs.
Proof.
  revert acc. induction recs as [|rec recs IH]; intros acc; simpl.
  - split; [intros _; constructor|eauto].
  - split.
    + intros [l H]. destruct (lab_step acc rec) as [acc1|] eqn:Hstep; [|done].
      constructor; [by eapply lab_step_ok_any|]. apply (IH acc1). eauto.
    + intros H. apply List.Forall_cons_iff in H as [[l0 Hrec] Hrecs].
      destruct (lab_step_ok_any _ acc _ _ Hrec) as [acc1 ->].
      by apply IH.
Qed.

(** ** C5: lab results in ascending order of analyte name *)

Lemma sort_labs_tie (x y : Lab.t) :
  Lab.TestTypeName x = Lab.TestTypeName y -> sort_labs [x; y] = [x; y].
Proof.
  intros H. unfold sort_labs, sorted. simpl. rewrite !lab_key_name, H.
  destruct (String.ltb _ _) eqn:Hlt; [|done].
  assert (Hgt := string_ltb_asym _ _ Hlt). congruence.
Qed.

(** C5.  What the sort of the lab results does, and where it parts from
    the claim.  In every payload the script builds, the [LabResults] of
    every item are in ascending order of [TestTypeName]; had the answer
    for the package listed the same records in any other order, the
    script would have kept the same records and the sorted list would
    show the same names in the same places, and would be the same list
    when no two kept records share a name.  But the key of the sort is
    the name alone: two records of one name stay in the order of the
    answer.  So when the lab source lists two [THC] records of a unit with
    different levels, once in one order and once in the other, the two
    payloads differ, and whenever their digests differ the second run
    publishes again although nothing has changed. *)
Theorem lab_results_sorted_by_name (dumps : payload -> string) (sha256 : string -> string) :
  (forall fuel up p r,
     build_payload fuel up = Some (Ok p) -> r ∈ items p ->
     names_ascending (Item.LabResults r) /\
     forall data recs recs',
       labs up (Item.Id r) = Reply 200 (Some data) ->
       page_data data = Ok recs ->
       recs' ≡ₚ recs ->
       exists l',
         for_each lab_step [] recs' = Ok l' /\
         Item.LabResults r ≡ₚ l' /\
         map Lab.TestTypeName (Item.LabResults r) = map Lab.TestTypeName (sort_labs l') /\
         (NoDup (map Lab.TestTypeName l') -> Item.LabResults r = sort_labs l')) /\
  (forall x y, Lab.TestTypeName x = Lab.TestTypeName y -> sort_labs [x; y] = [x; y]) /\
  (forall first second,
     build_payload 5 (Scenario.retested first second)
       = Some (Ok (Scenario.retested_expected first second)) /\
     Scenario.retests second first ≡ₚ Scenario.retests first second /\
     (first <> second ->
      items (Scenario.retested_expected second first)
        <> items (Scenario.retested_expected first second)) /\
     (sha256 (dumps (Scenario.retested_expected second first))
        <> sha256 (dumps (Scenario.retested_expected first second)) ->
      forall git, pull_status git = 0 ->
        run dumps sha256 5 (Scenario.retested second first)
            (Some (dumps (Scenario.retested_expected first second))) git
          = Some {| exit_code := 0;
                    actions := [GitPull;
                                WriteFile (dumps (Scenario.retested_expected second first));
                                GitAdd; GitCommit; GitPush];
                    menu_json := Some (dumps (Scenario.retested_expected second first));
                    serialized :=
                      Some (dumps (Scenario.retested_expected second first)) |})).
Proof.
  split; [|split].
  - intros fuel up p r H Hr.
    apply build_payload_packages in H as (pm & lbp & _ & Hkeyed & Hlab & Hitems).
    rewrite Hitems in Hr. apply elem_of_final in Hr as (k & e & Hin & ->). simpl.
    assert (Pkg.Id e ∈ keys pm) as Hk.
    { destruct Hkeyed as [_ Hid]. rewrite (Hid _ _ Hin).
      apply list_elem_of_fmap. by exists (k, e). }
    destruct (lab_results_get _ _ _ _ (proj1 Hkeyed) Hlab Hk) as (l & Hfetch & ->).
    simpl. split; [apply sort_labs_ascending|].
    intros data recs recs' Hreply Hdata Hperm.
    unfold lab_fetch in Hfetch. rewrite Hreply in Hfetch. simpl in Hfetch.
    rewrite Hdata in Hfetch. simpl in Hfetch.
    assert (exists l', for_each lab_step [] recs' = Ok l') as [l' Hl'].
    { apply lab_loop_ok. rewrite Hperm. apply (lab_loop_ok recs []). eauto. }
    exists l'. split; [done|].
    assert (l ≡ₚ l') as Hll'.
    { apply lab_loop_kept in Hfetch as ->. apply lab_loop_kept in Hl' as ->. simpl.
      symmetry. by apply Permutation_flat_map. }
    split_and!.
    + by rewrite sort_labs_perm.
    + by apply sort_labs_names.
    + by apply sort_labs_distinct.
  - apply sort_labs_tie.
  - intros first second.
    assert (forall a b, build_payload 5 (Scenario.retested a b)
                        = Some (Ok (Scenario.retested_expected a b))) as Hbuild.
    { intros a b. vm_compute. reflexivity. }
    split; [apply Hbuild|]. split.
    { symmetry. apply (Permutation_rev (Scenario.retests first second)). }
    split.
    { intros Hne [= H _]. by apply Hne. }
    intros Hdigest git Hpull. unfold run. rewrite Hbuild. unfold publish, file_hash.
    rewrite decide_False by congruence. by rewrite Hpull.
Qed.

Lemma lab_results_sorted_by_name_witness :
  build_payload 5 (Scenario.retested "21.4" "19.8")
    = Some (Ok (Scenario.retested_expected "21.4" "19.8")) /\
  items (Scenario.retested_expected "19.8" "21.4")
    <> items (Scenario.retested_expected "21.4" "19.8") /\
  run Scenario.levels Scenario.digest 5 (Scenario.retested "19.8" "21.4")
      (Some "0.3,21.4,19.8") Scenario.git_ok
    = Some {| exit_code := 0;
              actions := [GitPull; WriteFile "0.3,19.8,21.4"; GitAdd; GitCommit; GitPush];
              menu_json := Some "0.3,19.8,21.4";
              serialized := Some "0.3,19.8,21.4" |}.
Proof.
  destruct (proj2 (proj2 (lab_results_sorted_by_name Scenario.levels Scenario.digest))
              "21.4" "19.8") as (Hbuild & _ & Hdiffer & Hrun).
  split; [exact Hbuild|]. split; [apply Hdiffer; discriminate|].
  apply (Hrun ltac:(vm_compute; discriminate) Scenario.git_ok eq_refl).
Defined.

(** ** C1: the second run publishes nothing *)

(** C1.  Let a run end with exit status 0, and run the script again on the
    same upstream data and on the [menu.json] the first run left.  The
    second run serializes the same text; the hash of that text is the hash
    of the file; the run takes no action at all (no pull, no write, no
    commit, no push), leaves the file as it is and ends with exit status
    0 -- whatever the state of the remote. *)
Theorem second_run_publishes_nothing
    (dumps : payload -> string) (sha256 : string -> string)
    (fuel : nat) (up : upstream) (file : option string) (git1 git2 : remote)
    (first : outcome) :
  run dumps sha256 fuel up file git1 = Some first ->
  exit_code first = 0 ->
  exists second,
    run dumps sha256 fuel up (menu_json first) git2 = Some second /\
    serialized second = serialized first /\
    file_hash sha256 (menu_json first) = sha256 <$> serialized second /\
    actions second = [] /\
    exit_code second = 0 /\
    menu_json second = menu_json first.
Proof.
  unfold run. intros Hrun Hexit.
  destruct (build_payload fuel up) as [[p|e]|]; [| |done].
  - injection Hrun as <-. unfold publish in *.
    destruct (decide (file_hash sha256 file = Some (sha256 (dumps p)))) as [Heq|Hne].
    + simpl. rewrite decide_True by done. eexists. split_and!; done.
    + destruct (negb (pull_status git1 =? 0)); [done|]. simpl.
      rewrite decide_True by done. eexists. split_and!; done.
  - injection Hrun as <-. done.
Qed.

Lemma second_run_publishes_nothing_witness :
  exists second,
    run Scenario.dumps Scenario.digest 5 Scenario.up
      (Some "Blue Dream 3.5g,Sour Diesel 1g,Blue Dream 3.5g") Scenario.git_ok
      = Some second /\
    serialized second = Some "Blue Dream 3.5g,Sour Diesel 1g,Blue Dream 3.5g" /\
    file_hash Scenario.digest (Some "Blue Dream 3.5g,Sour Diesel 1g,Blue Dream 3.5g")
      = Scenario.digest <$> serialized second /\
    actions second = [] /\
    exit_code second = 0 /\
    menu_json second = Some "Blue Dream 3.5g,Sour Diesel 1g,Blue Dream 3.5g".
Proof.
  refine (second_run_publishes_nothing Scenario.dumps Scenario.digest 5 Scenario.up
            None Scenario.git_ok Scenario.git_ok
            {| exit_code := 0;
               actions := [GitPull;
                           WriteFile "Blue Dream 3.5g,Sour Diesel 1g,Blue Dream 3.5g";
                           GitAdd; GitCommit; GitPush];
               menu_json := Some "Blue Dream 3.5g,Sour Diesel 1g,Blue Dream 3.5g";
               serialized := Some "Blue Dream 3.5g,Sour Diesel 1g,Blue Dream 3.5g" |}
            _ _).
  - vm_compute. reflexivity.
  - reflexivity.
Defined.

(** ** C3: the status of a lab-result response *)

(** C3.  In the current script a lab-result response with status 404 and
    one with status 500 are treated alike: nothing is appended and nothing
    is raised.  On the
    worked run with a lab source that answers 500 to every request, the
    script builds the payload with every [LabResults] empty, writes it and
    pushes it, and ends with exit status 0.  The older variant of the
    script passes over 404 but raises on 500, which ends its run. *)
Theorem lab_status_other_than_200_is_ignored
    (dumps : payload -> string) (sha256 : string -> string) :
  (forall body acc pid,
     lab_fetch (fun _ => Reply 404 body) acc pid = Ok acc /\
     lab_fetch (fun _ => Reply 500 body) acc pid = Ok acc) /\
  (forall body acc pid,
     Legacy.lab_fetch (fun _ => Reply 404 body) acc pid = Ok acc /\
     Legacy.lab_fetch (fun _ => Reply 500 body) acc pid = Raise (HTTPError 500)) /\
  let p := {| items :=
                [Scenario.item 5 "1A4-005" "Blue Dream 3.5g" (Some "Flower")
                   (Some (Fnear false 4500 (-2))) [];
                 Scenario.item 20 "1A4-020" "Sour Diesel 1g" None None [];
                 Scenario.item 30 "1A4-030b" "Blue Dream 3.5g" (Some "Flower")
                   (Some (Fnear false 4500 (-2))) []];
              bulkRules := bulkRules Scenario.expected |} in
  build_payload 5 Scenario.labs_down = Some (Ok p) /\
  run dumps sha256 5 Scenario.labs_down None Scenario.git_ok =
    Some {| exit_code := 0;
            actions := [GitPull; WriteFile (dumps p); GitAdd; GitCommit; GitPush];
            menu_json := Some (dumps p);
            serialized := Some (dumps p) |} /\
  Legacy.lab_loop (labs Scenario.labs_down) [(30, []); (20, []); (5, [])] [30; 20; 5]
    = Raise (HTTPError 500).
Proof.
  split; [|split; [|cbv zeta; split; [|split]]].
  - intros body acc pid. split; reflexivity.
  - intros body acc pid. split; reflexivity.
  - vm_compute. reflexivity.
  - unfold run.
    replace (build_payload 5 Scenario.labs_down) with
      (Some (Ok {| items :=
                [Scenario.item 5 "1A4-005" "Blue Dream 3.5g" (Some "Flower")
                   (Some (Fnear false 4500 (-2))) [];
                 Scenario.item 20 "1A4-020" "Sour Diesel 1g" None None [];
                 Scenario.item 30 "1A4-030b" "Blue Dream 3.5g" (Some "Flower")
                   (Some (Fnear false 4500 (-2))) []];
              bulkRules := bulkRules Scenario.expected |}))
      by (vm_compute; reflexivity).
    reflexivity.
  - vm_compute. reflexivity.
Qed.

(** ** C4: rows of the bulk-rules worksheet *)

Lemma missing_not_truthy (v : option cell) : missing v -> cell_truthy v = false.
Proof. by intros ->. Qed.

Lemma text_truthy (s : string) : is_text s = true -> cell_truthy (Some (CStr s)) = true.
Proof.
  simpl. destruct (String.eqb_spec s "") as [->|]; [|done]. by vm_compute.
Qed.

Lemma bulk_step_missing (acc : list bulk_rule) (row : series) :
  missing (row_get "ProductGroup" row) \/ missing (row_get "MinQty" row) \/
  missing (row_get "Price" row) ->
  bulk_step acc row = Ok acc.
Proof.
  unfold bulk_step.
  intros [H|[H|H]]; apply missing_not_truthy in H; rewrite H;
    by rewrite ?andb_false_r.
Qed.

(** C4, as amended.  A row of the [BulkRules] worksheet one of whose three
    fields is missing, that is the worksheet has no column of that name,
    leaves no trace: the list of rules is the one the worksheet gives
    without that row, and the loop goes on.  A row whose three cells hold
    text and whose [MinQty] reads as an integer is not dropped when its
    price does not read as a decimal: its rule is appended, with a null
    [Price]. *)
Theorem bulk_rule_rows (l1 l2 : list series) (row : series) :
  (missing (row_get "ProductGroup" row) \/ missing (row_get "MinQty" row) \/
   missing (row_get "Price" row) ->
   for_each bulk_step [] (l1 ++ row :: l2) = for_each bulk_step [] (l1 ++ l2)) /\
  (forall g q m n rules,
     row_get "ProductGroup" row = Some (CStr g) -> is_text g = true ->
     row_get "MinQty" row = Some (CStr q) -> is_text q = true ->
     row_get "Price" row = Some (CStr m) -> is_text m = true ->
     int_of_str q = Ok n ->
     Decimal (money_text m) = Raise InvalidOperation ->
     for_each bulk_step [] l1 = Ok rules ->
     for_each bulk_step [] (l1 ++ [row]) =
       Ok (rules ++ [ {| ProductGroup := strip g; MinQty := n; Price := None |} ])%list).
Proof.
  split.
  - intros Hmiss. rewrite !for_each_app.
    destruct (for_each bulk_step [] l1) as [acc|]; simpl; [|done].
    by rewrite (bulk_step_missing _ _ Hmiss).
  - intros g q m n rules Hg Hg' Hq Hq' Hm Hm' Hn Hd Hl1.
    rewrite for_each_snoc, Hl1. simpl.
    unfold bulk_step. rewrite Hg, Hq, Hm, !text_truthy by done. simpl.
    rewrite Hn. simpl. by rewrite Hd.
Qed.

Lemma bulk_rule_rows_witness :
  for_each bulk_step []
    (iterrows {| columns := ["ProductGroup"; "MinQty"];
                 rows := [[CStr "Flower"; CStr "4"]; [CStr "Edible"; CStr "2"]] |}) =
  for_each bulk_step []
    (iterrows {| columns := ["ProductGroup"; "MinQty"];
                 rows := [[CStr "Flower"; CStr "4"]] |}) /\
  for_each bulk_step []
    (iterrows {| columns := ["ProductGroup"; "MinQty"; "Price"];
                 rows := [[CStr "Flower"; CStr "4"; CStr "$40.00"];
                          [CStr " Vape "; CStr "2"; CStr "forty"]] |}) =
  Ok [ {| ProductGroup := "Flower"; MinQty := 4; Price := Some (Fnear false 4000 (-2)) |};
       {| ProductGroup := strip " Vape "; MinQty := 2; Price := None |} ].
Proof.
  split.
  - refine (proj1 (bulk_rule_rows
      [[("ProductGroup", CStr "Flower"); ("MinQty", CStr "4")]] []
      [("ProductGroup", CStr "Edible"); ("MinQty", CStr "2")]) _).
    do 2 right. reflexivity.
  - refine (proj2 (bulk_rule_rows
      [[("ProductGroup", CStr "Flower"); ("MinQty", CStr "4"); ("Price", CStr "$40.00")]] []
      [("ProductGroup", CStr " Vape "); ("MinQty", CStr "2"); ("Price", CStr "forty")])
      " Vape " "2" "forty" 2
      [ {| ProductGroup := "Flower"; MinQty := 4; Price := Some (Fnear false 4000 (-2)) |} ]
      eq_refl _ eq_refl _ eq_refl _ _ _ _); vm_compute; reflexivity.
Defined.

(** C4 as it was stated fails.  A row with the three fields present whose
    price does not read as a decimal is not excluded: the script builds the
    payload and the rule is in [bulkRules], with a null [Price]. *)
Lemma unparsable_bulk_price_is_not_dropped :
  build_payload 5 (Scenario.with_rules [[CStr "Flower"; CStr "4"; CStr "forty"]]) =
    Some (Ok {| items := items Scenario.expected;
                bulkRules := [ {| ProductGroup := "Flower"; MinQty := 4;
                                  Price := None |} ] |}) /\
  Decimal (money_text "forty") = Raise InvalidOperation.
Proof. split; vm_compute; reflexivity. Qed.

(** The quantity is read with a bare [int]: a [MinQty] that is no integer,
    or a blank cell in a row whose other cells are filled, raises
    [ValueError] and the run ends without a payload. *)
Example bad_min_qty_ends_the_run :
  build_payload 5 (Scenario.with_rules [[CStr "Flower"; CStr "four"; CStr "$40.00"]]) =
    Some (Raise ValueError) /\
  build_payload 5 (Scenario.with_rules [[CStr "Flower"; CNaN; CStr "$40.00"]]) =
    Some (Raise ValueError).
Proof. split; vm_compute; reflexivity. Qed.

(** ** Stripping and removing characters *)


Lemma append_cons (c : ascii) (a b : string) : String c a ++ b = String c (a ++ b).
Proof. reflexivity. Qed.

Lemma append_nil (b : string) : "" ++ b = b.
Proof. reflexivity. Qed.

Lemma append_assoc (a b c : string) : (a ++ b) ++ c = a ++ (b ++ c).
Proof. induction a as [|d a IH]; [done|]. by rewrite !append_cons, IH. Qed.

Lemma append_empty_r (s : string) : s ++ "" = s.
Proof. induction s as [|c s IH]; [done|]. by rewrite append_cons, IH. Qed.

Lemma length_app (a b : string) :
  String.length (a ++ b) = (String.length a + String.length b)%nat.
Proof. induction a as [|c a IH]; [done|]. rewrite append_cons. simpl. by rewrite IH. Qed.

Lemma append_inj_l (a b c : string) : a ++ b = a ++ c -> b = c.
Proof. induction a as [|d a IH]; [done|]. rewrite !append_cons. intros [= H]. auto. Qed.

Lemma drop_prefix_app (p s : string) : drop_prefix p (p ++ s) = Some s.
Proof.
  induction p as [|a p IH]; [by destruct s|]. rewrite append_cons. simpl.
  by rewrite Ascii.eqb_refl.
Qed.

Lemma drop_prefix_Some (p s r : string) : drop_prefix p s = Some r -> s = p ++ r.
Proof.
  revert s. induction p as [|a p IH]; intros [|b s]; simpl; try done.
  - by intros [= <-].
  - by intros [= <-].
  - destruct (Ascii.eqb_spec a b) as [->|]; [|done]. intros H.
    by rewrite (IH _ H), append_cons.
Qed.

Lemma drop_prefix_length (p s r : string) :
  drop_prefix p s = Some r -> String.length s = (String.length p + String.length r)%nat.
Proof. intros ->%drop_prefix_Some. apply length_app. Qed.

Lemma after_space_Some (s r : string) :
  after_space s = Some r -> exists w, In w SPACES /\ s = w ++ r.
Proof.
  unfold after_space. induction SPACES as [|w l IH]; simpl; [done|].
  destruct (drop_prefix w s) as [r'|] eqn:Hw.
  - intros [= ->]. exists w. split; [by left|]. by apply drop_prefix_Some.
  - intros H. destruct (IH H) as (w' & Hin & ->). exists w'. split; [by right|done].
Qed.

Lemma after_space_is_Some (w s r : string) :
  In w SPACES -> s = w ++ r -> is_Some (after_space s).
Proof.
  unfold after_space. intros Hin ->. induction SPACES as [|w' l IH]; simpl; [done|].
  destruct (drop_prefix w' (w ++ r)) as [r'|] eqn:Hw; [done|].
  destruct Hin as [->|Hin]; [|by apply IH]. by rewrite drop_prefix_app in Hw.
Qed.

(** No white-space character is the beginning of another. *)
Lemma spaces_prefix_free (w w' r r' : string) :
  In w SPACES -> In w' SPACES -> w ++ r = w' ++ r' -> w = w' /\ r = r'.
Proof.
  intros Hw Hw' H.
  assert (forallb (fun a => forallb (fun b =>
            String.eqb a b ||
            match drop_prefix a b with Some _ => false | None => true end) SPACES) SPACES
          = true) as Hfree by (vm_compute; reflexivity).
  rewrite forallb_forall in Hfree. specialize (Hfree w Hw).
  rewrite forallb_forall in Hfree.
  assert (forall a b x y : string, a ++ x = b ++ y ->
            is_Some (drop_prefix a b) \/ is_Some (drop_prefix b a)) as Hcmp.
  { clear. induction a as [|c a IH]; intros [|d b] x y; simpl; eauto.
    rewrite !append_cons. intros [= -> H]. rewrite Ascii.eqb_refl. eauto. }
  destruct (Hcmp _ _ _ _ H) as [[x Hx]|[x Hx]].
  - specialize (Hfree w' Hw'). rewrite Hx in Hfree.
    rewrite orb_false_r in Hfree. apply String.eqb_eq in Hfree as ->.
    split; [done|]. by apply append_inj_l in H.
  - assert (forallb (fun a => forallb (fun b =>
            String.eqb a b ||
            match drop_prefix a b with Some _ => false | None => true end) SPACES) SPACES
          = true) as Hfree' by (vm_compute; reflexivity).
    rewrite forallb_forall in Hfree'. specialize (Hfree' w' Hw').
    rewrite forallb_forall in Hfree'. specialize (Hfree' w Hw). rewrite Hx in Hfree'.
    rewrite orb_false_r in Hfree'. apply String.eqb_eq in Hfree' as ->.
    split; [done|]. by apply append_inj_l in H.
Qed.

Lemma after_space_eq (w r : string) : In w SPACES -> after_space (w ++ r) = Some r.
Proof.
  intros Hin. destruct (after_space_is_Some w (w ++ r) r Hin eq_refl) as [r' Hr'].
  rewrite Hr'. apply after_space_Some in Hr' as (w' & Hin' & Heq).
  by destruct (spaces_prefix_free _ _ _ _ Hin Hin' Heq) as [_ ->].
Qed.

Lemma spaces_nonempty (w : string) : In w SPACES -> w <> "".
Proof.
  intros Hin ->.
  assert (forallb (fun a => negb (String.eqb a "")) SPACES = true) as H
    by (vm_compute; reflexivity).
  rewrite forallb_forall in H. by specialize (H _ Hin).
Qed.

Lemma after_space_length (s r : string) :
  after_space s = Some r -> (String.length r < String.length s)%nat.
Proof.
  intros (w & Hin & ->)%after_space_Some. rewrite length_app.
  apply spaces_nonempty in Hin. destruct w; [done|simpl; lia].
Qed.

Lemma lstrip_fuel_enough (n m : nat) (s : string) :
  (String.length s <= n)%nat -> (String.length s <= m)%nat ->
  lstrip_fuel n s = lstrip_fuel m s.
Proof.
  revert m s. induction n as [|n IH]; intros m s Hn Hm.
  - destruct s; [|simpl in Hn; lia]. destruct m; [done|]. simpl.
    destruct (after_space "") eqn:E; [|done]. apply after_space_length in E. simpl in E. lia.
  - destruct m as [|m].
    + destruct s; [|simpl in Hm; lia]. simpl.
      destruct (after_space "") eqn:E; [|done].
      apply after_space_length in E. simpl in E. lia.
    + simpl. destruct (after_space s) as [r|] eqn:E; [|done].
      apply after_space_length in E. apply IH; lia.
Qed.

Lemma lstrip_eq (s : string) :
  lstrip s = match after_space s with Some r => lstrip r | None => s end.
Proof.
  unfold lstrip. destruct s as [|c s].
  - simpl. destruct (after_space "") eqn:E; [|done].
    apply after_space_length in E. simpl in E. lia.
  - simpl. destruct (after_space (String c s)) as [r|] eqn:E; [|done].
    apply after_space_length in E. simpl in E. apply lstrip_fuel_enough; lia.
Qed.

(** Induction along [lstrip]. *)
Lemma lstrip_ind (P : string -> Prop) :
  (forall s, after_space s = None -> P s) ->
  (forall w r, In w SPACES -> P r -> P (w ++ r)) ->
  forall s, P s.
Proof.
  intros Hstop Hstep s.
  remember (String.length s) as n eqn:Hn. revert s Hn.
  induction n as [n IH] using lt_wf_ind. intros s ->.
  destruct (after_space s) as [r|] eqn:E; [|by apply Hstop].
  assert (Hl := after_space_length _ _ E).
  apply after_space_Some in E as (w & Hin & ->).
  apply Hstep; [done|]. by apply (IH (String.length r)).
Qed.

Lemma lstrip_space (w r : string) : In w SPACES -> lstrip (w ++ r) = lstrip r.
Proof. intros Hin. by rewrite lstrip_eq, after_space_eq. Qed.

Lemma lstrip_stop (s : string) : after_space s = None -> lstrip s = s.
Proof. intros H. by rewrite lstrip_eq, H. Qed.

Lemma after_space_lstrip (s : string) : after_space (lstrip s) = None.
Proof.
  induction s as [s H|w r Hin IH] using lstrip_ind.
  - by rewrite lstrip_stop.
  - by rewrite lstrip_space.
Qed.

Lemma lstrip_idemp (s : string) : lstrip (lstrip s) = lstrip s.
Proof. apply lstrip_stop, after_space_lstrip. Qed.

Lemma lstrip_fixed (s : string) : lstrip s = s <-> after_space s = None.
Proof.
  split; [|apply lstrip_stop]. intros H. rewrite <- H. apply after_space_lstrip.
Qed.

Lemma blank_spec (s : string) : blank s = true <-> lstrip s = "".
Proof. unfold blank. apply String.eqb_eq. Qed.

Lemma blank_app (x y : string) : blank x = true -> lstrip (x ++ y) = lstrip y.
Proof.
  rewrite blank_spec. induction x as [x H|w r Hin IH] using lstrip_ind.
  - rewrite lstrip_stop by done. by intros ->.
  - rewrite lstrip_space by done. intros Hr.
    by rewrite append_assoc, lstrip_space, IH.
Qed.

Lemma blank_app_blank (x y : string) :
  blank x = true -> blank y = true -> blank (x ++ y) = true.
Proof. intros Hx Hy. apply blank_spec. rewrite blank_app by done. by apply blank_spec. Qed.

Lemma rstrip_spec (s : string) : exists b, s = rstrip s ++ b /\ blank b = true.
Proof.
  induction s as [|c s (b & Hs & Hb)].
  - by exists "".
  - cbn [rstrip]. destruct (blank (String c s)) eqn:E.
    + by exists (String c s).
    + exists b. split; [|done]. by rewrite append_cons, <- Hs.
Qed.

Lemma rstrip_blank (s : string) : blank s = true -> rstrip s = "".
Proof. destruct s; [done|]. cbn [rstrip]. by intros ->. Qed.

Lemma rstrip_cons (c : ascii) (s : string) :
  blank (String c s) = false -> rstrip (String c s) = String c (rstrip s).
Proof. cbn [rstrip]. by intros ->. Qed.

Lemma rstrip_idemp (s : string) : rstrip (rstrip s) = rstrip s.
Proof.
  induction s as [|c s IH]; [done|].
  destruct (blank (String c s)) eqn:E.
  - by rewrite (rstrip_blank (String c s)).
  - rewrite rstrip_cons by done.
    destruct (rstrip_spec s) as (b & Hs & Hb).
    rewrite rstrip_cons, IH; [done|].
    destruct (blank (String c (rstrip s))) eqn:E'; [|done].
    assert (blank (String c (rstrip s) ++ b) = true) as H by by apply blank_app_blank.
    rewrite append_cons, <- Hs in H. congruence.
Qed.

(** ** What stripping keeps *)

Lemma rstrip_lstrip_fixed (t : string) : lstrip t = t -> lstrip (rstrip t) = rstrip t.
Proof.
  intros Ht. apply lstrip_fixed.
  destruct (after_space (rstrip t)) as [r|] eqn:E; [|done]. exfalso.
  apply after_space_Some in E as (w & Hin & Hw).
  destruct (rstrip_spec t) as (b & Hb & _).
  apply lstrip_fixed in Ht. rewrite Hb, Hw, append_assoc in Ht.
  by rewrite after_space_eq in Ht.
Qed.

Lemma strip_idemp (s : string) : strip (strip s) = strip s.
Proof.
  unfold strip. rewrite rstrip_lstrip_fixed by apply lstrip_idemp. apply rstrip_idemp.
Qed.

Lemma strip_fixed_l (s : string) : lstrip (strip s) = strip s.
Proof. unfold strip. apply rstrip_lstrip_fixed, lstrip_idemp. Qed.

Lemma strip_fixed_r (s : string) : rstrip (strip s) = strip s.
Proof. unfold strip. apply rstrip_idemp. Qed.

(** A stripped text neither begins nor ends with a white-space character. *)
Lemma rstrip_no_space_end (s a w : string) :
  In w SPACES -> rstrip s <> a ++ w.
Proof.
  intros Hin H.
  assert (rstrip (a ++ w) = a ++ w) as Hfix by (rewrite <- H; apply rstrip_idemp).
  clear H. induction a as [|c a IH].
  - rewrite append_nil in Hfix. rewrite rstrip_blank in Hfix.
    + symmetry in Hfix. by apply spaces_nonempty in Hin.
    + apply blank_spec. rewrite <- (append_empty_r w), lstrip_space by done.
      by rewrite lstrip_eq.
  - rewrite append_cons in Hfix. destruct (blank (String c (a ++ w))) eqn:E.
    + by rewrite rstrip_blank in Hfix.
    + rewrite rstrip_cons in Hfix by done. injection Hfix as Hfix. auto.
Qed.

Lemma strip_bare (s w rest : string) :
  In w SPACES -> strip s <> w ++ rest /\ strip s <> rest ++ w.
Proof.
  intros Hin. split.
  - intros H. assert (Hl := strip_fixed_l s). rewrite H in Hl.
    rewrite lstrip_space in Hl by done.
    assert (String.length (lstrip rest) <= String.length rest)%nat as Hlen.
    { clear. induction rest as [s H|w r Hin IH] using lstrip_ind.
      - by rewrite lstrip_stop.
      - rewrite lstrip_space, length_app by done. lia. }
    rewrite Hl, length_app in Hlen. apply spaces_nonempty in Hin.
    destruct w; [done|]. simpl in Hlen. lia.
  - unfold strip. by apply rstrip_no_space_end.
Qed.

(** ** Bytes of white space *)

Lemma has_byte_cons (c d : ascii) (s : string) :
  has_byte c (String d s) = Ascii.eqb c d || has_byte c s.
Proof. done. Qed.

Lemma has_byte_app (c : ascii) (a b : string) :
  has_byte c (a ++ b) = has_byte c a || has_byte c b.
Proof.
  induction a as [|d a IH]; [done|].
  by rewrite append_cons, !has_byte_cons, IH, orb_assoc.
Qed.


Lemma space_byte_spec (c : ascii) (w : string) :
  In w SPACES -> space_byte c = false -> has_byte c w = false.
Proof.
  unfold space_byte. intros Hin H.
  destruct (has_byte c w) eqn:E; [|done]. rewrite <- H. symmetry.
  apply existsb_exists. by exists w.
Qed.

Lemma lstrip_split (s : string) : exists a, s = a ++ lstrip s /\ blank a = true.
Proof.
  induction s as [s H|w r Hin (a & Hr & Ha)] using lstrip_ind.
  - exists "". by rewrite lstrip_stop.
  - exists (w ++ a). rewrite lstrip_space, append_assoc, <- Hr by done. split; [done|].
    apply blank_spec. rewrite <- (append_empty_r (w ++ a)), append_assoc.
    rewrite lstrip_space by done. rewrite append_empty_r. by apply blank_spec.
Qed.

Lemma blank_bytes (c : ascii) (s : string) :
  blank s = true -> space_byte c = false -> has_byte c s = false.
Proof.
  rewrite blank_spec. intros Hs Hc.
  induction s as [s H|w r Hin IH] using lstrip_ind.
  - rewrite lstrip_stop in Hs by done. by subst.
  - rewrite lstrip_space in Hs by done.
    by rewrite has_byte_app, (space_byte_spec c w), IH.
Qed.




(** ** Text next to white space *)

Lemma prefix_cases (a b x y : string) :
  a ++ x = b ++ y ->
  (exists q, b = a ++ q /\ x = q ++ y) \/ (exists q, q <> "" /\ a = b ++ q /\ y = q ++ x).
Proof.
  revert b. induction a as [|c a IH]; intros b H.
  - left. exists b. by rewrite append_nil in *.
  - destruct b as [|d b].
    + right. exists (String c a). by rewrite append_nil in *.
    + rewrite !append_cons in H. injection H as -> H.
      destruct (IH _ H) as [(q & -> & ->)|(q & Hq & -> & ->)].
      * left. by exists q.
      * right. by exists q.
Qed.

(** The first byte of a white-space character is no later byte of one. *)
Lemma spaces_no_overlap (w w' p q r : string) :
  In w SPACES -> In w' SPACES -> w = p ++ q -> p <> "" -> q <> "" ->
  forall t, q ++ t <> w' ++ r.
Proof.
  intros Hw Hw' -> Hp Hq t H.
  assert (forallb (fun a => forallb (fun b =>
            match list_ascii_of_string a, list_ascii_of_string b with
            | _ :: tl, hd :: _ => negb (existsb (Ascii.eqb hd) tl)
            | _, _ => true
            end) SPACES) SPACES = true) as Hcheck by (vm_compute; reflexivity).
  rewrite forallb_forall in Hcheck. specialize (Hcheck _ Hw).
  rewrite forallb_forall in Hcheck. specialize (Hcheck _ Hw').
  apply spaces_nonempty in Hw'.
  destruct p as [|c p]; [done|]. destruct q as [|d q]; [done|].
  destruct w' as [|e w']; [done|].
  rewrite !append_cons in H. injection H as -> _.
  rewrite append_cons in Hcheck. cbn [list_ascii_of_string] in Hcheck.
  apply negb_true_iff in Hcheck.
  assert (existsb (Ascii.eqb e) (list_ascii_of_string (p ++ String e q)) = true) as Hin;
    [|congruence].
  change (has_byte e (p ++ String e q) = true).
  by rewrite has_byte_app, has_byte_cons, Ascii.eqb_refl, orb_true_r.
Qed.

(** A white-space character found in front of [x ++ y] lies within [x]
    when [y] is white space. *)
Lemma after_space_app_blank (x y r : string) :
  x <> "" -> blank y = true ->
  after_space (x ++ y) = Some r ->
  exists r', after_space x = Some r' /\ r = r' ++ y.
Proof.
  intros Hx Hy (w & Hin & H)%after_space_Some.
  destruct (prefix_cases _ _ _ _ H) as [(q & Hw & Hyq)|(q & Hq & -> & ->)].
  - destruct q as [|c q].
    + rewrite append_empty_r in Hw. rewrite append_nil in Hyq. subst w y.
      exists "". rewrite <- (append_empty_r x) at 1. by rewrite after_space_eq.
    + exfalso.
      assert (after_space y <> None) as Hsome.
      { intros Hnone. apply blank_spec in Hy. rewrite lstrip_stop in Hy by done.
        by subst y. }
      destruct (after_space y) as [r0|] eqn:E; [|done].
      apply after_space_Some in E as (w' & Hin' & Hw').
      apply (spaces_no_overlap w w' x (String c q) r0 Hin Hin' Hw Hx ltac:(done) r).
      by rewrite <- Hyq.
  - exists q. by rewrite after_space_eq.
Qed.

Lemma blank_app_inv (x y : string) :
  blank y = true -> blank (x ++ y) = true -> blank x = true.
Proof.
  intros Hy. remember (String.length x) as n eqn:Hn. revert x Hn.
  induction n as [n IH] using lt_wf_ind. intros x -> Hxy.
  destruct x as [|c x]; [done|]. apply blank_spec in Hxy. apply blank_spec.
  rewrite lstrip_eq in Hxy.
  destruct (after_space (String c x ++ y)) as [r|] eqn:E.
  - apply after_space_app_blank in E as (r' & Hr' & ->); [|done|done].
    rewrite lstrip_eq, Hr'. apply blank_spec.
    apply (IH (String.length r')); [by apply after_space_length in Hr'|done|].
    by apply blank_spec.
  - by rewrite append_cons in Hxy.
Qed.

Lemma blank_app_iff (x y : string) :
  blank y = true -> blank (x ++ y) = blank x.
Proof.
  intros Hy. destruct (blank x) eqn:Hx.
  - by apply blank_app_blank.
  - destruct (blank (x ++ y)) eqn:E; [|done].
    apply blank_app_inv in E; [congruence|done].
Qed.

(** White space at the end goes. *)
Lemma rstrip_app_blank (s b : string) : blank b = true -> rstrip (s ++ b) = rstrip s.
Proof.
  intros Hb. induction s as [|c s IH].
  - rewrite append_nil. by apply rstrip_blank.
  - assert (blank (String c s ++ b) = blank (String c s)) as E by by apply blank_app_iff.
    destruct (blank (String c s)) eqn:E'.
    + by rewrite !rstrip_blank.
    + rewrite (rstrip_cons c s E'). rewrite append_cons in *. by rewrite rstrip_cons, IH.
Qed.

(** Text that does not start with white space stays in front. *)
Lemma lstrip_app_blank (x b : string) :
  x <> "" -> blank b = true -> lstrip x = x -> lstrip (x ++ b) = x ++ b.
Proof.
  intros Hx Hb Hfix. apply lstrip_fixed in Hfix. apply lstrip_stop.
  destruct (after_space (x ++ b)) as [r|] eqn:E; [|done].
  apply after_space_app_blank in E as (r' & Hr' & _); [congruence|done|done].
Qed.

(** White space around a text goes. *)
Lemma strip_app_blank (a x b : string) :
  blank a = true -> blank b = true -> strip (a ++ x ++ b) = strip x.
Proof.
  intros Ha Hb. unfold strip. rewrite blank_app by done.
  destruct (lstrip_split x) as (a' & Hx & Ha').
  rewrite Hx at 1. rewrite append_assoc, blank_app by done.
  destruct (String.eqb_spec (lstrip x) "") as [E|E].
  - rewrite E, append_nil. apply blank_spec in Hb. by rewrite Hb.
  - rewrite lstrip_app_blank; [|done|done|apply lstrip_idemp].
    by apply rstrip_app_blank.
Qed.

(** A byte that is in no white-space character stops the stripping. *)
Lemma lstrip_app_byte (k rest : string) (c : ascii) :
  lstrip k = k -> space_byte c = false ->
  lstrip (k ++ String c rest) = k ++ String c rest.
Proof.
  intros Hk Hc. apply lstrip_fixed in Hk. apply lstrip_stop.
  destruct (after_space (k ++ String c rest)) as [r|] eqn:E; [|done]. exfalso.
  apply after_space_Some in E as (w & Hin & H).
  destruct (prefix_cases _ _ _ _ H) as [(q & Hw & Hq)|(q & _ & -> & _)].
  - destruct q as [|d q].
    { rewrite append_empty_r in Hw. subst w.
      rewrite <- (append_empty_r k) in Hk. by rewrite after_space_eq in Hk. }
    rewrite append_cons in Hq. injection Hq as <- _.
    assert (has_byte c w = true) as Hb.
    { by rewrite Hw, has_byte_app, has_byte_cons, Ascii.eqb_refl, orb_true_r. }
    by rewrite (space_byte_spec c w) in Hb.
  - by rewrite after_space_eq in Hk.
Qed.

Lemma not_blank_byte (c : ascii) (s : string) :
  space_byte c = false -> has_byte c s = true -> blank s = false.
Proof.
  intros Hc Hs. destruct (blank s) eqn:E; [|done]. by rewrite (blank_bytes c s) in Hs.
Qed.

Lemma rstrip_app_byte (a : string) (c : ascii) (s : string) :
  space_byte c = false -> rstrip (a ++ String c s) = a ++ String c (rstrip s).
Proof.
  intros Hc.
  assert (forall x, blank (x ++ String c s) = false) as Hnb.
  { intros x. apply (not_blank_byte c); [done|].
    by rewrite has_byte_app, has_byte_cons, Ascii.eqb_refl, orb_true_r. }
  induction a as [|d a IH].
  - rewrite !append_nil. apply rstrip_cons. apply (Hnb "").
  - rewrite !append_cons, rstrip_cons, IH; [done|]. apply (Hnb (String d a)).
Qed.

(** ** Removing a character *)

Lemma remove_app (c : ascii) (a b : string) :
  remove c (a ++ b) = remove c a ++ remove c b.
Proof.
  induction a as [|d a IH]; [done|]. rewrite append_cons. simpl.
  destruct (Ascii.eqb c d); [done|]. by rewrite append_cons, IH.
Qed.

Lemma remove_absent (c : ascii) (s : string) : has_byte c s = false -> remove c s = s.
Proof.
  induction s as [|d s IH]; [done|]. rewrite has_byte_cons. simpl.
  destruct (Ascii.eqb c d); [done|]. simpl. intros H. by rewrite IH.
Qed.

Lemma strip_split (s : string) :
  exists a b, s = a ++ strip s ++ b /\ blank a = true /\ blank b = true.
Proof.
  destruct (lstrip_split s) as (a & Hs & Ha).
  destruct (rstrip_spec (lstrip s)) as (b & Hl & Hb).
  exists a, b. split; [|done]. unfold strip. by rewrite <- Hl.
Qed.

(** Removing a character that is no white space and stripping: the text
    may be stripped first or not. *)
Lemma strip_remove_strip (c : ascii) (s : string) :
  space_byte c = false -> strip (remove c (strip s)) = strip (remove c s).
Proof.
  intros Hc. destruct (strip_split s) as (a & b & Hs & Ha & Hb).
  rewrite Hs at 2. rewrite !remove_app.
  rewrite (remove_absent c a), (remove_absent c b) by by apply blank_bytes.
  by rewrite strip_app_blank.
Qed.

(** ** The products table *)

Lemma product_step_inv (m m' : gmap string product) (row : series) :
  product_step m row = Ok m' ->
  exists p, product_of_row row = Ok p /\ m' = <[product_name row := p]> m.
Proof.
  unfold product_step. destruct (product_of_row row) as [p|]; [|done].
  intros [= <-]. eauto.
Qed.

(** What the map holds under a name after the loop over [l]: the product
    of the last row of that name, or what it held before. *)
Lemma product_loop_lookup (l : list series) (m0 m : gmap string product) (k : string) :
  for_each product_step m0 l = Ok m ->
  (exists row p, row ∈ l /\ product_name row = k /\ product_of_row row = Ok p /\
                 m !! k = Some p) \/
  ((forall row, row ∈ l -> product_name row <> k) /\ m !! k = m0 !! k).
Proof.
  revert m. induction l as [|x l IH] using rev_ind; intros m H.
  - injection H as <-. right. split; [|done]. intros row H. by apply elem_of_nil in H.
  - rewrite for_each_snoc in H. apply bind_Ok in H as (m1 & Hl & Hx).
    apply product_step_inv in Hx as (p & Hp & ->).
    destruct (decide (product_name x = k)) as [<-|Hne].
    + left. exists x, p. rewrite lookup_insert_eq. split_and!; [|done..].
      apply elem_of_app. right. by left.
    + rewrite lookup_insert_ne by done.
      destruct (IH _ Hl) as [(row & q & Hin & Hname & Hq & Hget)|[Hnone Hget]].
      * left. exists row, q. split_and!; [|done..]. apply elem_of_app. by left.
      * right. split; [|done]. intros row [Hin|Hin]%elem_of_app; [by apply Hnone|].
        apply list_elem_of_singleton in Hin as ->. done.
Qed.

Lemma product_loop_last (l1 l2 : list series) (row : series) (m0 m : gmap string product) :
  for_each product_step m0 (l1 ++ row :: l2) = Ok m ->
  (forall row', row' ∈ l2 -> product_name row' <> product_name row) ->
  exists p, product_of_row row = Ok p /\ m !! product_name row = Some p.
Proof.
  intros H Hlast. rewrite for_each_app in H. apply bind_Ok in H as (m1 & _ & H).
  simpl in H. destruct (product_step m1 row) as [m2|] eqn:Hstep; [|done].
  apply product_step_inv in Hstep as (p & Hp & ->). exists p. split; [done|].
  destruct (product_loop_lookup l2 _ m (product_name row) H)
    as [(row' & q & Hin & Hname & _)|[_ ->]].
  - by destruct (Hlast row' Hin).
  - by rewrite lookup_insert_eq.
Qed.

(** ** C8: the price of a product row *)

(** The decimal a price text is read as. *)
Lemma Decimal_money_text (s : string) :
  Decimal (money_text s) = Decimal (remove "," (remove "$" s)).
Proof.
  unfold Decimal, money_text.
  rewrite <- (strip_remove_strip "," (remove "$" (strip s))) by done.
  rewrite (strip_remove_strip "$" s) by done.
  by rewrite (strip_remove_strip "," (remove "$" s)) by done.
Qed.

Lemma to_money_text (s : string) :
  _to_money (Some (CStr s)) =
  match Decimal (remove "," (remove "$" s)) with
  | Ok d => Ok (float_of_decimal d)
  | Raise NotModelled => Raise NotModelled
  | Raise _ => Ok None
  end.
Proof. unfold _to_money. simpl. by rewrite Decimal_money_text. Qed.

Lemma Decimal_app_blank (a s b : string) :
  blank a = true -> blank b = true -> Decimal (a ++ s ++ b) = Decimal s.
Proof. intros Ha Hb. unfold Decimal. by rewrite strip_app_blank. Qed.

(** C8.  How the script reads a price, and where it parts from the claim.
    The price of a text is the float of the decimal the text stands for
    once every dollar sign and every comma is taken out and the white space
    around it is dropped; white space around the text, of any kind, and
    dollar signs and commas anywhere in it change nothing; a text that is
    then no decimal gives null.  [$45.00] is the decimal 4500E-2, the
    number 45.  A row whose [Product] cell is filled stays in the table
    whatever its price.  But a [Price] cell that is blank, or holds a
    marker such as [n/a], is read by pandas as NaN, whose text [nan] is a
    decimal: the price of that row, and of the items of that name, is the
    float NaN, not null, and it is written to [menu.json]. *)
Theorem price_text_normalised (dumps : payload -> string) (sha256 : string -> string) :
  (forall s,
     (forall d, Decimal (remove "," (remove "$" s)) = Ok d ->
                _to_money (Some (CStr s)) = Ok (float_of_decimal d)) /\
     (Decimal (remove "," (remove "$" s)) = Raise InvalidOperation ->
      _to_money (Some (CStr s)) = Ok None)) /\
  (forall a s b, blank a = true -> blank b = true ->
     _to_money (Some (CStr (a ++ s ++ b))) = _to_money (Some (CStr s))) /\
  (forall a b,
     _to_money (Some (CStr (a ++ "$" ++ b))) = _to_money (Some (CStr (a ++ b))) /\
     _to_money (Some (CStr (a ++ "," ++ b))) = _to_money (Some (CStr (a ++ b)))) /\
  (_to_money (Some (CStr "$45.00")) = Ok (Some (Fnear false 4500 (-2))) /\
   read_from (Fnear false 4500 (-2)) 45 1 /\
   _to_money (Some (CStr " $1,234.50 ")) = Ok (Some (Fnear false 123450 (-2))) /\
   _to_money (Some (CStr (bytes [194; 160] ++ "$45.00" ++ bytes [226; 128; 175])))
     = Ok (Some (Fnear false 4500 (-2))) /\
   _to_money (Some (CStr "forty")) = Ok None /\
   _to_money (Some (CStr "45 USD")) = Ok None /\
   _to_money (Some (CStr "4 5")) = Ok None /\
   _to_money (Some (CStr "")) = Ok None) /\
  (forall sh m row,
     product_table sh = Ok m -> row ∈ iterrows sh -> has_product row = true ->
     exists row' p,
       row' ∈ iterrows sh /\ has_product row' = true /\
       product_name row' = product_name row /\
       product_of_row row' = Ok p /\ m !! product_name row = Some p) /\
  (_to_money (Some CNaN) = Ok (Some Fnan) /\
   build_payload 5 Scenario.unpriced = Some (Ok Scenario.unpriced_expected) /\
   Scenario.item 20 "1A4-020" "Sour Diesel 1g" (Some "Preroll") (Some Fnan) []
     ∈ items Scenario.unpriced_expected /\
   run dumps sha256 5 Scenario.unpriced None Scenario.git_ok =
     Some {| exit_code := 0;
             actions := [GitPull; WriteFile (dumps Scenario.unpriced_expected);
                         GitAdd; GitCommit; GitPush];
             menu_json := Some (dumps Scenario.unpriced_expected);
             serialized := Some (dumps Scenario.unpriced_expected) |}).
Proof.
  split.
  { intros s. rewrite to_money_text. split; [by intros d ->|by intros ->]. }
  split.
  { intros a s b Ha Hb. rewrite !to_money_text, !remove_app.
    rewrite !(remove_absent "$" a), !(remove_absent "$" b) by by apply blank_bytes.
    rewrite !(remove_absent "," a), !(remove_absent "," b) by by apply blank_bytes.
    by rewrite Decimal_app_blank. }
  split.
  { intros a b. rewrite !to_money_text. split.
    - rewrite !(remove_app "$"). change ("$" ++ b) with (String "$" b).
      cbn [remove Ascii.eqb Bool.eqb andb]. reflexivity.
    - rewrite !(remove_app "$"). change ("," ++ b) with (String "," b).
      cbn [remove Ascii.eqb Bool.eqb andb]. rewrite !(remove_app ",").
      cbn [remove Ascii.eqb Bool.eqb andb]. reflexivity. }
  split.
  { repeat split; vm_compute; reflexivity. }
  split.
  { intros sh m row Htable Hrow Hkeep. unfold product_table in Htable.
    destruct (existsb _ _); [|done].
    destruct (product_loop_lookup _ _ _ (product_name row) Htable)
      as [(row' & p & Hin & Hname & Hp & Hget)|[Hnone _]].
    - apply list_elem_of_filter in Hin as [Hkeep' Hin]. exists row', p. done.
    - exfalso. apply (Hnone row); [|done]. by apply list_elem_of_filter. }
  assert (build_payload 5 Scenario.unpriced = Some (Ok Scenario.unpriced_expected))
    as Hp by (vm_compute; reflexivity).
  split; [vm_compute; reflexivity|]. split; [done|]. split; [right; left|].
  unfold run. rewrite Hp. reflexivity.
Qed.

Lemma price_text_normalised_witness :
  _to_money (Some (CStr (bytes [194; 160] ++ "$45.00" ++ bytes [226; 128; 175])))
    = _to_money (Some (CStr "$45.00")) /\
  exists row' p,
    row' ∈ iterrows (first_sheet Scenario.unpriced_book) /\ has_product row' = true /\
    product_name row' = "Sour Diesel 1g" /\
    product_of_row row' = Ok p /\
    metadata Scenario.unpriced !! "Sour Diesel 1g" = Some p.
Proof.
  destruct (price_text_normalised Scenario.dumps Scenario.digest)
    as (_ & Hblank & _ & _ & Hrow & _).
  split.
  - apply Hblank; vm_compute; reflexivity.
  - apply (Hrow (first_sheet Scenario.unpriced_book) (metadata Scenario.unpriced)
             [("Product", CStr "Sour Diesel 1g"); ("Price", CNaN);
              ("Type", CStr "Preroll")]).
    + vm_compute. reflexivity.
    + right. left.
    + vm_compute. reflexivity.
Defined.

(* ===================================================================== *)
(** * Further properties of the scripts                                    *)
(* ===================================================================== *)

(** ** The key file *)

Lemma contains_cons (sub : string) (c : ascii) (s : string) :
  contains sub s = true -> contains sub (String c s) = true.
Proof. intros H. simpl. rewrite H. apply orb_true_r. Qed.






Lemma strip_assignment (k v : string) :
  lstrip k = k -> rstrip v = v ->
  strip (Env.assignment k v) = k ++ "=" ++ v.
Proof.
  intros Hk Hv. unfold strip, Env.assignment.
  change (k ++ "=" ++ v ++ String "010" "") with (k ++ String "=" (v ++ String "010" "")).
  change (k ++ "=" ++ v) with (k ++ String "=" v).
  rewrite (lstrip_app_byte k _ "=" Hk eq_refl).
  rewrite rstrip_app_byte by done. by rewrite rstrip_app_blank, Hv.
Qed.

Lemma split_once_app (c : ascii) (k v : string) :
  contains (String c EmptyString) k = false ->
  Env.split_once c (k ++ String c v) = Some (k, v).
Proof.
  induction k as [|d k IH]; simpl.
  - by rewrite Ascii.eqb_refl.
  - destruct (Ascii.eqb_spec c d) as [->|Hne]; simpl; [done|].
    intros Hk. by rewrite IH.
Qed.

Lemma contains_app_r (sub a b : string) :
  contains sub b = true -> contains sub (a ++ b) = true.
Proof.
  intros Hb. induction a as [|d a IH]; [done|]. by apply contains_cons.
Qed.

Lemma startswith_app (k rest : string) :
  startswith "#" k = false -> k <> "" -> startswith "#" (k ++ rest) = false.
Proof. intros Hk Hne. by destruct k. Qed.

Lemma free_of_cons (c d : ascii) (s : string) :
  Env.free_of c (String d s) <-> c <> d /\ Env.free_of c s.
Proof.
  unfold Env.free_of. simpl.
  destruct (Ascii.eqb_spec c d) as [->|Hne]; simpl; split; try tauto; try done.
Qed.

Lemma universal_newlines_app (a rest : string) (c : ascii) :
  Env.free_of "013" a -> c <> "013"%char ->
  Env.universal_newlines (a ++ String c rest) =
  a ++ String c (Env.universal_newlines rest).
Proof.
  intros Ha Hc. induction a as [|d a IH].
  - simpl. by destruct (Ascii.eqb_spec c "013").
  - apply free_of_cons in Ha as [Hd Ha].
    change (String d a ++ String c rest) with (String d (a ++ String c rest)).
    cbn [Env.universal_newlines].
    destruct (Ascii.eqb_spec d "013") as [->|_]; [done|].
    by rewrite IH.
Qed.

Lemma file_lines_app (a rest : string) :
  Env.free_of "010" a ->
  Env.file_lines (a ++ String "010" rest) =
  (a ++ String "010" EmptyString) :: Env.file_lines rest.
Proof.
  intros Ha. induction a as [|d a IH].
  - done.
  - apply free_of_cons in Ha as [Hd Ha].
    change (String d a ++ String "010" rest) with (String d (a ++ String "010" rest)).
    cbn [Env.file_lines].
    destruct (Ascii.eqb_spec d "010") as [->|_]; [done|].
    by rewrite IH.
Qed.

Lemma free_of_app (c : ascii) (a b : string) :
  Env.free_of c a -> Env.free_of c b -> Env.free_of c (a ++ b).
Proof.
  intros Ha Hb. induction a as [|d a IH]; [done|].
  apply free_of_cons in Ha as [Hd Ha].
  change (String d a ++ b) with (String d (a ++ b)).
  apply free_of_cons. auto.
Qed.

(** The line of a well-formed assignment is read as that assignment. *)
Lemma env_step_assignment (env : gmap string string) (k v : string) :
  Env.key_ok k -> rstrip v = v ->
  Env.env_step env (Env.assignment k v) = Ok (<[k := v]> env).
Proof.
  intros (Hk & Heq & Hhash & _ & _) Hv. unfold Env.env_step.
  assert (contains "=" (Env.assignment k v) = true) as ->.
  { unfold Env.assignment. apply contains_app_r. done. }
  assert (startswith "#" (Env.assignment k v) = false) as ->.
  { unfold Env.assignment. by destruct k. }
  cbn [andb negb]. rewrite strip_assignment by done.
  change (k ++ "=" ++ v) with (k ++ String "=" v).
  by rewrite split_once_app.
Qed.

Lemma assignment_app (k v rest : string) :
  Env.assignment k v ++ rest = (k ++ String "=" v) ++ String "010" rest.
Proof. unfold Env.assignment. rewrite !append_assoc. by simpl. Qed.

Lemma lines_of_render (kvs : list (string * string)) :
  Forall (fun kv => Env.key_ok kv.1 /\ Env.value_ok kv.2) kvs ->
  Env.file_lines (Env.universal_newlines (Env.render kvs)) =
  map (fun kv => Env.assignment kv.1 kv.2) kvs.
Proof.
  induction 1 as [|[k v] kvs [Hk Hv] _ IH]; [done|].
  simpl in Hk, Hv. destruct Hk as (_ & _ & _ & Hkn & Hkr). destruct Hv as (_ & Hvn & Hvr).
  cbn [Env.render map fst snd]. rewrite assignment_app.
  assert (Env.free_of "013" (k ++ String "=" v)) as Hr.
  { apply free_of_app; [done|]. apply free_of_cons. done. }
  assert (Env.free_of "010" (k ++ String "=" v)) as Hn.
  { apply free_of_app; [done|]. apply free_of_cons. done. }
  rewrite universal_newlines_app by done.
  rewrite file_lines_app by done. rewrite IH.
  f_equal. rewrite <- (assignment_app k v ""). unfold Env.assignment.
  rewrite !append_assoc. by simpl.
Qed.

Lemma parse_lines_assignments (env : gmap string string) (kvs : list (string * string)) :
  Forall (fun kv => Env.key_ok kv.1 /\ Env.value_ok kv.2) kvs ->
  for_each Env.env_step env (map (fun kv => Env.assignment kv.1 kv.2) kvs) =
  Ok (foldl (fun e kv => <[kv.1 := kv.2]> e) env kvs).
Proof.
  intros H. revert env. induction H as [|[k v] kvs [Hk Hv] _ IH]; intros env; [done|].
  cbn [map for_each fst snd foldl].
  rewrite env_step_assignment; [|done|apply Hv]. apply IH.
Qed.

Lemma foldl_insert_list_to_map (kvs : list (string * string)) (env : gmap string string) :
  foldl (fun e kv => <[kv.1 := kv.2]> e) env kvs = list_to_map (reverse kvs) ∪ env.
Proof.
  revert env. induction kvs as [|[k v] kvs IH]; intros env; simpl.
  - by rewrite (left_id_L ∅ (∪)).
  - rewrite IH, reverse_cons, list_to_map_app. simpl.
    rewrite insert_empty, <- (assoc_L (∪)). f_equal.
    by rewrite <- insert_union_singleton_l.
Qed.

Lemma parse_render (kvs : list (string * string)) :
  Forall (fun kv => Env.key_ok kv.1 /\ Env.value_ok kv.2) kvs ->
  Env.parse_env (Env.render kvs) = Ok (list_to_map (reverse kvs)).
Proof.
  intros Hok. unfold Env.parse_env. rewrite lines_of_render by done.
  rewrite parse_lines_assignments by done.
  by rewrite foldl_insert_list_to_map, (right_id_L ∅ (∪)).
Qed.

(** X1.  A key file written as one [KEY=VALUE] line per pair -- keys with
    no blank or number sign in front and no equals sign, values with no
    blank at the end, neither with a line break -- is read back as the map
    of these pairs, a later line for a key replacing an earlier one; when
    the keys are distinct, every pair written is found. *)
Theorem key_file_round_trip (kvs : list (string * string)) :
  Forall (fun kv => Env.key_ok kv.1 /\ Env.value_ok kv.2) kvs ->
  Env.parse_env (Env.render kvs) = Ok (list_to_map (reverse kvs)) /\
  (NoDup kvs.*1 ->
   forall k v, (k, v) ∈ kvs ->
     exists env, Env.parse_env (Env.render kvs) = Ok env /\ env !! k = Some v).
Proof.
  intros Hok. assert (Hparse := parse_render kvs Hok).
  split; [done|].
  intros Hnd k v Hin. eexists. split; [done|].
  apply elem_of_list_to_map.
  - by rewrite fmap_reverse, reverse_Permutation.
  - by apply elem_of_reverse.
Qed.

Lemma key_file_round_trip_witness :
  Env.parse_env (Env.render [("METRC_VENDOR_KEY", "v-1 x"); ("METRC_USER_KEY", "u=2")]) =
  Ok (list_to_map (reverse [("METRC_VENDOR_KEY", "v-1 x"); ("METRC_USER_KEY", "u=2")])).
Proof.
  refine (proj1 (key_file_round_trip
    [("METRC_VENDOR_KEY", "v-1 x"); ("METRC_USER_KEY", "u=2")] _)).
  repeat (apply List.Forall_cons; [repeat split; reflexivity|]). apply List.Forall_nil.
Defined.





(** White space after a value and in front of a key, of whatever kind, is
    not part of them; a value written with a no-break space at its end is
    not read back as written. *)
Example key_file_blanks :
  Env.load (Some ("METRC_VENDOR_KEY=vk" ++ bytes [194; 160; 10] ++
                  bytes [226; 128; 131] ++ "METRC_USER_KEY=uk " ++ bytes [13; 10] ++
                  "METRC_LICENSE=lic" ++ bytes [194; 160])) =
    Ok {| Env.VENDOR_KEY := "vk"; Env.USER_KEY := "uk"; Env.LICENSE_NUMBER := "lic" |} /\
  ~ Env.value_ok ("lic" ++ bytes [194; 160]).
Proof.
  split; [vm_compute; reflexivity|]. intros [H _]. vm_compute in H. discriminate.
Qed.

(** ** Hashing by chunks *)

Lemma take_drop_bytes (n : nat) (s : string) :
  Hashing.take_bytes n s ++ Hashing.drop_bytes n s = s.
Proof.
  revert s. induction n as [|n IH]; intros [|c s]; try done.
  change (String c (Hashing.take_bytes n s ++ Hashing.drop_bytes n s) = String c s).
  by rewrite IH.
Qed.

Lemma take_bytes_empty (n : nat) (s : string) :
  (0 < n)%nat -> Hashing.take_bytes n s = "" -> s = "".
Proof. destruct n; [lia|]. by destruct s. Qed.

Lemma drop_bytes_length (n : nat) (s : string) :
  (0 < n)%nat -> s <> "" ->
  (String.length (Hashing.drop_bytes n s) < String.length s)%nat.
Proof.
  intros Hn Hs. destruct n as [|n]; [lia|]. destruct s as [|c s]; [done|].
  simpl. clear. revert s. induction n as [|n IH]; intros s; simpl; [lia|].
  destruct s as [|d s]; simpl; [lia|]. specialize (IH s). lia.
Qed.

Lemma take_bytes_length (n : nat) (s : string) :
  (String.length (Hashing.take_bytes n s) <= n)%nat.
Proof.
  revert s. induction n as [|n IH]; intros [|c s]; simpl; try lia.
  specialize (IH s). lia.
Qed.

Section HashObjectFacts.
Variable state : Type.
Variable new : state.
Variable update : state -> string -> state.
Variable hexdigest : state -> string.

(** What the library says of a hash object: feeding it two pieces one
    after the other is feeding it their concatenation, and feeding it
    nothing changes nothing. *)
Hypothesis update_app : forall h a b, update (update h a) b = update h (a ++ b).
Hypothesis update_empty : forall h, update h "" = h.

Lemma read_loop_all (fuel size : nat) (h : state) (rest : string) :
  (0 < size)%nat -> (String.length rest < fuel)%nat ->
  Hashing.read_loop state update fuel size h rest = Some (update h rest).
Proof.
  intros Hsize. revert h rest. induction fuel as [|fuel IH]; intros h rest Hfuel; [lia|].
  simpl. destruct (String.eqb_spec (Hashing.take_bytes size rest) "") as [E|E].
  - apply take_bytes_empty in E as ->; [|done]. by rewrite update_empty.
  - assert (rest <> "") as Hrest by (intros ->; by destruct size).
    rewrite IH.
    + by rewrite update_app, take_drop_bytes.
    + pose proof (drop_bytes_length size rest Hsize Hrest). lia.
Qed.

(** X4.  Given a hash object that takes its input piece by piece,
    [file_hash] returns for a file that exists the digest the library gives
    for the whole content in one call -- whatever the length of the file,
    a multiple of the chunk size or not, empty or not -- and the script's
    [None] for a file that does not exist.  It is the function of the file
    that change detection compares with the digest of the new text. *)
Theorem file_hash_is_one_shot (file : option string) :
  Hashing.file_hash state new update hexdigest file =
  Some (Menu.file_hash (Hashing.one_shot state new update hexdigest) file).
Proof.
  destruct file as [content|]; [|done]. unfold Hashing.file_hash.
  rewrite read_loop_all; [done| |lia].
  unfold Hashing.CHUNK. lia.
Qed.

End HashObjectFacts.

Lemma file_hash_is_one_shot_witness :
  Hashing.file_hash string "" String.append id (Some "menu") =
  Some (Menu.file_hash (Hashing.one_shot string "" String.append id) (Some "menu")).
Proof.
  apply (file_hash_is_one_shot string "" String.append id).
  - intros h a b. apply append_assoc.
  - apply append_empty_r.
Defined.

(** ** More on pagination *)

(** Pages that are gone through and report more pages are passed one by
    one, each costing one unit of fuel. *)
Lemma fetch_loop_prefix (excel_map : gmap string product) (inventory : Z -> reply)
    (t : Z -> option Z) (d rest : nat) (page : Z) (pm : list (Z * Pkg.t)) (log : list Z) :
  (forall n, page <= n < page + Z.of_nat d ->
     page_reports excel_map (inventory n) (t n) /\ n < default 1 (t n)) ->
  exists pm',
    for_each (package_step excel_map) pm
      (packages_seen inventory (seqZ page (Z.of_nat d))) = Ok pm' /\
    fetch_loop (d + rest) excel_map inventory page pm log =
    fetch_loop rest excel_map inventory (page + Z.of_nat d) pm'
      (log ++ seqZ page (Z.of_nat d)).
Proof.
  revert page pm log. induction d as [|d IH]; intros page pm log Hpages.
  - exists pm. simpl. rewrite Z.add_0_r, app_nil_r. done.
  - destruct (Hpages page ltac:(lia)) as [Hpage Hmore].
    destruct (fetch_page_reports _ _ page pm (t page) Hpage) as [pm1 Hp].
    destruct (IH (page + 1) pm1 (log ++ [page])%list) as (pm' & Hloop & Hrec).
    { intros n Hn. apply Hpages. lia. }
    exists pm'. split.
    + rewrite (seqZ_cons page) by lia. rewrite packages_seen_cons, for_each_app.
      apply fetch_page_inv in Hp as (? & ? & _ & _ & -> & _). simpl.
      replace (Z.pred (Z.of_nat (S d))) with (Z.of_nat d) by lia.
      by replace (Z.succ page) with (page + 1) by lia.
    + cbn [Nat.add fetch_loop]. rewrite Hp.
      destruct (Z.leb_spec (default 1 (t page)) page) as [?|_]; [lia|].
      rewrite Hrec. f_equal; [lia|].
      rewrite <- app_assoc. f_equal.
      rewrite (seqZ_cons page (Z.of_nat (S d))) by lia. simpl.
      do 2 f_equal; lia.
Qed.

Lemma pages_go_on_prefix (excel_map : gmap string product) (inventory : Z -> reply)
    (t : Z -> option Z) (k : Z) (rest : nat) :
  1 <= k ->
  Answers.pages_go_on excel_map inventory t k ->
  exists pm,
    for_each (package_step excel_map) [] (packages_seen inventory (seqZ 1 (k - 1))) = Ok pm /\
    fetch_packages (Z.to_nat (k - 1) + rest) excel_map inventory =
    fetch_loop rest excel_map inventory k pm (seqZ 1 (k - 1)).
Proof.
  intros Hk Hgo.
  destruct (fetch_loop_prefix excel_map inventory t (Z.to_nat (k - 1)) rest 1 [] [])
    as (pm & Hloop & Heq).
  { intros n Hn. apply Hgo. lia. }
  rewrite Z2Nat.id in Hloop, Heq by lia.
  exists pm. split; [done|]. unfold fetch_packages. rewrite Heq. simpl.
  f_equal. lia.
Qed.

Lemma seqZ_snoc (m n : Z) : 0 <= n -> seqZ m (n + 1) = (seqZ m n ++ [m + n])%list.
Proof. intros Hn. rewrite seqZ_app by lia. done. Qed.

(** X5.  The pagination loop stops at the first page whose reported
    [TotalPages] (1 when the member is missing) does not exceed the page
    number: when pages 1 to [k - 1] each report more pages than their own
    number and page [k] does not, the loop requests exactly pages 1 to [k]
    and returns the map built from their packages.  The totals need not
    agree with one another; a first page that reports 0 ends the loop after
    one request. *)
Theorem pagination_stops_at_reported_total (excel_map : gmap string product)
    (inventory : Z -> reply) (t : Z -> option Z) (k : Z) (fuel : nat) :
  1 <= k -> k <= Z.of_nat fuel ->
  Answers.pages_go_on excel_map inventory t k ->
  page_reports excel_map (inventory k) (t k) ->
  default 1 (t k) <= k ->
  exists packages_map,
    fetch_packages fuel excel_map inventory = Some (seqZ 1 k, Ok packages_map) /\
    for_each (package_step excel_map) [] (packages_seen inventory (seqZ 1 k))
      = Ok packages_map.
Proof.
  intros Hk Hfuel Hgo Hlast Hstop.
  destruct (pages_go_on_prefix excel_map inventory t k
              (S (fuel - Z.to_nat (k - 1) - 1)) Hk Hgo) as (pm & Hseen & Heq).
  replace (Z.to_nat (k - 1) + S (fuel - Z.to_nat (k - 1) - 1))%nat with fuel in Heq by lia.
  destruct (fetch_page_reports _ _ k pm (t k) Hlast) as [pm' Hp].
  assert (fetch_packages fuel excel_map inventory = Some (seqZ 1 k, Ok pm')) as Hfetch.
  { rewrite Heq. cbn [fetch_loop]. rewrite Hp.
    destruct (Z.leb_spec (default 1 (t k)) k) as [_|?]; [|lia].
    do 2 f_equal. replace k with ((k - 1) + 1) at 3 by lia.
    rewrite seqZ_snoc by lia. do 2 f_equal. lia. }
  exists pm'. split; [done|].
  replace k with ((k - 1) + 1) by lia. rewrite seqZ_snoc by lia.
  unfold packages_seen. rewrite map_app, concat_app, for_each_app.
  fold (packages_seen inventory (seqZ 1 (k - 1))). rewrite Hseen. simpl.
  rewrite app_nil_r. replace (1 + (k - 1)) with k by lia.
  by apply fetch_page_inv in Hp as (? & ? & _ & _ & ? & _).
Qed.

Lemma pagination_stops_at_reported_total_witness :
  exists packages_map,
    fetch_packages 1 ∅ (fun _ => Scenario.page [] 0) = Some (seqZ 1 1, Ok packages_map) /\
    for_each (package_step ∅) [] (packages_seen (fun _ => Scenario.page [] 0) (seqZ 1 1))
      = Ok packages_map.
Proof.
  apply (pagination_stops_at_reported_total ∅ (fun _ => Scenario.page [] 0)
           (fun _ => Some 0) 1 1).
  - lia.
  - simpl. lia.
  - intros n Hn. lia.
  - unfold page_reports. do 3 eexists. split_and!; try reflexivity. apply List.Forall_nil.
  - simpl. lia.
Defined.

(** X6.  The loop has no bound of its own: against a source that reports,
    page after page, more pages than the page asked for, it never ends --
    whatever the fuel, it is still requesting pages when the fuel is used
    up. *)
Theorem pagination_follows_a_growing_total (excel_map : gmap string product)
    (inventory : Z -> reply) (t : Z -> option Z) :
  (forall k, Answers.pages_go_on excel_map inventory t k) ->
  forall fuel, fetch_packages fuel excel_map inventory = None.
Proof.
  intros Hgo fuel.
  destruct (pages_go_on_prefix excel_map inventory t (Z.of_nat fuel + 1) 0
              ltac:(lia) (Hgo _)) as (pm & _ & Heq).
  replace (Z.to_nat (Z.of_nat fuel + 1 - 1) + 0)%nat with fuel in Heq by lia.
  by rewrite Heq.
Qed.

Lemma pagination_follows_a_growing_total_witness :
  fetch_packages 7 ∅ Scenario.endless = None.
Proof.
  refine (pagination_follows_a_growing_total ∅ Scenario.endless (fun n => Some (n + 1))
            _ 7%nat).
  intros k n Hn. split; [|simpl; lia].
  unfold page_reports, Scenario.endless, Scenario.page.
  do 3 eexists. split_and!; try reflexivity. apply List.Forall_nil.
Defined.

Lemma fetch_page_transport_error (excel_map : gmap string product)
    (inventory : Z -> reply) (page : Z) (pm : list (Z * Pkg.t)) (e : exn) :
  Answers.transport_error (inventory page) = Some e ->
  fetch_page excel_map inventory page pm = Raise e.
Proof.
  unfold Answers.transport_error, fetch_page, raise_for_status.
  destruct (inventory page) as [|status body]; [by intros [= <-]|].
  destruct ((400 <=? status) && (status <? 600)); [by intros [= <-]|].
  by destruct body; [|intros [= <-]].
Qed.

(** X7.  An inventory page that cannot be read ends the run with nothing
    published.  When pages 1 to [k - 1] are gone through and the request
    for page [k] times out, comes back with an HTTP error status or with a
    body that is no JSON, the script requests no further page, builds no
    payload, takes no action on the repository, leaves [menu.json] as it
    was and ends with exit status 1. *)
Theorem unreadable_inventory_page_ends_the_run
    (dumps : payload -> string) (sha256 : string -> string)
    (up : upstream) (t : Z -> option Z) (k : Z) (fuel : nat) (e : exn)
    (file : option string) (git : remote) :
  (exists excel_map bulk_rules, build_excel_map (excel up) = Ok (excel_map, bulk_rules)) ->
  1 <= k -> k <= Z.of_nat fuel ->
  Answers.pages_go_on (metadata up) (inventory up) t k ->
  Answers.transport_error (inventory up k) = Some e ->
  pages_requested fuel up = seqZ 1 k /\
  build_payload fuel up = Some (Raise e) /\
  run dumps sha256 fuel up file git =
    Some {| exit_code := 1; actions := []; menu_json := file; serialized := None |}.
Proof.
  intros (em & br & Hx) Hk Hfuel Hgo Herr.
  assert (metadata up = em) as Hem by (unfold metadata; by rewrite Hx).
  rewrite Hem in Hgo.
  destruct (pages_go_on_prefix em (inventory up) t k
              (S (fuel - Z.to_nat (k - 1) - 1)) Hk Hgo) as (pm & _ & Heq).
  replace (Z.to_nat (k - 1) + S (fuel - Z.to_nat (k - 1) - 1))%nat with fuel in Heq by lia.
  assert (fetch_packages fuel em (inventory up) = Some (seqZ 1 k, Raise e)) as Hfetch.
  { rewrite Heq. cbn [fetch_loop].
    rewrite (fetch_page_transport_error _ _ _ _ _ Herr).
    do 2 f_equal. replace k with ((k - 1) + 1) at 3 by lia.
    rewrite seqZ_snoc by lia. do 2 f_equal. lia. }
  assert (build_payload fuel up = Some (Raise e)) as Hbuild.
  { unfold build_payload. by rewrite Hx, Hfetch. }
  split_and!.
  - unfold pages_requested. by rewrite Hem, Hfetch.
  - done.
  - unfold run. by rewrite Hbuild.
Qed.

Lemma unreadable_inventory_page_ends_the_run_witness :
  pages_requested 5 Scenario.second_page_down = seqZ 1 2 /\
  build_payload 5 Scenario.second_page_down = Some (Raise (HTTPError 503)) /\
  run Scenario.dumps Scenario.digest 5 Scenario.second_page_down (Some "old") Scenario.git_ok =
    Some {| exit_code := 1; actions := []; menu_json := Some "old"; serialized := None |}.
Proof.
  apply (unreadable_inventory_page_ends_the_run Scenario.dumps Scenario.digest
           Scenario.second_page_down (fun _ => Some 3) 2 5 (HTTPError 503)).
  - do 2 eexists. vm_compute. reflexivity.
  - lia.
  - simpl. lia.
  - intros n Hn. assert (n = 1) as -> by lia. split; [|simpl; lia].
    unfold page_reports. do 3 eexists.
    (split; [vm_compute; reflexivity|]);
    (split; [vm_compute; reflexivity|]);
    (split; [vm_compute; reflexivity|]);
    (split; [|vm_compute; reflexivity]).
    repeat (apply List.Forall_cons; [solve_processable|]); apply List.Forall_nil.
  - reflexivity.
Defined.

Lemma fetch_loop_trace (excel_map : gmap string product) (inventory : Z -> reply)
    (fuel : nat) (page : Z) (pm : list (Z * Pkg.t)) (log requested : list Z)
    (r : result (list (Z * Pkg.t))) :
  fetch_loop fuel excel_map inventory page pm log = Some (requested, r) ->
  exists n : nat,
    (0 < n <= fuel)%nat /\
    requested = (log ++ seqZ page (Z.of_nat n))%list /\
    (forall m, page <= m < page + Z.of_nat n - 1 ->
       exists status data,
         inventory m = Reply status (Some data) /\
         raise_for_status status = Ok tt /\ last_page m data = Ok false) /\
    match r with
    | Ok _ =>
        exists status data,
          inventory (page + Z.of_nat n - 1) = Reply status (Some data) /\
          raise_for_status status = Ok tt /\
          last_page (page + Z.of_nat n - 1) data = Ok true
    | Raise e =>
        exists pm', fetch_page excel_map inventory (page + Z.of_nat n - 1) pm' = Raise e
    end.
Proof.
  revert page pm log. induction fuel as [|fuel IH]; intros page pm log H; [done|].
  simpl in H.
  destruct (fetch_page excel_map inventory page pm) as [[pm1 stop]|e] eqn:Hpage.
  - apply fetch_page_inv in Hpage as (status & data & Hr & Hs & _ & _ & Hlast).
    destruct stop.
    + simplify_eq. exists 1%nat. split; [lia|]. split; [done|]. split.
      * intros m Hm. lia.
      * exists status, data. by replace (page + Z.of_nat 1 - 1) with page by lia.
    + apply IH in H as (n & Hn & -> & Hbefore & Hend).
      exists (S n). split; [lia|]. split.
      * rewrite <- app_assoc. f_equal.
        rewrite (seqZ_cons page (Z.of_nat (S n))) by lia. simpl.
        do 2 f_equal; lia.
      * split.
        -- intros m Hm. destruct (decide (m = page)) as [->|Hne]; [eauto|].
           apply Hbefore. lia.
        -- by replace (page + Z.of_nat (S n) - 1) with (page + 1 + Z.of_nat n - 1) by lia.
  - simplify_eq. exists 1%nat. split; [lia|]. split; [done|]. split.
    + intros m Hm. lia.
    + exists pm. by replace (page + Z.of_nat 1 - 1) with page by lia.
Qed.

(** X8.  However the pagination loop ends, the pages it has requested are
    1, 2, ..., [n] with no page skipped or asked twice.  Every page before
    the last was answered without error and reported more pages than its
    own number; the last one either raised the exception the loop ends
    with, or was answered without error and reported no more pages than
    its own number.  Runs that reach a value
    the embedding has no rendering for are left out. *)
Theorem pages_requested_in_sequence (excel_map : gmap string product)
    (inventory : Z -> reply) (fuel : nat) (requested : list Z)
    (r : result (list (Z * Pkg.t))) :
  fetch_packages fuel excel_map inventory = Some (requested, r) ->
  r <> Raise NotModelled ->
  exists n : nat,
    (0 < n <= fuel)%nat /\
    requested = seqZ 1 (Z.of_nat n) /\
    (forall m, 1 <= m < Z.of_nat n ->
       exists status data,
         inventory m = Reply status (Some data) /\
         raise_for_status status = Ok tt /\ last_page m data = Ok false) /\
    match r with
    | Ok _ =>
        exists status data,
          inventory (Z.of_nat n) = Reply status (Some data) /\
          raise_for_status status = Ok tt /\
          last_page (Z.of_nat n) data = Ok true
    | Raise e =>
        exists pm, fetch_page excel_map inventory (Z.of_nat n) pm = Raise e
    end.
Proof.
  intros H _. apply fetch_loop_trace in H as (n & Hn & -> & Hbefore & Hend).
  exists n. split; [done|]. split; [done|]. split.
  - intros m Hm. apply Hbefore. lia.
  - by replace (1 + Z.of_nat n - 1) with (Z.of_nat n) in Hend by lia.
Qed.

Lemma pages_requested_in_sequence_witness :
  exists n : nat,
    (0 < n <= 5)%nat /\
    [1; 2; 3] = seqZ 1 (Z.of_nat n) /\
    (forall m, 1 <= m < Z.of_nat n ->
       exists status data,
         Scenario.inventory m = Reply status (Some data) /\
         raise_for_status status = Ok tt /\ last_page m data = Ok false) /\
    exists status data,
      Scenario.inventory (Z.of_nat n) = Reply status (Some data) /\
      raise_for_status status = Ok tt /\
      last_page (Z.of_nat n) data = Ok true.
Proof.
  refine (pages_requested_in_sequence ∅ Scenario.inventory 5 [1; 2; 3]
            (Ok [(30, {| Pkg.Id := 30; Pkg.Label := JStr "1A4-030b";
                         Pkg.ItemName := "Blue Dream 3.5g"; Pkg.Quantity := JInt 12;
                         Pkg.Type_ := None; Pkg.Price := None |});
                 (20, {| Pkg.Id := 20; Pkg.Label := JStr "1A4-020";
                         Pkg.ItemName := "Sour Diesel 1g"; Pkg.Quantity := JInt 12;
                         Pkg.Type_ := None; Pkg.Price := None |});
                 (5, {| Pkg.Id := 5; Pkg.Label := JStr "1A4-005";
                        Pkg.ItemName := "Blue Dream 3.5g"; Pkg.Quantity := JInt 12;
                        Pkg.Type_ := None; Pkg.Price := None |})]) _ _).
  - vm_compute. reflexivity.
  - discriminate.
Defined.

(** ** The items and the packages they come from *)

Lemma items_ids_keys (pm : list (Z * Pkg.t)) (lbp : list (Z * list Lab.t)) :
  keyed pm -> map Item.Id (final pm lbp) ≡ₚ keys pm.
Proof. intros Hk. by rewrite final_ids, sorted_perm, keyed_keys. Qed.

Lemma elem_of_keys {V : Type} (d : list (Z * V)) (k : Z) :
  k ∈ keys d <-> exists v, (k, v) ∈ d.
Proof.
  unfold keys. rewrite list_elem_of_fmap. split.
  - intros ([k' v] & -> & H). by exists v.
  - intros [v H]. by exists (k, v).
Qed.

Lemma keys_NoDup_functional {V : Type} (d : list (Z * V)) (k : Z) (v w : V) :
  NoDup (keys d) -> (k, v) ∈ d -> (k, w) ∈ d -> v = w.
Proof.
  unfold keys. induction d as [|[k0 v0] d IH]; simpl; intros Hnd Hv Hw.
  { by apply elem_of_nil in Hv. }
  apply NoDup_cons in Hnd as [Hk0 Hnd].
  apply elem_of_cons in Hv as [Hv|Hv]; apply elem_of_cons in Hw as [Hw|Hw].
  - congruence.
  - exfalso. injection Hv as <- <-. apply Hk0, list_elem_of_fmap. by exists (k, w).
  - exfalso. injection Hw as <- <-. apply Hk0, list_elem_of_fmap. by exists (k, v).
  - by apply IH.
Qed.

(** X9.  The items of a payload are the kept units, no more and no fewer:
    an id is the [Id] of an item exactly when the pagination loop drew a
    package with that id from a room of [ROOMS]. *)
Theorem items_are_the_kept_units (fuel : nat) (up : upstream) (p : payload) :
  build_payload fuel up = Some (Ok p) ->
  forall id,
    id ∈ map Item.Id (items p) <->
    exists pkg, pkg ∈ seen_by_run fuel up /\ selected pkg = Ok true /\
                package_id pkg = Ok id.
Proof.
  intros H id.
  apply build_payload_packages in H as (pm & lbp & Hloop & Hkeyed & _ & Hitems).
  rewrite Hitems, items_ids_keys by done. split.
  - intros [e Hin]%elem_of_keys.
    destruct (package_loop_origin _ _ _ _ _ _ keyed_nil Hloop Hin)
      as [[Hnil _]|(l1 & pkg & l2 & Hsplit & [Hsel He] & _)].
    { by apply elem_of_nil in Hnil. }
    exists pkg. split_and!; [|done|].
    + rewrite Hsplit. apply elem_of_app. right. left.
    + apply package_entry_facts in He as [Hid _].
      destruct Hkeyed as [_ Hk]. by rewrite <- (Hk _ _ Hin).
  - intros (pkg & Hin & Hsel & Hid).
    apply package_loop_keys in Hloop as [_ Hall].
    destruct (Hall pkg Hin Hsel) as (k & Hk & Hkeys). congruence.
Qed.

Lemma items_are_the_kept_units_witness :
  5 ∈ map Item.Id (items Scenario.expected) <->
  exists pkg, pkg ∈ seen_by_run 5 Scenario.up /\ selected pkg = Ok true /\
              package_id pkg = Ok 5.
Proof.
  apply (items_are_the_kept_units 5 Scenario.up Scenario.expected).
  vm_compute. reflexivity.
Defined.

Lemma package_entry_obj (excel_map : gmap string product) (o : list (string * json))
    (e : Pkg.t) :
  package_entry excel_map (JObj o) = Ok e ->
  Pkg.Label e = default JNull (obj_get "Label" o) /\
  Pkg.Quantity e = default JNull (obj_get "Quantity" o) /\
  exists text, str (Answers.resolved_name o) = Ok text /\ Pkg.ItemName e = strip text.
Proof.
  intros H. assert (H' := H). apply package_entry_facts in H'
    as (_ & _ & _ & name & text & Hname & Htext & Hstrip).
  rewrite item_name_obj in Hname. injection Hname as <-.
  unfold package_entry in H. inv_bind H. injection H as <-. simpl.
  unfold get, get_default in *. simplify_eq. split_and!; [done..|].
  exists text. done.
Qed.

(** X10.  What a published item holds.  Take a package the loop kept such
    that no package kept after it has the same id.  The payload has an
    item with that id; its [Label] and [Quantity] are those of the package
    (null when missing); its [ItemName] is the stripped text of the nested
    [Item] name when that name is truthy and of the flat [ItemName]
    otherwise; its [Type] and [Price] are what the metadata map holds under
    that [ItemName]; its [LabResults] are the sorted list of what the lab
    request for the id gave.  No other item has that id. *)
Theorem item_of_a_kept_package (fuel : nat) (up : upstream) (p : payload)
    (before after : list json) (o : list (string * json)) :
  build_payload fuel up = Some (Ok p) ->
  seen_by_run fuel up = (before ++ JObj o :: after)%list ->
  selected (JObj o) = Ok true ->
  (forall pkg', pkg' ∈ after -> selected pkg' = Ok true ->
                package_id pkg' <> package_id (JObj o)) ->
  exists r text l,
    r ∈ items p /\
    package_id (JObj o) = Ok (Item.Id r) /\
    (forall r', r' ∈ items p -> Item.Id r' = Item.Id r -> r' = r) /\
    Item.Label r = default JNull (obj_get "Label" o) /\
    Item.Quantity r = default JNull (obj_get "Quantity" o) /\
    str (Answers.resolved_name o) = Ok text /\
    Item.ItemName r = strip text /\
    Item.Type_ r = excel_type (metadata up) (Item.ItemName r) /\
    Item.Price r = excel_price (metadata up) (Item.ItemName r) /\
    lab_fetch (labs up) [] (Item.Id r) = Ok l /\
    Item.LabResults r = sort_labs l.
Proof.
  intros H Hseen Hsel Hlast.
  apply build_payload_packages in H as (pm & lbp & Hloop & Hkeyed & Hlab & Hitems).
  rewrite Hseen in Hloop.
  destruct (package_loop_retains _ _ _ _ _ _ Hloop Hsel) as [e He].
  assert (Hfacts := proj2 He). apply package_entry_facts in Hfacts
    as (Hid & Htype & Hprice & _).
  destruct (package_entry_obj _ _ _ (proj2 He)) as (Hlabel & Hqty & text & Htext & Hname).
  rewrite Hid in Hlast.
  assert (Hget := package_loop_last _ _ _ _ _ _ _ Hloop He Hlast).
  apply dict_get_Some in Hget.
  assert (Pkg.Id e ∈ keys pm) as Hkey by (apply elem_of_keys; eauto).
  destruct (lab_results_get _ _ _ _ (proj1 Hkeyed) Hlab Hkey) as (l & Hl & Hlget).
  exists (item_of lbp e), text, l. rewrite Hitems. simpl.
  split_and!; try done.
  - apply elem_of_final. eauto.
  - intros r' (k' & e' & Hin' & ->)%elem_of_final. simpl. intros Hsame.
    destruct Hkeyed as [Hnd Hk].
    assert (k' = Pkg.Id e) as -> by (rewrite <- (Hk _ _ Hin'); done).
    assert (e' = e) as ->; [|done].
    eapply keys_NoDup_functional; eauto.
  - by rewrite Hlget.
Qed.

Lemma item_of_a_kept_package_witness :
  exists r,
    r ∈ items Scenario.padded_expected /\
    Ok 7 = Ok (Item.Id r) /\
    Item.Label r = JStr "1A4-007" /\
    Item.ItemName r = "Gelato" /\
    Item.Type_ r = None /\
    Item.Price r = Some Fnan /\
    Item.LabResults r = [].
Proof.
  destruct (item_of_a_kept_package 5 Scenario.padded Scenario.padded_expected
              [] [] Scenario.padded_members)
    as (r & text & l & Hin & Hid & _ & Hlabel & _ & Htext & Hname & Htype & Hprice &
        Hl & Hlabs).
  - vm_compute. reflexivity.
  - vm_compute. reflexivity.
  - vm_compute. reflexivity.
  - intros pkg' Hin. by apply elem_of_nil in Hin.
  - injection Htext as <-. exists r.
    split; [exact Hin|]. split; [exact Hid|]. split; [exact Hlabel|].
    split; [rewrite Hname; vm_compute; reflexivity|].
    split; [rewrite Htype, Hname; vm_compute; reflexivity|].
    split; [rewrite Hprice, Hname; vm_compute; reflexivity|].
    rewrite Hlabs. change (Ok 7 = Ok (Item.Id r)) in Hid. injection Hid as Hid.
    rewrite <- Hid in Hl. vm_compute in Hl. injection Hl as <-. reflexivity.
Defined.

(** ** What the lab results of an item are *)

Lemma is_analyte_nonempty (s : string) : is_analyte (lower s) = true -> s <> "".
Proof. intros H ->. vm_compute in H. discriminate. Qed.

Lemma lab_step_spec (rec : json) (l : list Lab.t) (x : Lab.t) :
  lab_step [] rec = Ok l ->
  x ∈ l <->
  get rec "TestTypeName" = Ok (JStr (Lab.TestTypeName x)) /\
  is_analyte (lower (Lab.TestTypeName x)) = true /\
  get rec "TestResultLevel" = Ok (Lab.TestResultLevel x).
Proof.
  unfold lab_step. intros H.
  destruct (get rec "TestTypeName") as [t|] eqn:Ht; [|done]. cbn [Py.bind] in H.
  destruct (lower_method (or_else t (JStr ""))) as [name|] eqn:Hname; [|done].
  cbn [Py.bind] in H.
  assert (is_analyte name = true -> t = JStr (text_of t) /\ name = lower (text_of t))
    as Htext.
  { intros Hyes. unfold or_else in Hname. destruct (truthy t) eqn:Htruthy.
    - destruct t; try done. simpl in *. by injection Hname as <-.
    - simpl in Hname. injection Hname as <-. vm_compute in Hyes. discriminate. }
  destruct (is_analyte name) eqn:Hyes.
  - destruct (Htext eq_refl) as [Het ->].
    destruct (get rec "TestResultLevel") as [level|] eqn:Hlevel; [|done].
    cbn [Py.bind] in H. injection H as <-. simpl. rewrite list_elem_of_singleton.
    split.
    + intros ->. simpl. rewrite <- Het. done.
    + intros (Hx & _ & [= Hl]). destruct x as [n lv]. simpl in *.
      rewrite Het in Hx. injection Hx as Hx. by rewrite Hx, Hl.
  - injection H as <-. split; [by intros ?%elem_of_nil|].
    intros (Hx & Hz & _). exfalso. injection Hx as ->.
    assert (truthy (JStr (Lab.TestTypeName x)) = true) as Htruthy.
    { simpl. apply negb_true_iff, String.eqb_neq. by apply is_analyte_nonempty. }
    unfold or_else in Hname. rewrite Htruthy in Hname. simpl in Hname.
    injection Hname as <-. congruence.
Qed.

(** X11.  The lab results of an item are the analyte tests of the answer.
    When the lab request for the item's id was answered with status 200,
    an entry is in the item's [LabResults] exactly when some record of the
    answer has that [TestTypeName], a text in whose lower-case form one of
    the [ANALYTES] occurs, and that [TestResultLevel] (null when the
    record has none). *)
Theorem lab_results_are_the_analyte_tests (fuel : nat) (up : upstream) (p : payload)
    (r : Item.t) (data : json) (recs : list json) :
  build_payload fuel up = Some (Ok p) ->
  r ∈ items p ->
  labs up (Item.Id r) = Reply 200 (Some data) ->
  page_data data = Ok recs ->
  forall x,
    x ∈ Item.LabResults r <->
    exists rec,
      rec ∈ recs /\
      get rec "TestTypeName" = Ok (JStr (Lab.TestTypeName x)) /\
      is_analyte (lower (Lab.TestTypeName x)) = true /\
      get rec "TestResultLevel" = Ok (Lab.TestResultLevel x).
Proof.
  intros H Hr Hreply Hdata x.
  apply build_payload_packages in H as (pm & lbp & _ & Hkeyed & Hlab & Hitems).
  rewrite Hitems in Hr. apply elem_of_final in Hr as (k & e & Hin & ->).
  simpl in *. destruct Hkeyed as [Hnd Hk]. rewrite (Hk _ _ Hin) in *.
  assert (k ∈ keys pm) as Hkey by (apply elem_of_keys; eauto).
  destruct (lab_results_get _ _ _ _ Hnd Hlab Hkey) as (l & Hl & ->). simpl.
  unfold lab_fetch in Hl. rewrite Hreply in Hl. simpl in Hl. rewrite Hdata in Hl.
  simpl in Hl. rewrite sort_labs_perm.
  assert (Hall : exists l', for_each lab_step [] recs = Ok l') by eauto.
  apply lab_loop_ok in Hall. apply lab_loop_kept in Hl. simpl in Hl. subst l.
  rewrite list_elem_of_In, in_flat_map. setoid_rewrite <- list_elem_of_In.
  split.
  - intros (rec & Hrec & Hx). exists rec. split; [done|].
    rewrite List.Forall_forall in Hall.
    destruct (Hall rec (proj1 (list_elem_of_In _ _) Hrec)) as [l' Hl'].
    unfold kept_tests in Hx. rewrite Hl' in Hx. by apply (lab_step_spec rec l').
  - intros (rec & Hrec & Hx). exists rec. split; [done|].
    rewrite List.Forall_forall in Hall.
    destruct (Hall rec (proj1 (list_elem_of_In _ _) Hrec)) as [l' Hl'].
    unfold kept_tests. rewrite Hl'. by apply (lab_step_spec rec l').
Qed.

Lemma lab_results_are_the_analyte_tests_witness :
  {| Lab.TestTypeName := "CBD"; Lab.TestResultLevel := JStr "0.3" |} ∈
    [ {| Lab.TestTypeName := "CBD"; Lab.TestResultLevel := JStr "0.3" |};
      {| Lab.TestTypeName := "THC"; Lab.TestResultLevel := JStr "21.4" |} ] <->
  exists rec,
    rec ∈ [Scenario.test "THC" "21.4"; Scenario.test "Moisture" "9";
           Scenario.test "CBD" "0.3"] /\
    get rec "TestTypeName" = Ok (JStr "CBD") /\
    is_analyte (lower "CBD") = true /\
    get rec "TestResultLevel" = Ok (JStr "0.3").
Proof.
  apply (lab_results_are_the_analyte_tests 5 Scenario.up Scenario.expected
           (Scenario.item 30 "1A4-030b" "Blue Dream 3.5g" (Some "Flower")
              (Some (Fnear false 4500 (-2)))
              [ {| Lab.TestTypeName := "CBD"; Lab.TestResultLevel := JStr "0.3" |};
                {| Lab.TestTypeName := "THC"; Lab.TestResultLevel := JStr "21.4" |} ])
           (JObj [("Data", JArr [Scenario.test "THC" "21.4"; Scenario.test "Moisture" "9";
                                 Scenario.test "CBD" "0.3"])])
           [Scenario.test "THC" "21.4"; Scenario.test "Moisture" "9";
            Scenario.test "CBD" "0.3"]
           ltac:(vm_compute; reflexivity)
           ltac:(vm_compute; do 2 right; left)
           ltac:(vm_compute; reflexivity)
           ltac:(vm_compute; reflexivity)
           {| Lab.TestTypeName := "CBD"; Lab.TestResultLevel := JStr "0.3" |}).
Defined.

(** ** Packages of other rooms *)

(** X12.  Packages outside the allowed rooms leave no trace.  When every
    package of a list has a [LocationName] the room test can read, the
    loop over the list ends as the loop over its kept packages alone:
    with the same map, or with the same exception.  Nothing else of a
    skipped package is looked at, not even its [Id].  Runs that reach a value
    the embedding has no rendering for are left out. *)
Theorem skipped_packages_leave_no_trace (excel_map : gmap string product)
    (pm : list (Z * Pkg.t)) (l : list json) :
  Forall (fun pkg => exists b, selected pkg = Ok b) l ->
  for_each (package_step excel_map) pm l <> Raise NotModelled ->
  for_each (package_step excel_map) pm l =
  for_each (package_step excel_map) pm (List.filter Answers.is_kept l).
Proof.
  intros H _. revert pm. induction H as [|pkg l [b Hb] _ IH]; intros pm; [done|].
  simpl. unfold Answers.is_kept at 1. rewrite Hb. destruct b.
  - simpl. destruct (package_step excel_map pm pkg); simpl; [apply IH|done].
  - unfold package_step at 1. rewrite Hb. simpl. apply IH.
Qed.

Lemma skipped_packages_leave_no_trace_witness :
  for_each (package_step (metadata Scenario.up)) []
    [Scenario.unit 30 "1A4-030" "Blue Dream 3.5g" "Vault - Finished Goods";
     JObj [("LocationName", JStr "Quarantine")]] =
  for_each (package_step (metadata Scenario.up)) []
    (List.filter Answers.is_kept
       [Scenario.unit 30 "1A4-030" "Blue Dream 3.5g" "Vault - Finished Goods";
        JObj [("LocationName", JStr "Quarantine")]]).
Proof.
  apply (skipped_packages_leave_no_trace (metadata Scenario.up) []
           [Scenario.unit 30 "1A4-030" "Blue Dream 3.5g" "Vault - Finished Goods";
            JObj [("LocationName", JStr "Quarantine")]]).
  - repeat apply List.Forall_cons; [| |apply List.Forall_nil].
    + exists true. vm_compute. reflexivity.
    + exists false. vm_compute. reflexivity.
  - vm_compute. discriminate.
Defined.

(** ** The spreadsheet as a whole *)

Lemma has_product_name (row : series) :
  has_product row = true ->
  product_name row <> "" /\
  forall w rest, In w SPACES ->
    product_name row <> w ++ rest /\ product_name row <> rest ++ w.
Proof.
  unfold has_product, product_name.
  destruct (row_get "Product" row) as [[|s]|]; try done. simpl.
  intros H%negb_true_iff%String.eqb_neq. split; [done|].
  intros w rest Hin. by apply strip_bare.
Qed.

Lemma filter_split {A : Type} (P : A -> Prop) `{!forall x, Decision (P x)}
    (l1 l2 : list A) (x : A) :
  P x -> filter P (l1 ++ x :: l2)%list = (filter P l1 ++ x :: filter P l2)%list.
Proof. intros Hx. by rewrite filter_app, filter_cons_True. Qed.

Lemma product_table_keys (sh : sheet) (m : gmap string product) (k : string) :
  product_table sh = Ok m ->
  is_Some (m !! k) <->
  exists row, row ∈ iterrows sh /\ has_product row = true /\ product_name row = k.
Proof.
  unfold product_table. destruct (existsb _ _); [|done]. intros H.
  destruct (product_loop_lookup _ _ _ k H)
    as [(row & p & Hin & Hname & Hp & Hget)|[Hnone Hget]].
  - apply list_elem_of_filter in Hin as [Hkeep Hin]. rewrite Hget. split; eauto.
  - rewrite Hget, lookup_empty. split; [by intros [? ?]|].
    intros (row & Hin & Hkeep & Hname). destruct (Hnone row); [|done].
    by apply list_elem_of_filter.
Qed.

Lemma product_table_last (sh : sheet) (m : gmap string product)
    (l1 l2 : list series) (row : series) :
  product_table sh = Ok m ->
  iterrows sh = (l1 ++ row :: l2)%list ->
  has_product row = true ->
  (forall row', row' ∈ l2 -> has_product row' = true ->
                product_name row' <> product_name row) ->
  exists p, product_of_row row = Ok p /\ m !! product_name row = Some p.
Proof.
  unfold product_table. destruct (existsb _ _); [|done]. intros H.
  intros Hrows Hkeep Hlast. rewrite Hrows in H.
  rewrite filter_split in H by done. apply (product_loop_last _ _ _ _ _ H).
  intros row' [Hkeep' Hin]%list_elem_of_filter. by apply Hlast.
Qed.

(** X13.  The products table, row by row.  The names under which the table
    holds a product are the stripped [Product] texts of the rows whose
    [Product] cell is neither blank nor made of white space; no name is
    empty, and none begins or ends with a white-space character, of
    whatever kind.  When several rows have the same name, the table holds
    the product of the last one. *)
Theorem products_table_last_row_wins (sh : sheet) (m : gmap string product) :
  product_table sh = Ok m ->
  (forall k, is_Some (m !! k) <->
             exists row, row ∈ iterrows sh /\ has_product row = true /\
                         product_name row = k) /\
  (forall k, is_Some (m !! k) ->
     k <> "" /\ forall w rest, In w SPACES -> k <> w ++ rest /\ k <> rest ++ w) /\
  (forall l1 row l2,
     iterrows sh = (l1 ++ row :: l2)%list ->
     has_product row = true ->
     (forall row', row' ∈ l2 -> has_product row' = true ->
                   product_name row' <> product_name row) ->
     exists p, product_of_row row = Ok p /\ m !! product_name row = Some p).
Proof.
  intros H. split_and!.
  - intros k. by apply product_table_keys.
  - intros k (row & _ & Hkeep & <-)%(product_table_keys _ _ _ H).
    by apply has_product_name.
  - intros l1 row l2. by apply product_table_last.
Qed.

Lemma products_table_last_row_wins_witness :
  exists p,
    product_of_row [("Product", CStr ("Gelato" ++ bytes [194; 160])); ("Price", CStr "50")]
      = Ok p /\
    ({[ "Gelato" := {| price := Some (Fnear false 50 0); type := None |} ]}
       : gmap string product) !! "Gelato" = Some p.
Proof.
  refine (proj2 (proj2 (products_table_last_row_wins
           {| columns := ["Product" ++ bytes [194; 160]; "Price"];
              rows := [[CStr "Gelato"; CStr "$45.00"];
                       [CStr (bytes [194; 160]); CStr "$1.00"];
                       [CStr ("Gelato" ++ bytes [194; 160]); CStr "50"]] |}
           {[ "Gelato" := {| price := Some (Fnear false 50 0); type := None |} ]} _))
           [[("Product", CStr "Gelato"); ("Price", CStr "$45.00")];
            [("Product", CStr (bytes [194; 160])); ("Price", CStr "$1.00")]]
           [("Product", CStr ("Gelato" ++ bytes [194; 160])); ("Price", CStr "50")] [] _ _ _).
  - vm_compute. reflexivity.
  - vm_compute. reflexivity.
  - vm_compute. reflexivity.
  - intros row' Hin. by apply elem_of_nil in Hin.
Defined.

Lemma item_metadata (fuel : nat) (up : upstream) (p : payload) (r : Item.t) :
  build_payload fuel up = Some (Ok p) ->
  r ∈ items p ->
  Item.Type_ r = excel_type (metadata up) (Item.ItemName r) /\
  Item.Price r = excel_price (metadata up) (Item.ItemName r).
Proof.
  intros H Hr.
  apply build_payload_packages in H as (pm & lbp & Hloop & Hkeyed & _ & Hitems).
  rewrite Hitems in Hr. apply elem_of_final in Hr as (k & e & Hin & ->). simpl.
  destruct (package_loop_origin _ _ _ _ _ _ keyed_nil Hloop Hin)
    as [[Hnil _]|(l1 & pkg & l2 & _ & [_ He] & _)].
  { by apply elem_of_nil in Hnil. }
  by apply package_entry_facts in He as (_ & -> & -> & _).
Qed.

Lemma metadata_table (fuel : nat) (up : upstream) (p : payload) (xl : workbook) :
  build_payload fuel up = Some (Ok p) ->
  excel up = Some xl ->
  product_table (first_sheet xl) = Ok (metadata up).
Proof.
  intros H Hxl. apply build_payload_inv in H as (em & br & _ & _ & _ & Hex & _).
  unfold metadata. rewrite Hex. rewrite Hxl in Hex. simpl in Hex.
  destruct (product_table (first_sheet xl)) as [m|]; [|done]. simpl in Hex.
  destruct (bulk_table (BulkRules xl)); [|done]. simpl in Hex. by injection Hex as -> _.
Qed.

(** X14.  Where the [Type] and the [Price] of an item come from.  In a
    payload built from a workbook, take an item and the rows of the first
    worksheet.  If a kept row has the item's [ItemName] as its product name
    and no kept row after it has, the item's [Type] and [Price] are the
    type and the price read from that row.  If no kept row has that name,
    both are null. *)
Theorem item_price_from_the_last_matching_row (fuel : nat) (up : upstream) (p : payload)
    (xl : workbook) (r : Item.t) :
  build_payload fuel up = Some (Ok p) ->
  excel up = Some xl ->
  r ∈ items p ->
  (forall l1 row l2,
     iterrows (first_sheet xl) = (l1 ++ row :: l2)%list ->
     has_product row = true ->
     product_name row = Item.ItemName r ->
     (forall row', row' ∈ l2 -> has_product row' = true ->
                   product_name row' <> Item.ItemName r) ->
     exists q, product_of_row row = Ok q /\
               Item.Type_ r = type q /\ Item.Price r = price q) /\
  ((forall row, row ∈ iterrows (first_sheet xl) -> has_product row = true ->
                product_name row <> Item.ItemName r) ->
   Item.Type_ r = None /\ Item.Price r = None).
Proof.
  intros H Hxl Hr. destruct (item_metadata _ _ _ _ H Hr) as [-> ->].
  assert (Htable := metadata_table _ _ _ _ H Hxl).
  unfold excel_type, excel_price. split.
  - intros l1 row l2 Hrows Hkeep Hname Hnone. rewrite <- Hname in *.
    destruct (product_table_last _ _ l1 l2 row Htable Hrows Hkeep Hnone) as (q & Hq & ->).
    by exists q.
  - intros Hnone. destruct (metadata up !! Item.ItemName r) as [v|] eqn:Hget; [|done].
    destruct (proj1 (product_table_keys _ _ _ Htable) (mk_is_Some _ _ Hget))
      as (row & Hin & Hkeep & Hname).
    by destruct (Hnone row Hin Hkeep).
Qed.

Lemma item_price_from_the_last_matching_row_witness :
  (exists q,
     product_of_row [("Product", CStr (bytes [194; 160] ++ "Blue Dream 3.5g"));
                     ("Price", CStr "50"); ("Type", CStr "Indica ")] = Ok q /\
     Item.Type_ (Scenario.item 5 "1A4-005" "Blue Dream 3.5g" (Some "Indica")
                   (Some (Fnear false 50 0)) []) = type q /\
     Item.Price (Scenario.item 5 "1A4-005" "Blue Dream 3.5g" (Some "Indica")
                   (Some (Fnear false 50 0)) []) = price q) /\
  Item.Type_ (Scenario.item 20 "1A4-020" "Sour Diesel 1g" None None []) = None /\
  Item.Price (Scenario.item 20 "1A4-020" "Sour Diesel 1g" None None []) = None.
Proof.
  split.
  - refine (proj1 (item_price_from_the_last_matching_row 5 Scenario.repriced
                     Scenario.repriced_expected Scenario.repriced_book
                     (Scenario.item 5 "1A4-005" "Blue Dream 3.5g" (Some "Indica")
                        (Some (Fnear false 50 0)) []) _ _ _)
              [[("Product", CStr "Blue Dream 3.5g"); ("Price", CStr "$45.00");
                ("Type", CStr "Flower")]]
              [("Product", CStr (bytes [194; 160] ++ "Blue Dream 3.5g"));
               ("Price", CStr "50"); ("Type", CStr "Indica ")]
              [[("Product", CStr "Gelato"); ("Price", CNaN); ("Type", CNaN)]] _ _ _ _).
    + vm_compute. reflexivity.
    + reflexivity.
    + left.
    + vm_compute. reflexivity.
    + vm_compute. reflexivity.
    + vm_compute. reflexivity.
    + intros row' Hin _. apply list_elem_of_singleton in Hin. subst row'.
      vm_compute. discriminate.
  - refine (proj2 (item_price_from_the_last_matching_row 5 Scenario.repriced
                     Scenario.repriced_expected Scenario.repriced_book
                     (Scenario.item 20 "1A4-020" "Sour Diesel 1g" None None []) _ _ _) _).
    + vm_compute. reflexivity.
    + reflexivity.
    + right. left.
    + intros row Hin _.
      apply elem_of_cons in Hin as [->|Hin]; [vm_compute; discriminate|].
      apply elem_of_cons in Hin as [->|Hin]; [vm_compute; discriminate|].
      apply list_elem_of_singleton in Hin. subst row. vm_compute. discriminate.
Defined.

(** ** The bulk rules *)

Lemma bulk_step_spec (acc l : list bulk_rule) (row : series) :
  bulk_step acc row = Ok l ->
  (Answers.complete row = false /\ l = acc) \/
  (Answers.complete row = true /\
   exists rule, Answers.rule_of row rule /\ l = (acc ++ [rule])%list).
Proof.
  unfold bulk_step, Answers.complete.
  destruct (_ && _ && _); [|intros [= <-]; by left].
  intros H. right. split; [done|].
  destruct (int_of_cell _) as [n|] eqn:Hn; [|done]. simpl in H.
  destruct (_to_money _) as [q|] eqn:Hq; [|done]. simpl in H. injection H as <-.
  eexists. split; [|done]. by split_and!.
Qed.

Lemma bulk_loop_spec (rows : list series) (acc l : list bulk_rule) :
  for_each bulk_step acc rows = Ok l ->
  exists rules,
    l = (acc ++ rules)%list /\
    Forall2 Answers.rule_of (List.filter Answers.complete rows) rules.
Proof.
  revert acc. induction rows as [|row rows IH]; simpl; intros acc H.
  - injection H as <-. exists []. by rewrite app_nil_r.
  - destruct (bulk_step acc row) as [acc1|] eqn:Hstep; [|done]. simpl in H.
    destruct (IH _ H) as (rules & -> & Hall).
    apply bulk_step_spec in Hstep as [[-> ->]|(-> & rule & Hrule & ->)].
    + by exists rules.
    + exists (rule :: rules). rewrite <- app_assoc. split; [done|]. by constructor.
Qed.

(** In a worksheet as [parse] returns it every cell is true for the guard
    of the loop: a field is there exactly when its column is. *)
Lemma parsed_truthy (c : cell) : as_parsed c = true -> cell_truthy (Some c) = true.
Proof. destruct c as [|s]; [done|]. apply text_truthy. Qed.

Lemma zip_truthy (k : string) (ks : list string) (r : list cell) :
  length r = length ks -> forallb as_parsed r = true ->
  cell_truthy (row_get k (zip ks r)) = existsb (String.eqb k) ks.
Proof.
  revert r. induction ks as [|k0 ks IH]; intros [|c r]; simpl; try done.
  intros [= Hlen] [Hc Hr]%andb_true_iff.
  destruct (String.eqb k k0); simpl; [by apply parsed_truthy|by apply IH].
Qed.

Lemma complete_columns (sh : sheet) (row : series) :
  well_read sh -> row ∈ iterrows sh ->
  Answers.complete row =
  has_column "ProductGroup" sh && has_column "MinQty" sh && has_column "Price" sh.
Proof.
  unfold well_read, iterrows, Answers.complete, has_column. intros Hsh Hrow.
  apply list_elem_of_fmap in Hrow as (r & -> & Hr).
  rewrite List.Forall_forall in Hsh.
  destruct (Hsh r (proj1 (list_elem_of_In _ _) Hr)) as [Hlen Hp].
  assert (length r = length (map strip (columns sh))) as Hlen'
    by (by rewrite length_map).
  by rewrite !zip_truthy.
Qed.

Lemma filter_complete (sh : sheet) :
  well_read sh ->
  List.filter Answers.complete (iterrows sh) =
  if has_column "ProductGroup" sh && has_column "MinQty" sh && has_column "Price" sh
  then iterrows sh else [].
Proof.
  intros Hsh.
  assert (forall row, row ∈ iterrows sh -> Answers.complete row =
            has_column "ProductGroup" sh && has_column "MinQty" sh && has_column "Price" sh)
    as Hall by (intros row; by apply complete_columns).
  destruct (_ && _ && _); induction (iterrows sh) as [|row l IH]; simpl; try done.
  - rewrite Hall by left. f_equal. apply IH. intros r Hr. apply Hall. by right.
  - rewrite Hall by left. apply IH. intros r Hr. apply Hall. by right.
Qed.

(** X15.  The bulk rules of a payload are the complete rows of the
    [BulkRules] worksheet, in the order of the worksheet, as many rules as
    there are such rows: the group is the stripped [ProductGroup] text
    ([nan] for a blank cell), the quantity the integer read from [MinQty],
    the price what [_to_money] makes of [Price].  In a worksheet as [parse]
    returns it all rows are complete when it has the three columns, and
    none is when it lacks one.  Without that worksheet there are no
    rules. *)
Theorem bulk_rules_follow_the_worksheet (fuel : nat) (up : upstream) (p : payload)
    (xl : workbook) :
  build_payload fuel up = Some (Ok p) ->
  excel up = Some xl ->
  match BulkRules xl with
  | None => bulkRules p = []
  | Some sh =>
      Forall2 Answers.rule_of (List.filter Answers.complete (iterrows sh)) (bulkRules p) /\
      (well_read sh ->
       List.filter Answers.complete (iterrows sh) =
       if has_column "ProductGroup" sh && has_column "MinQty" sh && has_column "Price" sh
       then iterrows sh else [])
  end.
Proof.
  intros H Hxl. apply build_payload_inv in H as (em & br & req & pm & lbp & Hex & _ & _ & ->).
  simpl. rewrite Hxl in Hex. simpl in Hex.
  destruct (product_table (first_sheet xl)) as [m|]; [|done]. simpl in Hex.
  destruct (bulk_table (BulkRules xl)) as [rules|] eqn:Hrules; [|done].
  simpl in Hex. injection Hex as _ <-. unfold bulk_table in Hrules.
  destruct (BulkRules xl) as [sh|]; [|by injection Hrules as <-].
  split; [|apply filter_complete].
  by apply bulk_loop_spec in Hrules as (rules' & -> & Hall).
Qed.

Lemma bulk_rules_follow_the_worksheet_witness :
  (Forall2 Answers.rule_of
     (List.filter Answers.complete (iterrows Scenario.three_rules))
     [ {| ProductGroup := "Flower"; MinQty := 4; Price := Some (Fnear false 4000 (-2)) |};
       {| ProductGroup := "Vape"; MinQty := 2; Price := None |};
       {| ProductGroup := "Edible"; MinQty := 10; Price := Some Fnan |} ] /\
   (well_read Scenario.three_rules ->
    List.filter Answers.complete (iterrows Scenario.three_rules) =
    iterrows Scenario.three_rules)) /\
  (Forall2 Answers.rule_of
     (List.filter Answers.complete (iterrows Scenario.unpriced_rules)) [] /\
   (well_read Scenario.unpriced_rules ->
    List.filter Answers.complete (iterrows Scenario.unpriced_rules) = [])).
Proof.
  split.
  - apply (bulk_rules_follow_the_worksheet 5 (Scenario.ruled Scenario.three_rules)
             {| items := items Scenario.expected;
                bulkRules :=
                  [ {| ProductGroup := "Flower"; MinQty := 4;
                       Price := Some (Fnear false 4000 (-2)) |};
                    {| ProductGroup := "Vape"; MinQty := 2; Price := None |};
                    {| ProductGroup := "Edible"; MinQty := 10; Price := Some Fnan |} ] |}
             {| first_sheet := first_sheet Scenario.book;
                BulkRules := Some Scenario.three_rules |}).
    + vm_compute. reflexivity.
    + reflexivity.
  - apply (bulk_rules_follow_the_worksheet 5 (Scenario.ruled Scenario.unpriced_rules)
             {| items := items Scenario.expected; bulkRules := [] |}
             {| first_sheet := first_sheet Scenario.book;
                BulkRules := Some Scenario.unpriced_rules |}).
    + vm_compute. reflexivity.
    + reflexivity.
Defined.

(** ** A spreadsheet the script cannot read *)











(** ** What a run does to the working copy *)

(** X17.  The file is written only at the end of a complete run.  When a
    run writes [menu.json], the payload was built, the text written is its
    serialization, its digest differs from the digest of the file found
    (or no file was found), the pull before it succeeded, and the run adds,
    commits and pushes after it and ends with status 0.  A run that ends
    with another status wrote nothing, and nothing is pushed that was not
    written.  Runs that reach a value
    the embedding has no rendering for are left out. *)
Theorem file_written_only_by_a_complete_run
    (dumps : payload -> string) (sha256 : string -> string)
    (fuel : nat) (up : upstream) (file : option string) (git : remote) (out : outcome) :
  run dumps sha256 fuel up file git = Some out ->
  build_payload fuel up <> Some (Raise NotModelled) ->
  (forall c, In (WriteFile c) (actions out) ->
     exists p,
       build_payload fuel up = Some (Ok p) /\
       c = dumps p /\
       file_hash sha256 file <> Some (sha256 c) /\
       pull_status git = 0 /\
       actions out = [GitPull; WriteFile c; GitAdd; GitCommit; GitPush] /\
       menu_json out = Some c /\
       exit_code out = 0) /\
  (exit_code out <> 0 -> forall a, In a (actions out) -> a = GitPull) /\
  (In GitPush (actions out) -> exists c, In (WriteFile c) (actions out)).
Proof.
  unfold run. destruct (build_payload fuel up) as [[p|e]|]; [| |done].
  - unfold publish. intros [= <-] _.
    destruct (decide (file_hash sha256 file = Some (sha256 (dumps p)))) as [Hsame|Hnew].
    { simpl. split_and!; [by intros c []|done|by intros []]. }
    destruct (Z.eqb_spec (pull_status git) 0) as [Hpull|Hpull]; simpl.
    + split_and!.
      * intros c [H|[H|[H|[H|[H|[]]]]]]; try discriminate. injection H as <-.
        exists p. by split_and!.
      * done.
      * intros _. exists (dumps p). right. by left.
    + split_and!.
      * intros c [H|[]]. discriminate.
      * intros _ a [<-|[]]. done.
      * intros [H|[]]. discriminate.
  - intros [= <-] _. simpl. split_and!; [by intros c []|by intros _ a []|by intros []].
Qed.

Lemma file_written_only_by_a_complete_run_witness :
  exists p,
    build_payload 5 Scenario.up = Some (Ok p) /\
    "Blue Dream 3.5g,Sour Diesel 1g,Blue Dream 3.5g" = Scenario.dumps p /\
    file_hash Scenario.digest (Some "Blue Dream 3.5g") <>
      Some (Scenario.digest "Blue Dream 3.5g,Sour Diesel 1g,Blue Dream 3.5g") /\
    pull_status Scenario.git_ok = 0 /\
    [GitPull; WriteFile "Blue Dream 3.5g,Sour Diesel 1g,Blue Dream 3.5g";
     GitAdd; GitCommit; GitPush] =
    [GitPull; WriteFile "Blue Dream 3.5g,Sour Diesel 1g,Blue Dream 3.5g";
     GitAdd; GitCommit; GitPush] /\
    Some "Blue Dream 3.5g,Sour Diesel 1g,Blue Dream 3.5g" =
      Some "Blue Dream 3.5g,Sour Diesel 1g,Blue Dream 3.5g" /\
    0 = 0.
Proof.
  refine (proj1 (file_written_only_by_a_complete_run Scenario.dumps Scenario.digest 5
                   Scenario.up (Some "Blue Dream 3.5g") Scenario.git_ok
                   {| exit_code := 0;
                      actions := [GitPull;
                                  WriteFile "Blue Dream 3.5g,Sour Diesel 1g,Blue Dream 3.5g";
                                  GitAdd; GitCommit; GitPush];
                      menu_json := Some "Blue Dream 3.5g,Sour Diesel 1g,Blue Dream 3.5g";
                      serialized := Some "Blue Dream 3.5g,Sour Diesel 1g,Blue Dream 3.5g" |}
                   _ _) "Blue Dream 3.5g,Sour Diesel 1g,Blue Dream 3.5g" _).
  - vm_compute. reflexivity.
  - vm_compute. discriminate.
  - right. left. reflexivity.
Defined.

(** ** The older script beside the later one *)

Lemma get_or_obj (o : list (string * json)) (k1 k2 : string) :
  Legacy.get_or (JObj o) k1 k2 = Ok (Answers.either o k1 k2).
Proof.
  unfold Legacy.get_or, Answers.either, or_else, get, get_default. simpl.
  by destruct (truthy _).
Qed.

Lemma package_entry_later (excel_map : gmap string product) (pkg : json) :
  package_entry excel_map pkg =
  match Legacy.package_entry pkg with
  | Ok e => Ok (Answers.later_entry excel_map e)
  | Raise x => Raise x
  end.
Proof.
  unfold package_entry, Legacy.package_entry.
  destruct pkg as [| | | | | |o]; try done.
  rewrite !get_or_obj.
  destruct (item_name (JObj o)) as [name|]; simpl; [|done].
  destruct (obj_get "Id" o) as [id|]; simpl; [|done].
  destruct (str name) as [text|]; simpl; [|done].
  by destruct (as_key id).
Qed.

Lemma dict_set_later (excel_map : gmap string product) (k : Z) (e : Legacy.Pkg.t)
    (pm : list (Z * Legacy.Pkg.t)) :
  Answers.later_map excel_map (dict_set k e pm) =
  dict_set k (Answers.later_entry excel_map e) (Answers.later_map excel_map pm).
Proof.
  induction pm as [|[k0 e0] pm IH]; simpl; [done|].
  destruct (k =? k0); simpl; [done|]. by rewrite <- IH.
Qed.

Lemma package_step_later (excel_map : gmap string product) (pm : list (Z * Legacy.Pkg.t))
    (pkg : json) :
  package_step excel_map (Answers.later_map excel_map pm) pkg =
  Answers.later_result excel_map (Legacy.package_step pm pkg).
Proof.
  unfold package_step, Legacy.package_step.
  destruct (selected pkg) as [[|]|]; simpl; try done.
  rewrite package_entry_later.
  destruct (Legacy.package_entry pkg) as [e|]; simpl; [|done].
  by rewrite dict_set_later.
Qed.

Lemma package_loop_later (excel_map : gmap string product) (l : list json)
    (pm : list (Z * Legacy.Pkg.t)) :
  for_each (package_step excel_map) (Answers.later_map excel_map pm) l =
  Answers.later_result excel_map (for_each Legacy.package_step pm l).
Proof.
  revert pm. induction l as [|pkg l IH]; intros pm; simpl; [done|].
  rewrite package_step_later.
  destruct (Legacy.package_step pm pkg) as [pm1|]; simpl; [apply IH|done].
Qed.

Lemma fetch_page_later (excel_map : gmap string product) (inventory : Z -> reply)
    (page : Z) (pm : list (Z * Legacy.Pkg.t)) :
  fetch_page excel_map inventory page (Answers.later_map excel_map pm) =
  match Legacy.fetch_page inventory page pm with
  | Ok (pm', stop) => Ok (Answers.later_map excel_map pm', stop)
  | Raise e => Raise e
  end.
Proof.
  unfold fetch_page, Legacy.fetch_page.
  destruct (inventory page) as [|status body]; [done|].
  destruct (raise_for_status status); simpl; [|done].
  destruct (json_body body) as [data|]; simpl; [|done].
  destruct (page_data data) as [pkgs|]; simpl; [|done].
  rewrite package_loop_later.
  destruct (for_each Legacy.package_step pm pkgs) as [pm1|]; simpl; [|done].
  by destruct (last_page page data).
Qed.

Lemma fetch_loop_later (excel_map : gmap string product) (inventory : Z -> reply)
    (fuel : nat) (page : Z) (pm : list (Z * Legacy.Pkg.t)) (log : list Z) :
  fetch_loop fuel excel_map inventory page (Answers.later_map excel_map pm) log =
  option_map (fun x => (fst x, Answers.later_result excel_map (snd x)))
             (Legacy.fetch_loop fuel inventory page pm log).
Proof.
  revert page pm log. induction fuel as [|fuel IH]; intros page pm log; simpl; [done|].
  rewrite fetch_page_later.
  destruct (Legacy.fetch_page inventory page pm) as [[pm1 [|]]|]; simpl;
    [done|apply IH|done].
Qed.

(** X18.  Both scripts draw the same packages.  On the same inventory
    source the pagination loops of the two scripts request the same pages
    and end alike: with the same exception, or with maps that hold the
    same ids in the same order, where the entry of the later script is the
    entry of the older one without its dates and with [Type] and [Price]
    looked up under its [ItemName]; and neither ends within [fuel] pages
    when the other does not.  Runs that reach a value
    the embedding has no rendering for are left out. *)
Theorem both_scripts_keep_the_same_packages (fuel : nat)
    (excel_map : gmap string product) (inventory : Z -> reply) :
  (forall requested,
     Legacy.fetch_packages fuel inventory <> Some (requested, Raise NotModelled)) ->
  fetch_packages fuel excel_map inventory =
  option_map (fun x => (fst x, Answers.later_result excel_map (snd x)))
             (Legacy.fetch_packages fuel inventory).
Proof.
  intros _. unfold fetch_packages, Legacy.fetch_packages.
  change (@nil (Z * Pkg.t)) with (Answers.later_map excel_map []).
  apply fetch_loop_later.
Qed.

Lemma both_scripts_keep_the_same_packages_witness :
  fetch_packages 5 (metadata Scenario.up) Scenario.inventory =
  option_map (fun x => (fst x, Answers.later_result (metadata Scenario.up) (snd x)))
             (Legacy.fetch_packages 5 Scenario.inventory).
Proof.
  apply (both_scripts_keep_the_same_packages 5 (metadata Scenario.up) Scenario.inventory).
  intros requested. vm_compute. discriminate.
Defined.

Lemma values_later (excel_map : gmap string product) (pm : list (Z * Legacy.Pkg.t)) :
  values (Answers.later_map excel_map pm) =
  map (Answers.later_entry excel_map) (values pm).
Proof. unfold values, Answers.later_map. rewrite !map_map. done. Qed.

Lemma keys_later (excel_map : gmap string product) (pm : list (Z * Legacy.Pkg.t)) :
  keys (Answers.later_map excel_map pm) = keys pm.
Proof. unfold keys, Answers.later_map. rewrite map_map. done. Qed.

Lemma older_build_inv (fuel : nat) (up : Legacy.upstream) (items : list Legacy.Item.t) :
  Legacy.build_final fuel up = Some (Ok items) ->
  exists excel_map requested pm lbp,
    Legacy.build_excel_map (Legacy.excel up) = Ok excel_map /\
    Legacy.fetch_packages fuel (Legacy.inventory up) = Some (requested, Ok pm) /\
    Legacy.lab_loop (Legacy.labs up) (map (fun pid => (pid, [])) (keys pm)) (keys pm)
      = Ok lbp /\
    items = Legacy.final excel_map pm lbp.
Proof.
  unfold Legacy.build_final. intros H.
  destruct (Legacy.build_excel_map (Legacy.excel up)) as [em|] eqn:Hx; [|done].
  destruct (Legacy.fetch_packages fuel (Legacy.inventory up)) as [[req [pm|]]|] eqn:Hf;
    [|done|done].
  destruct (Legacy.lab_loop _ _ _) as [lbp|] eqn:Hl; simpl in H; [|done].
  exists em, req, pm, lbp. by simplify_eq.
Qed.

(** X19.  The items of the later script are those of the older one, put
    in ascending order of [Id].  When both scripts build their items from
    the same workbook and the same inventory source, the later script's
    items, read for [Id], [Label], [ItemName], [Quantity], [Type] and
    [Price], are the older script's items sorted by [Id]. *)
Theorem later_items_are_the_older_items_sorted (fuel : nat) (up : upstream)
    (older : Legacy.upstream) (p : payload) (older_items : list Legacy.Item.t) :
  Legacy.excel older = excel up ->
  Legacy.inventory older = inventory up ->
  build_payload fuel up = Some (Ok p) ->
  Legacy.build_final fuel older = Some (Ok older_items) ->
  map Answers.shared (items p) =
  sorted Pkg.Id Z.ltb (map Answers.shared_older older_items).
Proof.
  intros Hexcel Hinv H Hold.
  apply build_payload_inv in H as (em & br & req & pm & lbp & Hx & Hf & _ & ->).
  apply older_build_inv in Hold as (em' & req' & pm' & lbp' & Hx' & Hf' & _ & ->).
  rewrite Hexcel in Hx'. rewrite Hinv in Hf'.
  assert (em' = em) as ->.
  { unfold build_excel_map in Hx. unfold Legacy.build_excel_map in Hx'.
    destruct (excel up) as [xl|]; [|done]. rewrite Hx' in Hx. simpl in Hx.
    destruct (bulk_table (BulkRules xl)); [|done]. simpl in Hx. congruence. }
  unfold fetch_packages, Legacy.fetch_packages in *.
  change (@nil (Z * Pkg.t)) with (Answers.later_map em []) in Hf.
  rewrite fetch_loop_later, Hf' in Hf.
  simpl in Hf. injection Hf as _ <-.
  simpl. unfold final, Legacy.final. rewrite !map_map, values_later.
  rewrite <- (map_map (Answers.later_entry em)
                (fun e => e) (values pm')) at 1.
  rewrite map_id.
  erewrite (map_ext (fun x => Answers.shared (item_of lbp x)) (fun x => x)).
  2:{ by intros []. }
  rewrite map_id. f_equal.
Qed.

Lemma later_items_are_the_older_items_sorted_witness :
  map Answers.shared (items Scenario.expected) =
  sorted Pkg.Id Z.ltb (map Answers.shared_older Scenario.older_expected).
Proof.
  apply (later_items_are_the_older_items_sorted 5 Scenario.up Scenario.older
           Scenario.expected Scenario.older_expected).
  - reflexivity.
  - reflexivity.
  - vm_compute. reflexivity.
  - vm_compute. reflexivity.
Defined.

(** ** The package loop of the older script *)

Lemma older_entry_obj (o : list (string * json)) (e : Legacy.Pkg.t) :
  Legacy.package_entry (JObj o) = Ok e ->
  package_id (JObj o) = Ok (Legacy.Pkg.Id e) /\
  Legacy.Pkg.DateReceived e = Answers.either o "ReceivedDateTime" "ReceivedDate" /\
  Legacy.Pkg.PackageDate e = Answers.either o "PackagedDate" "PackageDate" /\
  Legacy.Pkg.CreatedAt e = default JNull (obj_get "LastModified" o).
Proof.
  unfold Legacy.package_entry, package_id. rewrite !get_or_obj. intros H. inv_bind H.
  injection H as <-. cbn [Legacy.Pkg.Id Legacy.Pkg.DateReceived Legacy.Pkg.PackageDate
    Legacy.Pkg.CreatedAt]. rewrite Ha0. simpl.
  unfold get, get_default in *. by simplify_eq.
Qed.

Lemma older_entry_id (pkg : json) (e : Legacy.Pkg.t) :
  Legacy.package_entry pkg = Ok e -> package_id pkg = Ok (Legacy.Pkg.Id e).
Proof.
  destruct pkg as [| | | | | |o]; try done. by intros [? _]%older_entry_obj.
Qed.

Lemma older_step_inv (pm pm' : list (Z * Legacy.Pkg.t)) (pkg : json) :
  Legacy.package_step pm pkg = Ok pm' ->
  (selected pkg = Ok false /\ pm' = pm) \/
  (exists e, selected pkg = Ok true /\ Legacy.package_entry pkg = Ok e /\
             pm' = dict_set (Legacy.Pkg.Id e) e pm).
Proof.
  unfold Legacy.package_step. intros H. inv_bind H.
  destruct a; [right|left; by simplify_eq].
  inv_bind H. simplify_eq. eauto.
Qed.

(** The keys of a map of the older script are distinct and each entry
    sits under its own id. *)
Lemma older_loop_keyed (l : list json) (pm pm' : list (Z * Legacy.Pkg.t)) :
  NoDup (keys pm) /\ (forall k e, (k, e) ∈ pm -> Legacy.Pkg.Id e = k) ->
  for_each Legacy.package_step pm l = Ok pm' ->
  NoDup (keys pm') /\ (forall k e, (k, e) ∈ pm' -> Legacy.Pkg.Id e = k).
Proof.
  revert pm. induction l as [|pkg l IH]; simpl; intros pm Hpm H.
  - by simplify_eq.
  - destruct (Legacy.package_step pm pkg) as [pm1|] eqn:Hstep; [|done].
    apply (IH pm1); [|done].
    apply older_step_inv in Hstep as [[_ ->]|(e & _ & _ & ->)]; [done|].
    destruct Hpm as [Hnd Hid]. split; [by apply keys_dict_set_NoDup|].
    intros k e' [[-> ->]|[Hin _]]%dict_set_origin; auto.
Qed.

Lemma older_keyed_nil :
  NoDup (keys (@nil (Z * Legacy.Pkg.t))) /\
  (forall k e, (k, e) ∈ @nil (Z * Legacy.Pkg.t) -> Legacy.Pkg.Id e = k).
Proof. split; [constructor|]. intros k e Hin. by apply elem_of_nil in Hin. Qed.

Lemma older_loop_get (l : list json) (pm pm' : list (Z * Legacy.Pkg.t)) (k : Z) :
  for_each Legacy.package_step pm l = Ok pm' ->
  (forall pkg, pkg ∈ l -> selected pkg = Ok true -> package_id pkg <> Ok k) ->
  dict_get k pm' = dict_get k pm.
Proof.
  revert pm. induction l as [|pkg l IH]; simpl; intros pm H Hnone.
  - by simplify_eq.
  - destruct (Legacy.package_step pm pkg) as [pm1|] eqn:Hstep; [|done].
    rewrite (IH pm1 H) by (intros p Hp; apply Hnone; by right).
    apply older_step_inv in Hstep as [[_ ->]|(e & Hsel & He & ->)]; [done|].
    rewrite dict_get_set. case_decide as Hk; [|done]. subst k.
    exfalso. apply (Hnone pkg); [by left|done|]. by apply older_entry_id.
Qed.

Lemma older_loop_last (l1 l2 : list json) (pkg : json) (pm pm' : list (Z * Legacy.Pkg.t)) :
  for_each Legacy.package_step pm (l1 ++ pkg :: l2) = Ok pm' ->
  selected pkg = Ok true ->
  (forall pkg', pkg' ∈ l2 -> selected pkg' = Ok true -> package_id pkg' <> package_id pkg) ->
  exists e, Legacy.package_entry pkg = Ok e /\ dict_get (Legacy.Pkg.Id e) pm' = Some e.
Proof.
  intros H Hsel Hnone.
  rewrite for_each_app in H. apply bind_Ok in H as (pm1 & _ & H). simpl in H.
  destruct (Legacy.package_step pm1 pkg) as [pm2|] eqn:Hstep; [|done].
  apply older_step_inv in Hstep as [[Hsel' _]|(e & _ & He & ->)]; [congruence|].
  exists e. split; [done|].
  rewrite (older_entry_id _ _ He) in Hnone.
  rewrite (older_loop_get _ _ _ _ H Hnone).
  rewrite dict_get_set. by rewrite decide_True.
Qed.

Lemma older_fetch_page_inv (inventory : Z -> reply) (page : Z)
    (pm pm' : list (Z * Legacy.Pkg.t)) (stop : bool) :
  Legacy.fetch_page inventory page pm = Ok (pm', stop) ->
  for_each Legacy.package_step pm (page_packages (inventory page)) = Ok pm'.
Proof.
  unfold Legacy.fetch_page. intros H.
  destruct (inventory page) as [|status body] eqn:Hr; [done|].
  inv_bind H. destruct a. destruct body as [data|]; [|done].
  simpl in Ha0. simplify_eq. simpl. by rewrite Ha1.
Qed.

Lemma older_fetch_loop_spec (inventory : Z -> reply) (fuel : nat) (page : Z)
    (pm pm' : list (Z * Legacy.Pkg.t)) (log requested : list Z) :
  Legacy.fetch_loop fuel inventory page pm log = Some (requested, Ok pm') ->
  exists pages,
    requested = (log ++ pages)%list /\
    for_each Legacy.package_step pm (packages_seen inventory pages) = Ok pm'.
Proof.
  revert page pm log. induction fuel as [|fuel IH]; intros page pm log H; [done|].
  simpl in H.
  destruct (Legacy.fetch_page inventory page pm) as [[pm1 stop]|e] eqn:Hpage; [|done].
  apply older_fetch_page_inv in Hpage. destruct stop.
  - simplify_eq. exists [page]. split; [done|].
    rewrite packages_seen_cons. unfold packages_seen at 1. simpl. by rewrite app_nil_r.
  - apply IH in H as (pages & -> & Hr). exists (page :: pages). split.
    + by rewrite <- app_assoc.
    + by rewrite packages_seen_cons, for_each_app, Hpage.
Qed.

Lemma older_build_packages (fuel : nat) (up : Legacy.upstream)
    (items : list Legacy.Item.t) :
  Legacy.build_final fuel up = Some (Ok items) ->
  exists excel_map pm lbp,
    for_each Legacy.package_step [] (Legacy.seen_by_run fuel up) = Ok pm /\
    NoDup (keys pm) /\ (forall k e, (k, e) ∈ pm -> Legacy.Pkg.Id e = k) /\
    Legacy.lab_loop (Legacy.labs up) (map (fun pid => (pid, [])) (keys pm)) (keys pm)
      = Ok lbp /\
    items = Legacy.final excel_map pm lbp.
Proof.
  intros H. apply older_build_inv in H as (em & req & pm & lbp & _ & Hf & Hl & ->).
  unfold Legacy.seen_by_run, Legacy.pages_requested. rewrite Hf.
  apply older_fetch_loop_spec in Hf as (pages & -> & Hloop). simpl.
  exists em, pm, lbp.
  by destruct (older_loop_keyed _ [] pm older_keyed_nil Hloop) as [Hnd Hid].
Qed.

(** X20.  The dates of an item of the older script.  Take a package the
    loop kept such that no package kept after it has the same id.  The
    items have one with that id.  Its [DateReceived] is the package's
    [ReceivedDateTime] when that is truthy and its [ReceivedDate]
    otherwise; its [PackageDate] is the [PackagedDate] when that is
    truthy, the [PackageDate] otherwise, and null when the one chosen is
    not truthy; its [CreatedAt] is the [LastModified].  A member that is
    missing counts as null. *)
Theorem older_item_dates (fuel : nat) (up : Legacy.upstream) (items : list Legacy.Item.t)
    (before after : list json) (o : list (string * json)) :
  Legacy.build_final fuel up = Some (Ok items) ->
  Legacy.seen_by_run fuel up = (before ++ JObj o :: after)%list ->
  selected (JObj o) = Ok true ->
  (forall pkg', pkg' ∈ after -> selected pkg' = Ok true ->
                package_id pkg' <> package_id (JObj o)) ->
  exists r,
    r ∈ items /\
    package_id (JObj o) = Ok (Legacy.Item.Id r) /\
    Legacy.Item.DateReceived r = Answers.either o "ReceivedDateTime" "ReceivedDate" /\
    Legacy.Item.PackageDate r =
      or_else (Answers.either o "PackagedDate" "PackageDate") JNull /\
    (Legacy.Item.PackageDate r = JNull \/ truthy (Legacy.Item.PackageDate r) = true) /\
    Legacy.Item.CreatedAt r = default JNull (obj_get "LastModified" o).
Proof.
  intros H Hseen Hsel Hlast.
  apply older_build_packages in H as (em & pm & lbp & Hloop & _ & _ & _ & ->).
  rewrite Hseen in Hloop.
  destruct (older_loop_last _ _ _ _ _ Hloop Hsel Hlast) as (e & He & Hget).
  apply dict_get_Some in Hget.
  apply older_entry_obj in He as (Hid & Hr & Hp & Hc).
  exists (Legacy.item_of em lbp e). simpl. split_and!; try done.
  - unfold Legacy.final. apply list_elem_of_fmap. exists e. split; [done|].
    apply elem_of_values. eauto.
  - by rewrite Hp.
  - unfold or_else. destruct (truthy (Legacy.Pkg.PackageDate e)) eqn:Ht; auto.
Qed.

Lemma older_item_dates_witness :
  exists r,
    r ∈ Scenario.older_dated_expected /\
    package_id (JObj Scenario.dated_members) = Ok (Legacy.Item.Id r) /\
    Legacy.Item.DateReceived r =
      Answers.either Scenario.dated_members "ReceivedDateTime" "ReceivedDate" /\
    Legacy.Item.PackageDate r =
      or_else (Answers.either Scenario.dated_members "PackagedDate" "PackageDate") JNull /\
    (Legacy.Item.PackageDate r = JNull \/ truthy (Legacy.Item.PackageDate r) = true) /\
    Legacy.Item.CreatedAt r = default JNull (obj_get "LastModified" Scenario.dated_members).
Proof.
  apply (older_item_dates 5 Scenario.older_dated Scenario.older_dated_expected [] []
           Scenario.dated_members).
  - vm_compute. reflexivity.
  - vm_compute. reflexivity.
  - vm_compute. reflexivity.
  - intros pkg' Hin. by apply elem_of_nil in Hin.
Defined.

(** ** The lab requests of the older script *)

Lemma older_lab_loop_get (labs : Z -> reply) (pids : list Z)
    (d d' : list (Z * list Lab.t)) :
  NoDup pids ->
  (forall k, k ∈ pids -> dict_get k d = Some []) ->
  Legacy.lab_loop labs d pids = Ok d' ->
  forall k,
    (k ∈ pids -> exists l, Legacy.lab_fetch labs [] k = Ok l /\ dict_get k d' = Some l) /\
    (k ∉ pids -> dict_get k d' = dict_get k d).
Proof.
  unfold Legacy.lab_loop. revert d.
  induction pids as [|pid pids IH]; simpl; intros d Hnd Hd H.
  - simplify_eq. intros k. split; [|done]. intros Hk. by apply elem_of_nil in Hk.
  - apply NoDup_cons in Hnd as [Hpid Hnd].
    rewrite (Hd pid) in H by left. simpl in H.
    destruct (Legacy.lab_fetch labs [] pid) as [l|] eqn:Hfetch; [|done]. simpl in H.
    assert (forall k, k ∈ pids -> dict_get k (dict_set pid l d) = Some []) as Hd1.
    { intros k Hk. rewrite dict_get_set, decide_False by (by intros ->).
      apply Hd. by right. }
    intros k. destruct (IH _ Hnd Hd1 H k) as [Hin Hout]. split.
    + intros [->|Hk]%elem_of_cons; [|by apply Hin].
      exists l. split; [done|]. rewrite Hout by done.
      rewrite dict_get_set. by rewrite decide_True.
    + intros Hk. rewrite not_elem_of_cons in Hk. destruct Hk as [Hne Hk].
      rewrite Hout by done. rewrite dict_get_set. by rewrite decide_False.
Qed.

Lemma older_lab_fetch_status (labs : Z -> reply) (pid : Z) (l : list Lab.t) :
  Legacy.lab_fetch labs [] pid = Ok l ->
  exists status body,
    labs pid = Reply status body /\
    (status = 200 \/ status = 404 \/ ~ 400 <= status < 600) /\
    (status <> 200 -> l = []).
Proof.
  unfold Legacy.lab_fetch. destruct (labs pid) as [|status body]; [done|].
  intros H. exists status, body. split; [done|]. revert H.
  destruct (Z.eqb_spec status 200) as [->|H200]; [by split; [left|]|].
  destruct (Z.eqb_spec status 404) as [->|H404]; simpl.
  - intros [= <-]. split; [right; by left|done].
  - unfold raise_for_status.
    destruct (Z.leb_spec 400 status), (Z.ltb_spec status 600); simpl;
      try done; intros [= <-]; (split; [right; right; lia|done]).
Qed.

(** X21.  The older script publishes no item whose lab request failed.
    For every item it builds, the lab source answered the request for the
    item's id, and with status 200, with 404, or with a status outside
    400..599; when the status was not 200 the item has no lab results.  An
    item whose lab request timed out, or was answered with a status such
    as 401, 429 or 500, is in no list of items the script builds. *)
Theorem older_items_have_answered_lab_requests (fuel : nat) (up : Legacy.upstream)
    (items : list Legacy.Item.t) (r : Legacy.Item.t) :
  Legacy.build_final fuel up = Some (Ok items) ->
  r ∈ items ->
  exists status body,
    Legacy.labs up (Legacy.Item.Id r) = Reply status body /\
    (status = 200 \/ status = 404 \/ ~ 400 <= status < 600) /\
    (status <> 200 -> Legacy.Item.LabResults r = []).
Proof.
  intros H Hr.
  apply older_build_packages in H as (em & pm & lbp & _ & Hnd & Hid & Hlab & ->).
  unfold Legacy.final in Hr. apply list_elem_of_fmap in Hr as (e & -> & He).
  apply elem_of_values in He as [k Hin]. simpl. rewrite (Hid _ _ Hin).
  assert (k ∈ keys pm) as Hk by (apply elem_of_keys; eauto).
  destruct (older_lab_loop_get _ _ _ _ Hnd (dict_get_init (keys pm)) Hlab k)
    as [Hget _].
  destruct (Hget Hk) as (l & Hl & ->). simpl.
  by apply older_lab_fetch_status.
Qed.

Lemma older_items_have_answered_lab_requests_witness :
  exists status body,
    Scenario.labs 20 = Reply status body /\
    (status = 200 \/ status = 404 \/ ~ 400 <= status < 600) /\
    (status <> 200 ->
     Legacy.Item.LabResults (Scenario.older_item 20 "1A4-020" "Sour Diesel 1g" None None [])
       = []).
Proof.
  apply (older_items_have_answered_lab_requests 5 Scenario.older Scenario.older_expected
           (Scenario.older_item 20 "1A4-020" "Sour Diesel 1g" None None [])).
  - vm_compute. reflexivity.
  - right. left.
Defined.

(** ** What a run of the older script does to the working copy *)

(** X22.  The older script publishes at every complete run.  A run writes
    [menu.json] exactly when step 0 had a workbook, the items were built
    and the pull succeeded; what it writes is the serialization of the
    items, whatever the file held before, and it then adds, commits and
    pushes.  The run ends with status 0 exactly when, on top of that, the
    push succeeded.  A run that wrote nothing leaves the file as it found
    it, or as the failed pull left it.  Runs that reach a value
    the embedding has no rendering for are left out. *)
Theorem older_run_publishes_every_complete_run (dumps : list Legacy.Item.t -> string)
    (fuel : nat) (up : Legacy.upstream) (file : option string) (git : Legacy.remote)
    (out : Legacy.outcome) :
  Legacy.run dumps fuel up file git = Some out ->
  Legacy.build_final fuel up <> Some (Raise NotModelled) ->
  (forall c,
     In (WriteFile c) (Legacy.actions out) <->
     Legacy.have_excel up = true /\ Legacy.pull_status git = 0 /\
     exists items, Legacy.build_final fuel up = Some (Ok items) /\ c = dumps items) /\
  (forall c, In (WriteFile c) (Legacy.actions out) ->
     Legacy.actions out = [GitPull; WriteFile c; GitAdd; GitCommit; GitPush] /\
     Legacy.menu_json out = Some c /\
     (Legacy.exit_code out = 0 <-> Legacy.push_status git = 0)) /\
  ((forall c, ~ In (WriteFile c) (Legacy.actions out)) ->
   Legacy.exit_code out = 1 /\ ~ In GitPush (Legacy.actions out) /\
   (Legacy.menu_json out = file \/
    (Legacy.actions out = [GitPull] /\ Legacy.menu_json out = Legacy.pulled_file git))).
Proof.
  unfold Legacy.run. destruct (Legacy.have_excel up); simpl.
  2:{ intros [= <-] _. simpl. split_and!.
      - intros c. split; [done|]. by intros [? _].
      - by intros c [].
      - intros _. split_and!; [done|by intros []|by left]. }
  destruct (Legacy.build_final fuel up) as [[items|e]|]; [| |done].
  - unfold Legacy.publish. intros [= <-] _.
    destruct (Z.eqb_spec (Legacy.pull_status git) 0) as [Hpull|Hpull]; simpl.
    + split_and!.
      * intros c. split.
        -- intros [H|[H|[H|[H|[H|[]]]]]]; try discriminate. injection H as <-.
           split_and!; [done|done|]. by exists items.
        -- intros (_ & _ & items' & [= <-] & ->). right. by left.
      * intros c [H|[H|[H|[H|[H|[]]]]]]; try discriminate. injection H as <-.
        split_and!; [done|done|].
        destruct (Z.eqb_spec (Legacy.push_status git) 0); simpl; split; try done; lia.
      * intros Hnone. destruct (Hnone (dumps items)). right. by left.
    + split_and!.
      * intros c. split; [intros [H|[]]; discriminate|]. by intros (_ & ? & _).
      * intros c [H|[]]. discriminate.
      * intros _. split_and!; [done|intros [H|[]]; discriminate|by right].
  - intros [= <-] _. simpl. split_and!.
    + intros c. split; [done|]. by intros (_ & _ & items & ? & _).
    + by intros c [].
    + intros _. split_and!; [done|by intros []|by left].
Qed.

Lemma older_run_publishes_every_complete_run_witness :
  In (WriteFile "Blue Dream 3.5g")
     [GitPull; WriteFile "Blue Dream 3.5g"; GitAdd; GitCommit; GitPush] <->
  Legacy.have_excel Scenario.older_dated = true /\
  Legacy.pull_status Scenario.push_refused = 0 /\
  exists items, Legacy.build_final 5 Scenario.older_dated = Some (Ok items) /\
                "Blue Dream 3.5g" = Scenario.older_dumps items.
Proof.
  refine (proj1 (older_run_publishes_every_complete_run Scenario.older_dumps 5
                   Scenario.older_dated (Some "Blue Dream 3.5g") Scenario.push_refused
                   {| Legacy.exit_code := 1;
                      Legacy.actions := [GitPull; WriteFile "Blue Dream 3.5g"; GitAdd;
                                         GitCommit; GitPush];
                      Legacy.menu_json := Some "Blue Dream 3.5g" |} _ _) "Blue Dream 3.5g").
  - vm_compute. reflexivity.
  - vm_compute. discriminate.
Defined.

(** ** A blank price *)

(** X23.  A blank [Price] cell is not a missing price.  Take an item of a
    payload and the last kept row of the first worksheet that has the
    item's [ItemName] as its product name.  If the row's [Price] cell is
    blank, the cell is read as the float NaN, its text [nan] is a decimal,
    and the item's [Price] is the float NaN, not null.  The [Price] is
    null when the worksheet has no [Price] column. *)
Theorem blank_price_cell_is_published_as_nan (fuel : nat) (up : upstream) (p : payload)
    (xl : workbook) (r : Item.t) (l1 l2 : list series) (row : series) :
  build_payload fuel up = Some (Ok p) ->
  excel up = Some xl ->
  r ∈ items p ->
  iterrows (first_sheet xl) = (l1 ++ row :: l2)%list ->
  has_product row = true ->
  product_name row = Item.ItemName r ->
  (forall row', row' ∈ l2 -> has_product row' = true ->
                product_name row' <> Item.ItemName r) ->
  (row_get "Price" row = Some CNaN -> Item.Price r = Some Fnan) /\
  (row_get "Price" row = None -> Item.Price r = None).
Proof.
  intros H Hxl Hr Hrows Hkeep Hname Hlast.
  destruct (item_metadata _ _ _ _ H Hr) as [_ ->].
  assert (Htable := metadata_table _ _ _ _ H Hxl).
  rewrite <- Hname in *.
  unfold excel_price.
  destruct (product_table_last _ _ l1 l2 row Htable Hrows Hkeep Hlast) as (q & Hq & ->).
  unfold product_of_row in Hq. split.
  - intros Hcell. rewrite Hcell in Hq. by injection Hq as <-.
  - intros Hcell. rewrite Hcell in Hq. by injection Hq as <-.
Qed.

Lemma blank_price_cell_is_published_as_nan_witness :
  Item.Price (Scenario.item 20 "1A4-020" "Sour Diesel 1g" (Some "Preroll") (Some Fnan) [])
    = Some Fnan.
Proof.
  refine (proj1 (blank_price_cell_is_published_as_nan 5 Scenario.unpriced
                   Scenario.unpriced_expected Scenario.unpriced_book
                   (Scenario.item 20 "1A4-020" "Sour Diesel 1g" (Some "Preroll")
                      (Some Fnan) [])
                   [[("Product", CStr "Blue Dream 3.5g"); ("Price", CStr "$45.00");
                     ("Type", CStr "Flower")]]
                   []
                   [("Product", CStr "Sour Diesel 1g"); ("Price", CNaN);
                    ("Type", CStr "Preroll")] _ _ _ _ _ _ _) _).
  - vm_compute. reflexivity.
  - reflexivity.
  - right. left.
  - reflexivity.
  - reflexivity.
  - reflexivity.
  - intros row' Hin. by apply elem_of_nil in Hin.
  - reflexivity.
Defined.
